(** * Events service: HTTP handlers over a SQL-backed repository

    A shallow embedding of the event service (package [api]: the HTTP
    controller; package [internal]: the repository over [database/sql] and
    the [events] table of migration 001) and the properties of its
    specification.

    Layout: the Go values the program manipulates (strings as byte
    sequences, [time.Time], [uuid.UUID], [error], [context.Context], JSON
    documents), the storage engine behind the connection handle, the
    repository, the controller, and then the theorems. *)

From Stdlib Require Import ZArith List String Ascii Bool Lia.
From Stdlib Require Import Sorting.Sorted Sorting.Permutation.
Import ListNotations.

Local Open Scope string_scope.
Local Open Scope Z_scope.

Set Implicit Arguments.
Set Warnings "-register-all".

(* ================================================================= *)
(** ** Go strings: bytes, runes, white space *)

(** A Go [string] is a byte sequence; [len] counts bytes. *)
Definition len (s : string) : nat := String.length s.

Definition byte_of (c : ascii) : Z := Z.of_N (N_of_ascii c).

Definition rune := Z.

Definition between (lo hi b : Z) : bool := (lo <=? b) && (b <=? hi).

Module utf8.

Definition RuneError : rune := 65533.

(** [utf8.DecodeRuneInString]: the first rune of [s] and its width in
    bytes. An ill-formed or truncated sequence decodes to
    [(RuneError, 1)], the empty string to [(RuneError, 0)]. The second
    byte of a sequence is checked against the accept range of its leading
    byte (E0: A0..BF, ED: 80..9F, F0: 90..BF, F4: 80..8F). *)
Definition DecodeRuneInString (s : string) : rune * nat :=
  match s with
  | EmptyString => (RuneError, 0%nat)
  | String c0 rest =>
    let s0 := byte_of c0 in
    if s0 <? 128 then (s0, 1%nat)
    else if (s0 <? 194) || (244 <? s0) then (RuneError, 1%nat)
    else
      let sz : nat :=
        if s0 <? 224 then 2%nat else if s0 <? 240 then 3%nat else 4%nat in
      let lo := if s0 =? 224 then 160 else if s0 =? 240 then 144 else 128 in
      let hi := if s0 =? 237 then 159 else if s0 =? 244 then 143 else 191 in
      if (len s <? sz)%nat then (RuneError, 1%nat)
      else
        match rest with
        | EmptyString => (RuneError, 1%nat)
        | String c1 rest1 =>
          let s1 := byte_of c1 in
          if negb (between lo hi s1) then (RuneError, 1%nat)
          else if (sz <=? 2)%nat
          then (Z.lor (Z.shiftl (Z.land s0 31) 6) (Z.land s1 63), 2%nat)
          else
            match rest1 with
            | EmptyString => (RuneError, 1%nat)
            | String c2 rest2 =>
              let s2 := byte_of c2 in
              if negb (between 128 191 s2) then (RuneError, 1%nat)
              else if (sz <=? 3)%nat
              then (Z.lor (Z.shiftl (Z.land s0 15) 12)
                     (Z.lor (Z.shiftl (Z.land s1 63) 6) (Z.land s2 63)), 3%nat)
              else
                match rest2 with
                | EmptyString => (RuneError, 1%nat)
                | String c3 _ =>
                  let s3 := byte_of c3 in
                  if negb (between 128 191 s3) then (RuneError, 1%nat)
                  else (Z.lor (Z.shiftl (Z.land s0 7) 18)
                         (Z.lor (Z.shiftl (Z.land s1 63) 12)
                           (Z.lor (Z.shiftl (Z.land s2 63) 6) (Z.land s3 63))),
                        4%nat)
                end
            end
        end
  end.

(** The runes of [s] in order, each with the bytes it was decoded from,
    as a [for _, r := range s] loop sees them. [skip] counts the bytes of
    the current rune still to be stepped over. *)
Fixpoint runesFrom (skip : nat) (s : string) : list (rune * string) :=
  match s with
  | EmptyString => []
  | String _ s' =>
    match skip with
    | S k => runesFrom k s'
    | O =>
      let (r, size) := DecodeRuneInString s in
      (r, substring 0 size s) :: runesFrom (size - 1) s'
    end
  end.

Definition runes (s : string) : list (rune * string) := runesFrom 0 s.

(** [utf8.RuneCountInString]: the number of characters of [s]. *)
Definition RuneCountInString (s : string) : nat := List.length (runes s).

(** [utf8.ValidString]: no byte of [s] decodes as an encoding error,
    that is to [RuneError] of width one. *)
Definition ValidString (s : string) : bool :=
  forallb (fun rb => negb ((fst rb =? RuneError) && (len (snd rb) =? 1)%nat))
          (runes s).

End utf8.

Module unicode.

(** [unicode.IsSpace]: the Latin-1 spaces and the code points with the
    White_Space property. *)
Definition IsSpace (r : rune) : bool :=
  if r <=? 255
  then between 9 13 r || (r =? 32) || (r =? 133) || (r =? 160)
  else (r =? 5760) || between 8192 8202 r || between 8232 8233 r
       || (r =? 8239) || (r =? 8287) || (r =? 12288).

End unicode.

Module strings.

Fixpoint dropSpaces (l : list (rune * string)) : list (rune * string) :=
  match l with
  | [] => []
  | (r, b) :: l' => if unicode.IsSpace r then dropSpaces l' else l
  end.

Definition bytesOf (l : list (rune * string)) : string :=
  fold_right (fun rb acc => snd rb ++ acc) "" l.

(** [strings.TrimSpace]: [s] without its leading and trailing white
    space. *)
Definition TrimSpace (s : string) : string :=
  bytesOf (rev (dropSpaces (rev (dropSpaces (utf8.runes s))))).

End strings.

(* ================================================================= *)
(** ** [time.Time] *)

Module time.

Inductive Location : Type :=
| UTC
| Local
| FixedZone (name : string) (offset : Z).

(** An instant with nanosecond precision and the location it is shown
    in: [sec] counts seconds since January 1, year 1, 00:00:00 UTC, and
    [0 <= nsec < 1e9]. The values the handlers compare come from JSON or
    went through [UTC()], so none carries a monotonic clock reading. *)
Record Time : Type := mkTime { sec : Z; nsec : Z; loc : Location }.

(** [Time{}] *)
Definition zero : Time := mkTime 0 0 UTC.

Definition IsZero (t : Time) : bool := (sec t =? 0) && (nsec t =? 0).

Definition Before (t u : Time) : bool :=
  (sec t <? sec u) || ((sec t =? sec u) && (nsec t <? nsec u)).

(** [t.Equal(u)]: the same instant, whatever the locations. *)
Definition Equal (t u : Time) : bool :=
  (sec t =? sec u) && (nsec t =? nsec u).

(** [t.In(l)]: the same instant shown in location [l]. *)
Definition In (t : Time) (l : Location) : Time := mkTime (sec t) (nsec t) l.

(** [t.UTC()] *)
Definition toUTC (t : Time) : Time := In t UTC.

Definition Duration := Z.
Definition Second : Duration := 1000000000.

(** The instant [ns] nanoseconds after the zero time, in location [l]. *)
Definition at_ns (ns : Z) (l : Location) : Time :=
  mkTime (ns / Second) (ns mod Second) l.

(** The offset to UTC, in seconds, of the times shown in a location.
    [Local] is the zone of the process, taken to lie at UTC. *)
Definition offsetOf (l : Location) : Z :=
  match l with
  | UTC => 0
  | Local => 0
  | FixedZone _ offset => offset
  end.

(** [t.Year()]: the year of [t] in its location, in the proleptic
    Gregorian calendar. *)
Definition Year (t : Time) : Z :=
  let days := (sec t + offsetOf (loc t)) / 86400 in
  let z := days + 306 in
  let era := z / 146097 in
  let doe := z - era * 146097 in
  let yoe := (doe - doe / 1460 + doe / 36524 - doe / 146096) / 365 in
  let doy := doe - (365 * yoe + yoe / 4 - yoe / 100) in
  let mp := (5 * doy + 2) / 153 in
  yoe + era * 400 + (if 10 <=? mp then 1 else 0).

(** *** RFC 3339 text, as [Time.UnmarshalJSON] reads it *)

Definition isLeap (year : Z) : bool :=
  (year mod 4 =? 0) && (negb (year mod 100 =? 0) || (year mod 400 =? 0)).

Definition daysIn (month year : Z) : Z :=
  if month =? 2 then (if isLeap year then 29 else 28)
  else if (month =? 4) || (month =? 6) || (month =? 9) || (month =? 11)
       then 30 else 31.

(** Days from January 1, year 1 to the given proleptic Gregorian date. *)
Definition daysSinceYear1 (year month day : Z) : Z :=
  let y := if month <=? 2 then year - 1 else year in
  let era := y / 400 in
  let yoe := y - era * 400 in
  let mp := if 2 <? month then month - 3 else month + 9 in
  let doy := (153 * mp + 2) / 5 + day - 1 in
  let doe := yoe * 365 + yoe / 4 - yoe / 100 + doy in
  era * 146097 + doe - 306.

(** [time.Date(year, month, day, hour, min, sec, nsec, time.UTC)] for
    fields already in range. *)
Definition Date (year month day hour min s ns : Z) : Time :=
  mkTime (((daysSinceYear1 year month day * 24 + hour) * 60 + min) * 60 + s)
         ns UTC.

Definition isDigit (c : ascii) : bool := between 48 57 (byte_of c).

(** [parseUint]: the decimal number written by [s] when every byte is a
    digit and the value lies in [[lo, hi]]. *)
Definition parseUint (s : string) (lo hi : Z) : option Z :=
  let digits := list_ascii_of_string s in
  if forallb isDigit digits then
    let x := fold_left (fun acc c => acc * 10 + (byte_of c - 48)) digits 0 in
    if (lo <=? x) && (x <=? hi) then Some x else None
  else None.

Definition byteAt (s : string) (i : nat) : Z :=
  match String.get i s with
  | Some c => byte_of c
  | None => -1
  end.

Fixpoint takeDigits (s : string) : string :=
  match s with
  | EmptyString => EmptyString
  | String c s' => if isDigit c then String c (takeDigits s') else EmptyString
  end.

(** [parseNanoseconds]: the digits after the decimal point as
    nanoseconds; digits beyond the ninth are dropped. *)
Definition parseNanoseconds (digits : string) : Z :=
  let d := substring 0 9 (digits ++ "000000000") in
  fold_left (fun acc c => acc * 10 + (byte_of c - 48))
            (list_ascii_of_string d) 0.

Definition bind_opt {A B} (o : option A) (f : A -> option B) : option B :=
  match o with
  | Some a => f a
  | None => None
  end.

(** [parseRFC3339]: date and time [2006-01-02T15:04:05], an optional
    fraction of a second, and [Z] or a numeric offset [+07:00]. A time
    written with an offset is shown in the fixed zone of that offset. *)
Definition parseRFC3339 (s : string) : option Time :=
  if (len s <? 19)%nat then None else
  bind_opt (parseUint (substring 0 4 s) 0 9999) (fun year =>
  bind_opt (parseUint (substring 5 2 s) 1 12) (fun month =>
  bind_opt (parseUint (substring 8 2 s) 1 (daysIn month year)) (fun day =>
  bind_opt (parseUint (substring 11 2 s) 0 23) (fun hour =>
  bind_opt (parseUint (substring 14 2 s) 0 59) (fun min =>
  bind_opt (parseUint (substring 17 2 s) 0 59) (fun s_ =>
  if negb ((byteAt s 4 =? 45) && (byteAt s 7 =? 45) && (byteAt s 10 =? 84)
           && (byteAt s 13 =? 58) && (byteAt s 16 =? 58))
  then None else
  let rest := substring 19 (len s - 19) s in
  let frac :=
    if (byteAt rest 0 =? 46) && between 48 57 (byteAt rest 1)
    then takeDigits (substring 1 (len rest - 1) rest) else "" in
  let ns := if (len frac =? 0)%nat then 0 else parseNanoseconds frac in
  let skip := if (len frac =? 0)%nat then 0%nat else S (len frac) in
  let zone := substring skip (len rest - skip) rest in
  let t := Date year month day hour min s_ ns in
  if String.eqb zone "Z" then Some t
  else if negb (len zone =? 6)%nat then None else
    bind_opt (parseUint (substring 1 2 zone) 0 23) (fun hr =>
    bind_opt (parseUint (substring 4 2 zone) 0 59) (fun mm =>
    if negb (((byteAt zone 0 =? 45) || (byteAt zone 0 =? 43))
             && (byteAt zone 3 =? 58))
    then None else
    let off := (hr * 60 + mm) * 60 in
    let zoneOffset := if byteAt zone 0 =? 45 then - off else off in
    Some (mkTime (sec t - zoneOffset) (nsec t) (FixedZone "" zoneOffset))))
  )))))).

(** [getnum(s, fixed)]: the number written by the one or two digits at
    the head of [s] (two exactly when [fixed]), and the rest of [s]. *)
Definition getnum (s : string) (fixed : bool) : option (Z * string) :=
  match s with
  | EmptyString => None
  | String c0 rest =>
    if negb (isDigit c0) then None
    else
      match rest with
      | EmptyString => if fixed then None else Some (byte_of c0 - 48, rest)
      | String c1 rest1 =>
        if isDigit c1
        then Some ((byte_of c0 - 48) * 10 + (byte_of c1 - 48), rest1)
        else if fixed then None else Some (byte_of c0 - 48, rest)
      end
  end.

(** The rest of [s] after the byte [c] that the layout has next. *)
Definition literal (c : Z) (s : string) : option string :=
  match s with
  | EmptyString => None
  | String c0 rest => if byte_of c0 =? c then Some rest else None
  end.

(** [Parse(RFC3339, s)], the layout [2006-01-02T15:04:05Z07:00] read
    element by element: the hour may be written with one digit, a
    fraction of a second may follow the seconds after a period or a
    comma, an offset may have 24 as its hours and 60 as its minutes. *)
Definition Parse (s : string) : option Time :=
  if (len s <? 4)%nat then None else
  bind_opt (parseUint (substring 0 4 s) 0 9999) (fun year =>
  bind_opt (literal 45 (substring 4 (len s - 4) s)) (fun v =>
  bind_opt (getnum v true) (fun '(month, v) =>
  if (month <=? 0) || (12 <? month) then None else
  bind_opt (literal 45 v) (fun v =>
  bind_opt (getnum v true) (fun '(day, v) =>
  bind_opt (literal 84 v) (fun v =>
  bind_opt (getnum v false) (fun '(hour, v) =>
  if 24 <=? hour then None else
  bind_opt (literal 58 v) (fun v =>
  bind_opt (getnum v true) (fun '(min, v) =>
  if 60 <=? min then None else
  bind_opt (literal 58 v) (fun v =>
  bind_opt (getnum v true) (fun '(s_, rest) =>
  if 60 <=? s_ then None else
  let frac :=
    if ((byteAt rest 0 =? 46) || (byteAt rest 0 =? 44))
       && between 48 57 (byteAt rest 1)
    then takeDigits (substring 1 (len rest - 1) rest) else "" in
  let ns := if (len frac =? 0)%nat then 0 else parseNanoseconds frac in
  let skip := if (len frac =? 0)%nat then 0%nat else S (len frac) in
  let zone := substring skip (len rest - skip) rest in
  if (day <? 1) || (daysIn month year <? day) then None else
  let t := Date year month day hour min s_ ns in
  if String.eqb zone "Z" then Some t
  else if negb (len zone =? 6)%nat then None
  else if negb (byteAt zone 3 =? 58) then None
  else
    bind_opt (getnum (substring 1 2 zone) true) (fun '(hr, _) =>
    bind_opt (getnum (substring 4 2 zone) true) (fun '(mm, _) =>
    if (24 <? hr) || (60 <? mm) then None
    else if negb ((byteAt zone 0 =? 45) || (byteAt zone 0 =? 43)) then None
    else
      let off := (hr * 60 + mm) * 60 in
      let zoneOffset := if byteAt zone 0 =? 45 then - off else off in
      Some (mkTime (sec t - zoneOffset) (nsec t) (FixedZone "" zoneOffset))))
  ))))))))))).

(** [Time.UnmarshalJSON] on the text of a JSON string: the quick reading
    of the strict form, and [Parse] with the RFC 3339 layout for what the
    quick reading does not take. *)
Definition UnmarshalJSON (s : string) : option Time :=
  match parseRFC3339 s with
  | Some t => Some t
  | None => Parse s
  end.

End time.

(* ================================================================= *)
(** ** [error] values *)

Module errors.

(** The error values of the program: [errors.New] and [fmt.Errorf]
    without [%w] build an [errorString]; [fmt.Errorf] with one [%w] builds
    a [wrapError] around its operand; [sql.ErrNoRows],
    [context.Canceled] and [context.DeadlineExceeded] are the packages'
    sentinel values; [driverError] is a failure reported by the database
    driver (connection lost, constraint violated, statement refused). *)
Inductive error : Type :=
| errorString (s : string)
| wrapError (msg : string) (err : error)
| ErrNoRows
| Canceled
| DeadlineExceeded
| driverError (msg : string).

(** [err.Error()] *)
Definition Error (e : error) : string :=
  match e with
  | errorString s => s
  | wrapError msg _ => msg
  | ErrNoRows => "sql: no rows in result set"
  | Canceled => "context canceled"
  | DeadlineExceeded => "context deadline exceeded"
  | driverError msg => msg
  end.

(** [errors.Unwrap(err)]: the operand of [%w], [nil] for an error that
    wraps nothing. *)
Definition Unwrap (e : error) : option error :=
  match e with
  | wrapError _ err => Some err
  | _ => None
  end.

(** [err == target] for a sentinel [target]. *)
Definition isSentinel (target e : error) : bool :=
  match target, e with
  | ErrNoRows, ErrNoRows => true
  | Canceled, Canceled => true
  | DeadlineExceeded, DeadlineExceeded => true
  | _, _ => false
  end.

(** [errors.Is(err, target)] for a sentinel [target]: [target] occurs on
    the chain of wrapped errors. *)
Fixpoint Is (e target : error) : bool :=
  isSentinel target e ||
  match e with
  | wrapError _ err => Is err target
  | _ => false
  end.

(** An error with every message blanked: what is left to a caller that
    does not read message text. *)
Fixpoint shape (e : error) : error :=
  match e with
  | errorString _ => errorString ""
  | wrapError _ err => wrapError "" (shape err)
  | driverError _ => driverError ""
  | other => other
  end.

End errors.

Definition error : Type := errors.error.

Module fmt.

(** The text of [format] with its first [%w] or [%v] replaced by [arg]. *)
Fixpoint expand (format arg : string) : string :=
  match format with
  | String "%" (String "w" rest) => arg ++ rest
  | String "%" (String "v" rest) => arg ++ rest
  | String c rest => String c (expand rest arg)
  | EmptyString => EmptyString
  end.

(** [fmt.Errorf(format)] and [fmt.Errorf(format, err)] with one [%w]. *)
Definition Errorf (format : string) (operand : option error) : error :=
  match operand with
  | None => errors.errorString format
  | Some err => errors.wrapError (expand format (errors.Error err)) err
  end.

(** [fmt.Sprintf(format, err)] with one [%v]. *)
Definition Sprintf (format : string) (err : error) : string :=
  expand format (errors.Error err).

End fmt.

(* ================================================================= *)
(** ** [context.Context] *)

Module context.

(** A context is the background context, the context of an inbound
    request (canceled at the instant the client goes away, if it does),
    or a context derived from a parent with a deadline. Instants are
    nanoseconds on the wall clock. *)
Inductive Context : Type :=
| Background
| Request (disconnect : option Z)
| WithDeadline (parent : Context) (deadline : Z).

(** The instant at which the context is done and the error it reports
    from then on: the parent's cancellation reaches the child, unless the
    child's own deadline comes first. *)
Fixpoint doneAt (c : Context) : option (Z * error) :=
  match c with
  | Background => None
  | Request None => None
  | Request (Some t) => Some (t, errors.Canceled)
  | WithDeadline parent d =>
    match doneAt parent with
    | Some (t, e) =>
      if t <=? d then Some (t, e) else Some (d, errors.DeadlineExceeded)
    | None => Some (d, errors.DeadlineExceeded)
    end
  end.

(** [ctx.Err()] read at instant [now]. *)
Definition Err (c : Context) (now : Z) : option error :=
  match doneAt c with
  | Some (t, e) => if t <=? now then Some e else None
  | None => None
  end.

(** [context.WithTimeout(parent, d)] called at instant [now]. *)
Definition WithTimeout (parent : Context) (d : time.Duration) (now : Z)
  : Context :=
  WithDeadline parent (now + d).

End context.

(* ================================================================= *)
(** ** [uuid.UUID] *)

Module uuid.

(** The 16 bytes of an identifier, as a 128-bit number. *)
Definition UUID := Z.

Definition Nil : UUID := 0.

(** The value of a hexadecimal digit. *)
Definition xvalue (b : Z) : option Z :=
  if between 48 57 b then Some (b - 48)
  else if between 97 102 b then Some (b - 87)
  else if between 65 70 b then Some (b - 55)
  else None.

(** [xtob]: the byte written by two hexadecimal digits. *)
Definition xtob (x1 x2 : Z) : option Z :=
  match xvalue x1, xvalue x2 with
  | Some h, Some l => Some (Z.lor (Z.shiftl h 4) l)
  | _, _ => None
  end.

(** The bytes written at the given offsets of [s], most significant
    first, accumulated into [acc]. *)
Fixpoint hexBytes (s : string) (offsets : list nat) (acc : Z) : option Z :=
  match offsets with
  | [] => Some acc
  | x :: rest =>
    match xtob (time.byteAt s x) (time.byteAt s (S x)) with
    | Some v => hexBytes s rest (Z.lor (Z.shiftl acc 8) v)
    | None => None
    end
  end.

Definition lower (c : ascii) : ascii :=
  if between 65 90 (byte_of c)
  then ascii_of_N (Z.to_N (byte_of c + 32)) else c.

Definition EqualFold (a b : string) : bool :=
  String.eqb (string_of_list_ascii (map lower (list_ascii_of_string a)))
             (string_of_list_ascii (map lower (list_ascii_of_string b))).

(** [uuid.Parse]: the 36-byte form
    [xxxxxxxx-xxxx-xxxx-xxxx-xxxxxxxxxxxx], the same after [urn:uuid:] or
    between two enclosing bytes, and 32 bare hexadecimal digits. *)
Definition Parse (s : string) : option UUID :=
  let dashed (t : string) :=
    if (time.byteAt t 8 =? 45) && (time.byteAt t 13 =? 45)
       && (time.byteAt t 18 =? 45) && (time.byteAt t 23 =? 45)
    then hexBytes t [0; 2; 4; 6; 9; 11; 14; 16; 19; 21; 24; 26; 28; 30; 32; 34]%nat 0
    else None in
  if (len s =? 36)%nat then dashed s
  else if (len s =? 45)%nat then
    if EqualFold (substring 0 9 s) "urn:uuid:"
    then dashed (substring 9 36 s) else None
  else if (len s =? 38)%nat then dashed (substring 1 37 s)
  else if (len s =? 32)%nat then
    hexBytes s [0; 2; 4; 6; 8; 10; 12; 14; 16; 18; 20; 22; 24; 26; 28; 30]%nat 0
  else None.

End uuid.

(* ================================================================= *)
(** ** Slices *)

(** A Go slice is [nil] or holds elements; a slice that is not [nil] may
    be empty. *)
Inductive slice (A : Type) : Type :=
| nilSlice
| sliceOf (elems : list A).

Arguments nilSlice {A}.
Arguments sliceOf {A} elems.

Definition elements {A} (s : slice A) : list A :=
  match s with
  | nilSlice => []
  | sliceOf l => l
  end.

(** [append(s, x)] *)
Definition append {A} (s : slice A) (x : A) : slice A :=
  sliceOf (elements s ++ [x]).

(* ================================================================= *)
(** ** JSON documents *)

Module json.

(** A parsed JSON text, as the decoder sees a request body. *)
Inductive value : Type :=
| Null
| Bool (b : bool)
| Number (literal : string)
| Str (s : string)
| Array (elems : list value)
| Object (members : list (string * value)).

(** What [Encode] writes, as a tree. An identifier and a time are leaves
    standing for the JSON strings that [UUID.MarshalText] and
    [Time.MarshalJSON] write. *)
Inductive output : Type :=
| null
| str (s : string)
| uuidText (u : uuid.UUID)
| timeText (t : time.Time)
| array (elems : list output)
| object (members : list (string * output)).

(** [foldName]: the key under which field names are compared when no
    field matches exactly: ASCII letters in upper case, and the two code
    points that fold to ASCII letters (U+017F to S, U+212A to K). *)
Definition foldRune (rb : rune * string) : string :=
  let (r, b) := rb in
  if between 97 122 r then String (ascii_of_N (Z.to_N (r - 32))) ""
  else if r =? 383 then "S"
  else if r =? 8490 then "K"
  else b.

Definition foldName (key : string) : string :=
  fold_right (fun rb acc => foldRune rb ++ acc) "" (utf8.runes key).

(** The field of [names] an object key selects: the one spelled exactly
    like the key, else the first one equal to it under [foldName]. *)
Definition field (names : list string) (key : string) : option string :=
  match find (String.eqb key) names with
  | Some f => Some f
  | None => find (fun f => String.eqb (foldName f) (foldName key)) names
  end.

End json.

(* ================================================================= *)
(** ** The storage engine: table [events] of migration 001 *)

Module postgres.

(** Values on the wire, as statement parameters and as result columns. *)
Inductive value : Type :=
| Null
| Text (s : string)
| Uuid (u : uuid.UUID)
| Timestamptz (t : time.Time).

(** A row of [events]. [description] is nullable. The rows are those
    written by statements that leave [id], [created_at] and [updated_at]
    to their column defaults, so the three are always set. A
    [TIMESTAMPTZ] column keeps the instant, in UTC. *)
Record row : Type := mkRow {
  id : uuid.UUID;
  title : string;
  description : option string;
  start_time : time.Time;
  end_time : time.Time;
  created_at : time.Time;
  updated_at : time.Time
}.

(** The server: the rows of [events] in insertion order, the draws of
    [uuid_generate_v4()] still to come ([generator n] is the [n]-th draw,
    [generated] counts the draws made), the session [TimeZone] in which
    timestamps are sent back, the time a statement takes, and the message
    of the failure (if any) with which the connection currently answers
    every statement. *)
Record Server : Type := mkServer {
  events : list row;
  generator : nat -> uuid.UUID;
  generated : nat;
  TimeZone : time.Location;
  latency : time.Duration;
  failure : option string
}.

Definition with_events (s : Server) (rows : list row) (n : nat) : Server :=
  mkServer rows (generator s) n (TimeZone s) (latency s) (failure s).

(** The statements of the repository, white space between tokens written
    as one space. *)
Definition insertEvent : string :=
  "INSERT INTO events (title, description, start_time, end_time) VALUES ($1, $2, $3, $4) RETURNING id, title, description, start_time, end_time, created_at, updated_at".

Definition selectEvents : string :=
  "SELECT id, title, description, start_time, end_time, created_at, updated_at FROM events ORDER BY start_time ASC".

Definition selectEventByID : string :=
  "SELECT id, title, description, start_time, end_time, created_at, updated_at FROM events WHERE id = $1".

(** The result columns
    [id, title, description, start_time, end_time, created_at, updated_at]
    of a row, timestamps shown in the session time zone. *)
Definition columns (tz : time.Location) (r : row) : list value :=
  [ Uuid (id r);
    Text (title r);
    match description r with Some d => Text d | None => Null end;
    Timestamptz (time.In (start_time r) tz);
    Timestamptz (time.In (end_time r) tz);
    Timestamptz (time.In (created_at r) tz);
    Timestamptz (time.In (updated_at r) tz) ].

(** [ORDER BY start_time ASC]: rows by ascending instant; rows with the
    same [start_time] keep their relative order. *)
Fixpoint insertRow (r : row) (sorted : list row) : list row :=
  match sorted with
  | [] => [r]
  | x :: rest =>
    if time.Before (start_time r) (start_time x)
    then r :: sorted
    else x :: insertRow r rest
  end.

Definition orderByStartTime (rows : list row) : list row :=
  fold_left (fun acc r => insertRow r acc) rows [].

(** A [TIMESTAMPTZ] keeps microseconds: a time sent with nanoseconds is
    stored rounded to the nearest microsecond (a time half-way between
    two is rounded upwards here). *)
Definition timestamptz (t : time.Time) : time.Time :=
  let micros := (time.sec t * 1000000000 + time.nsec t + 500) / 1000 in
  time.mkTime (micros / 1000000) (micros mod 1000000 * 1000) time.UTC.

(** A [TEXT] or [VARCHAR] value is refused when it is not valid UTF-8,
    the encoding of the database, or holds a NUL byte. *)
Definition acceptsText (s : string) : bool :=
  utf8.ValidString s
  && negb (existsb (fun c => byte_of c =? 0) (list_ascii_of_string s)).

(** [INSERT INTO events (title, description, start_time, end_time)]:
    [title] is [VARCHAR(255) NOT NULL], the times are [NOT NULL], [id]
    defaults to [uuid_generate_v4()] and is the primary key, [created_at]
    and [updated_at] both default to [NOW()], the start of the statement
    ([now], in nanoseconds). *)
Definition insert (args : list value) (now : Z) (s : Server)
  : (list (list value) + error) * Server :=
  match args with
  | [Text t; d; Timestamptz st; Timestamptz en] =>
    match (match d with
           | Null => Some None
           | Text x => Some (Some x)
           | _ => None
           end) with
    | None => (inr (errors.driverError "pq: invalid input for type text"), s)
    | Some descr =>
      if negb (acceptsText t
               && match descr with Some x => acceptsText x | None => true end)
      then (inr (errors.driverError
                   "pq: invalid byte sequence for encoding UTF8"), s)
      else if (255 <? utf8.RuneCountInString t)%nat
      then (inr (errors.driverError
                   "pq: value too long for type character varying(255)"), s)
      else
        let fresh := generator s (generated s) in
        let s1 := with_events s (events s) (S (generated s)) in
        if existsb (fun r => id r =? fresh) (events s)
        then (inr (errors.driverError
                     "pq: duplicate key value violates unique constraint events_pkey"),
              s1)
        else
          let stamp := time.at_ns now time.UTC in
          let r := mkRow fresh t descr (timestamptz st) (timestamptz en)
                         stamp stamp in
          (inl [columns (TimeZone s) r],
           with_events s (events s ++ [r]) (S (generated s)))
    end
  | _ => (inr (errors.driverError "pq: wrong statement parameters"), s)
  end.

(** The engine on the statements it is sent. *)
Definition execute (query : string) (args : list value) (now : Z) (s : Server)
  : (list (list value) + error) * Server :=
  if String.eqb query insertEvent then insert args now s
  else if String.eqb query selectEvents then
    match args with
    | [] => (inl (map (columns (TimeZone s)) (orderByStartTime (events s))), s)
    | _ => (inr (errors.driverError "pq: wrong statement parameters"), s)
    end
  else if String.eqb query selectEventByID then
    match args with
    | [Uuid u] =>
      (inl (map (columns (TimeZone s))
                (filter (fun r => id r =? u) (events s))), s)
    | _ => (inr (errors.driverError "pq: wrong statement parameters"), s)
    end
  else (inr (errors.driverError "pq: syntax error"), s).

End postgres.

(* ================================================================= *)
(** ** The world a request runs in *)

(** The wall clock (nanoseconds since the zero time), the random source
    behind [uuid.New()] with the number of identifiers drawn from it, the
    database server, and the calls made on the connection handle (query
    text and parameters, oldest first). *)
Record World : Type := mkWorld {
  clock : Z;
  random : nat -> uuid.UUID;
  drawn : nat;
  server : postgres.Server;
  issued : list (string * list postgres.value)
}.

(** Computations that read and change the world. *)
Definition M (A : Type) : Type := World -> A * World.

Definition ret {A} (a : A) : M A := fun w => (a, w).

Definition bind {A B} (m : M A) (k : A -> M B) : M B :=
  fun w => let (a, w') := m w in k a w'.

Declare Scope go_scope.
Delimit Scope go_scope with go.
Notation "x <- m ;; k" := (bind m (fun x => k))
  (at level 100, m at next level, right associativity) : go_scope.
Notation "' p <- m ;; k" := (bind m (fun p => k))
  (at level 100, p pattern, m at next level, right associativity) : go_scope.
Local Open Scope go_scope.

(** [time.Now()] *)
Definition time_Now : M time.Time :=
  fun w => (time.at_ns (clock w) time.Local, w).

(** [uuid.New()] *)
Definition uuid_New : M uuid.UUID :=
  fun w => (random w (drawn w),
            mkWorld (clock w) (random w) (S (drawn w)) (server w) (issued w)).

(** [context.WithTimeout(parent, d)] *)
Definition context_WithTimeout (parent : context.Context) (d : time.Duration)
  : M context.Context :=
  fun w => (context.WithTimeout parent d (clock w), w).

(** [ctx.Err()] *)
Definition ctx_Err (ctx : context.Context) : M (option error) :=
  fun w => (context.Err ctx (clock w), w).

(* ================================================================= *)
(** ** [database/sql] over the connection *)

Module sql.

(** The connection handle [*sql.DB]. *)
Inductive DB : Type := Open.

(** [*sql.Rows]: the rows of a result and the error met while iterating. *)
Record Rows : Type := mkRows {
  data : list (list postgres.value);
  iterErr : option error
}.

(** [*sql.Row]: the deferred outcome of [QueryRowContext]. *)
Record Row : Type := mkRow { err : option error; rows : list (list postgres.value) }.

(** [db.QueryContext(ctx, query, args...)]: the call is recorded; a
    context that is already done fails it at once; a failing connection
    reports its failure; otherwise the statement takes [latency], and is
    aborted with the context's error, without effect, when the context is
    done before it completes. *)
Definition QueryContext (db : DB) (ctx : context.Context) (query : string)
           (args : list postgres.value) : M (Rows * option error) :=
  fun w =>
    let log := (issued w ++ [(query, args)])%list in
    match context.Err ctx (clock w) with
    | Some e =>
      (mkRows [] None, Some e,
       mkWorld (clock w) (random w) (drawn w) (server w) log)
    | None =>
      match postgres.failure (server w) with
      | Some msg =>
        (mkRows [] None, Some (errors.driverError msg),
         mkWorld (clock w) (random w) (drawn w) (server w) log)
      | None =>
        let finish := clock w + postgres.latency (server w) in
        match context.Err ctx finish with
        | Some e =>
          (mkRows [] None, Some e,
           mkWorld finish (random w) (drawn w) (server w) log)
        | None =>
          let (res, srv) := postgres.execute query args (clock w) (server w) in
          match res with
          | inl result =>
            (mkRows result None, None,
             mkWorld finish (random w) (drawn w) srv log)
          | inr e =>
            (mkRows [] None, Some e,
             mkWorld finish (random w) (drawn w) srv log)
          end
        end
      end
    end.

(** [db.QueryRowContext(ctx, query, args...)] *)
Definition QueryRowContext (db : DB) (ctx : context.Context) (query : string)
           (args : list postgres.value) : M Row :=
  '(rs, e) <- QueryContext db ctx query args ;;
  ret (mkRow e (data rs)).

End sql.

(* ================================================================= *)
(** ** Package [internal]: the repository *)

Module internal.

(** [EventDB]: a record of [events]; [Description] is a [*string]. *)
Record EventDB : Type := mkEventDB {
  ID : uuid.UUID;
  Title : string;
  Description : option string;
  StartTime : time.Time;
  EndTime : time.Time;
  CreatedAt : time.Time;
  UpdatedAt : time.Time
}.

(** [EventRepositoryInterface]: a value of the interface is a receiver
    with its three methods. A result pair [*EventDB, error] is a pair of
    an optional record and an optional error. *)
Record EventRepositoryInterface : Type := mkInterface {
  CreateEvent : context.Context -> EventDB -> M (option EventDB * option error);
  GetEvents : context.Context -> M (slice EventDB * option error);
  GetEventByID : context.Context -> uuid.UUID -> M (option EventDB * option error)
}.

(** [rows.Scan(&e.ID, &e.Title, &e.Description, &e.StartTime, &e.EndTime,
    &e.CreatedAt, &e.UpdatedAt)]: seven columns of the destinations'
    types, [NULL] allowed for the [*string] only. *)
Definition scanEvent (cols : list postgres.value) : EventDB + error :=
  match cols with
  | [postgres.Uuid i; postgres.Text t; d; postgres.Timestamptz st;
     postgres.Timestamptz en; postgres.Timestamptz c; postgres.Timestamptz u] =>
    match d with
    | postgres.Null => inl (mkEventDB i t None st en c u)
    | postgres.Text x => inl (mkEventDB i t (Some x) st en c u)
    | _ => inr (errors.errorString "sql: Scan error on column index 2")
    end
  | _ => inr (errors.errorString "sql: Scan error")
  end.

(** [row.Scan(...)] on the outcome of [QueryRowContext]: the error of the
    query if it failed, [sql.ErrNoRows] if it selected nothing, else the
    first row. *)
Definition scanRow (r : sql.Row) : EventDB + error :=
  match sql.err r with
  | Some e => inr e
  | None =>
    match sql.rows r with
    | [] => inr errors.ErrNoRows
    | cols :: _ => scanEvent cols
    end
  end.

(** A [*string] as a statement parameter. *)
Definition nullable (p : option string) : postgres.value :=
  match p with
  | Some s => postgres.Text s
  | None => postgres.Null
  end.

Record EventRepository : Type := mkRepository { db : sql.DB }.

Definition NewEventRepository (db : sql.DB) : EventRepository :=
  mkRepository db.

Module EventRepository.

(** [CreateEvent] inserts a new event into the database. *)
Definition CreateEvent (r : EventRepository) (ctx : context.Context)
           (event : EventDB) : M (option EventDB * option error) :=
  let query := postgres.insertEvent in
  row <- sql.QueryRowContext (db r) ctx query
           [postgres.Text (Title event); nullable (Description event);
            postgres.Timestamptz (StartTime event);
            postgres.Timestamptz (EndTime event)] ;;
  match scanRow row with
  | inr err =>
    ret (None, Some (fmt.Errorf "failed to create event: %w" (Some err)))
  | inl createdEvent => ret (Some createdEvent, None)
  end.

(** The loop [for rows.Next() { ...; events = append(events, event) }]. *)
Fixpoint scanAll (rest : list (list postgres.value)) (events : slice EventDB)
  : slice EventDB + error :=
  match rest with
  | [] => inl events
  | cols :: rest' =>
    match scanEvent cols with
    | inr err => inr err
    | inl event => scanAll rest' (append events event)
    end
  end.

(** [GetEvents] retrieves all events from the database. *)
Definition GetEvents (r : EventRepository) (ctx : context.Context)
  : M (slice EventDB * option error) :=
  let query := postgres.selectEvents in
  '(rows, err) <- sql.QueryContext (db r) ctx query [] ;;
  match err with
  | Some e => ret (nilSlice, Some (fmt.Errorf "failed to query events: %w" (Some e)))
  | None =>
    match scanAll (sql.data rows) nilSlice with
    | inr e => ret (nilSlice, Some (fmt.Errorf "failed to scan event: %w" (Some e)))
    | inl events =>
      match sql.iterErr rows with
      | Some e =>
        ret (nilSlice, Some (fmt.Errorf "error iterating events: %w" (Some e)))
      | None => ret (events, None)
      end
    end
  end.

(** [GetEventByID] retrieves a specific event by ID. *)
Definition GetEventByID (r : EventRepository) (ctx : context.Context)
           (id : uuid.UUID) : M (option EventDB * option error) :=
  let query := postgres.selectEventByID in
  row <- sql.QueryRowContext (db r) ctx query [postgres.Uuid id] ;;
  match scanRow row with
  | inr err =>
    if errors.isSentinel errors.ErrNoRows err
    then ret (None, Some (fmt.Errorf "event not found" None))
    else ret (None, Some (fmt.Errorf "failed to get event by ID: %w" (Some err)))
  | inl event => ret (Some event, None)
  end.

(** [*EventRepository] as an [EventRepositoryInterface]. *)
Definition interface (r : EventRepository) : EventRepositoryInterface :=
  mkInterface (CreateEvent r) (GetEvents r) (GetEventByID r).

End EventRepository.

(** [MockEventRepository]: the test double, a function per method, each
    possibly [nil]. *)
Record MockEventRepository : Type := mkMock {
  createEventFunc :
    option (context.Context -> EventDB -> M (option EventDB * option error));
  getEventsFunc :
    option (context.Context -> M (slice EventDB * option error));
  getEventByIDFunc :
    option (context.Context -> uuid.UUID -> M (option EventDB * option error))
}.

Definition NewMockEventRepository : MockEventRepository :=
  mkMock None None None.

Module MockEventRepository.

Definition CreateEvent (m : MockEventRepository) (ctx : context.Context)
           (event : EventDB) : M (option EventDB * option error) :=
  match createEventFunc m with
  | Some f => f ctx event
  | None => ret (None, Some (errors.errorString "mock not configured"))
  end.

Definition GetEvents (m : MockEventRepository) (ctx : context.Context)
  : M (slice EventDB * option error) :=
  match getEventsFunc m with
  | Some f => f ctx
  | None => ret (nilSlice, Some (errors.errorString "mock not configured"))
  end.

Definition GetEventByID (m : MockEventRepository) (ctx : context.Context)
           (id : uuid.UUID) : M (option EventDB * option error) :=
  match getEventByIDFunc m with
  | Some f => f ctx id
  | None => ret (None, Some (errors.errorString "mock not configured"))
  end.

Definition interface (m : MockEventRepository) : EventRepositoryInterface :=
  mkInterface (CreateEvent m) (GetEvents m) (GetEventByID m).

End MockEventRepository.

End internal.

(* ================================================================= *)
(** ** [net/http]: requests and responses *)

Module http.

Definition StatusOK : Z := 200.
Definition StatusCreated : Z := 201.
Definition StatusBadRequest : Z := 400.
Definition StatusNotFound : Z := 404.
Definition StatusRequestTimeout : Z := 408.
Definition StatusInternalServerError : Z := 500.

(** The body of a request: not a JSON text (the decoder's error), or the
    document it holds. *)
Inductive Body : Type :=
| malformed (err : error)
| document (v : json.value).

(** An inbound request: its context, its body, and the route variables
    of its path. *)
Record Request : Type := mkRequest {
  Context : context.Context;
  body : Body;
  Vars : list (string * string)
}.

(** What a handler wrote: nothing, plain text, or an encoded JSON
    document. *)
Inductive payload : Type :=
| nothing
| text (s : string)
| encoded (j : json.output).

Record Response : Type := mkResponse {
  StatusCode : Z;
  ContentType : string;
  Payload : payload
}.

Definition newline : string := String (ascii_of_nat 10) "".

(** [http.Error(w, msg, code)] *)
Definition Error (msg : string) (code : Z) : Response :=
  mkResponse code "text/plain; charset=utf-8" (text (msg ++ newline)).

End http.

(** [mux.Vars(r)[name]]: the empty string when the route has no such
    variable. *)
Fixpoint mux_Var (vars : list (string * string)) (name : string) : string :=
  match vars with
  | [] => ""
  | (k, v) :: rest => if String.eqb k name then v else mux_Var rest name
  end.

(* ================================================================= *)
(** ** Package [api]: the controller *)

Module api.

(** [EventController] handles HTTP requests for events. *)
Record EventController : Type := mkController {
  eventRepo : internal.EventRepositoryInterface
}.

Definition NewEventController (eventRepo : internal.EventRepositoryInterface)
  : EventController :=
  mkController eventRepo.

Record createEventInput : Type := mkInput {
  Title : string;
  Description : option string;
  StartTime : time.Time;
  EndTime : time.Time
}.

(** [var in createEventInput] *)
Definition zeroInput : createEventInput :=
  mkInput "" None time.zero time.zero.

(** The JSON names of the fields of [createEventInput]. *)
Definition fieldNames : list string :=
  ["title"; "description"; "start_time"; "end_time"].

Definition quote (s : string) : string :=
  String (ascii_of_nat 34) (s ++ String (ascii_of_nat 34) "").

(** [Time.UnmarshalJSON] on a member value: [null] leaves the field as it
    is, a string is read as RFC 3339, anything else is refused. *)
Definition decodeTime (v : json.value) (old : time.Time) : time.Time + error :=
  match v with
  | json.Null => inl old
  | json.Str s =>
    match time.UnmarshalJSON s with
    | Some t => inl t
    | None => inr (errors.errorString ("parsing time " ++ quote s))
    end
  | _ => inr (errors.errorString
                "Time.UnmarshalJSON: input is not a JSON string")
  end.

(** One member of the object into the struct, unknown fields
    disallowed. *)
Definition decodeMember (key : string) (v : json.value) (i : createEventInput)
  : createEventInput + error :=
  match json.field fieldNames key with
  | None => inr (errors.errorString ("json: unknown field " ++ quote key))
  | Some f =>
    if String.eqb f "title" then
      match v with
      | json.Str s => inl (mkInput s (Description i) (StartTime i) (EndTime i))
      | json.Null => inl i
      | _ => inr (errors.errorString
                    "json: cannot unmarshal into Go struct field createEventInput.title of type string")
      end
    else if String.eqb f "description" then
      match v with
      | json.Str s => inl (mkInput (Title i) (Some s) (StartTime i) (EndTime i))
      | json.Null => inl (mkInput (Title i) None (StartTime i) (EndTime i))
      | _ => inr (errors.errorString
                    "json: cannot unmarshal into Go struct field createEventInput.description of type string")
      end
    else if String.eqb f "start_time" then
      match decodeTime v (StartTime i) with
      | inl t => inl (mkInput (Title i) (Description i) t (EndTime i))
      | inr e => inr e
      end
    else
      match decodeTime v (EndTime i) with
      | inl t => inl (mkInput (Title i) (Description i) (StartTime i) t)
      | inr e => inr e
      end
  end.

Fixpoint decodeMembers (members : list (string * json.value))
         (i : createEventInput) : createEventInput + error :=
  match members with
  | [] => inl i
  | (key, v) :: rest =>
    match decodeMember key v i with
    | inl i' => decodeMembers rest i'
    | inr e => inr e
    end
  end.

(** [dec.DisallowUnknownFields(); dec.Decode(&in)]: [null] leaves the
    zero value, an object fills the fields its members name (a later
    member overrides an earlier one), any other document is refused. The
    texts of the decoder's errors are abridged. *)
Definition Decode (b : http.Body) : createEventInput + error :=
  match b with
  | http.malformed e => inr e
  | http.document json.Null => inl zeroInput
  | http.document (json.Object members) => decodeMembers members zeroInput
  | http.document _ =>
    inr (errors.errorString
           "json: cannot unmarshal into Go value of type api.createEventInput")
  end.

(** [json.NewEncoder(w).Encode(v)] for the values the handlers write.

    [Time.MarshalJSON] writes RFC 3339 text and fails on a time whose
    year, in its location, lies outside 0..9999, or whose offset to UTC
    has 24 hours or more. *)
Definition marshalTime (t : time.Time) : option json.output :=
  if (time.Year t <? 0) || (10000 <=? time.Year t) then None
  else if 24 <=? Z.abs (Z.quot (time.offsetOf (time.loc t)) 60) / 60 then None
  else Some (json.timeText t).

Definition marshalEvent (e : internal.EventDB) : option json.output :=
  time.bind_opt (marshalTime (internal.StartTime e)) (fun start_time =>
  time.bind_opt (marshalTime (internal.EndTime e)) (fun end_time =>
  time.bind_opt (marshalTime (internal.CreatedAt e)) (fun created_at =>
  time.bind_opt (marshalTime (internal.UpdatedAt e)) (fun updated_at =>
  Some (json.object
    [ ("id", json.uuidText (internal.ID e));
      ("title", json.str (internal.Title e));
      ("description", match internal.Description e with
                      | Some d => json.str d
                      | None => json.null
                      end);
      ("start_time", start_time);
      ("end_time", end_time);
      ("created_at", created_at);
      ("updated_at", updated_at) ]))))).

(** A [*EventDB]: [null] for a [nil] pointer. *)
Definition encodeEvent (p : option internal.EventDB) : option json.output :=
  match p with
  | Some e => marshalEvent e
  | None => Some json.null
  end.

(** The elements of an array, none written when one of them fails. *)
Fixpoint marshalEvents (l : list internal.EventDB) : option (list json.output) :=
  match l with
  | [] => Some []
  | e :: rest =>
    time.bind_opt (marshalEvent e) (fun j =>
    time.bind_opt (marshalEvents rest) (fun js => Some (j :: js)))
  end.

(** A [[]EventDB]: [null] for a [nil] slice, an array otherwise. *)
Definition encodeEvents (s : slice internal.EventDB) : option json.output :=
  match s with
  | nilSlice => Some json.null
  | sliceOf l => time.bind_opt (marshalEvents l) (fun js => Some (json.array js))
  end.

Definition jsonResponse (code : Z) (j : json.output) : http.Response :=
  http.mkResponse code "application/json" (http.encoded j).

(** The response once [Encode] has run under the header
    [Content-Type: application/json] and the status [code]: the document,
    or no body when [Encode] failed. [Encode] writes nothing before the
    whole value is encoded, and the handlers drop the error it returns. *)
Definition encodeResponse (code : Z) (encoding : option json.output)
  : http.Response :=
  match encoding with
  | Some j => jsonResponse code j
  | None => http.mkResponse code "application/json" http.nothing
  end.

Module EventController.

(** [CreateEvent] handles POST /events. *)
Definition CreateEvent (ec : EventController) (r : http.Request)
  : M http.Response :=
  ctx <- context_WithTimeout (http.Context r) (10 * time.Second) ;;
  match Decode (http.body r) with
  | inr err =>
    ret (http.Error (fmt.Sprintf "invalid JSON: %v" err) http.StatusBadRequest)
  | inl in_ =>
    if String.eqb (strings.TrimSpace (Title in_)) "" then
      ret (http.Error "title is required" http.StatusBadRequest)
    else if (100 <? len (Title in_))%nat then
      ret (http.Error "title must be <= 100 characters" http.StatusBadRequest)
    else if time.IsZero (StartTime in_) || time.IsZero (EndTime in_) then
      ret (http.Error "start_time and end_time are required (RFC3339)"
                      http.StatusBadRequest)
    else if negb (time.Before (StartTime in_) (EndTime in_)) then
      ret (http.Error "start_time must be before end_time"
                      http.StatusBadRequest)
    else
      id <- uuid_New ;;
      now <- time_Now ;;
      let createdAt := time.toUTC now in
      let event :=
        internal.mkEventDB id (Title in_) (Description in_)
                           (time.toUTC (StartTime in_))
                           (time.toUTC (EndTime in_))
                           createdAt createdAt in
      '(createdEvent, err) <- internal.CreateEvent (eventRepo ec) ctx event ;;
      match err with
      | Some _ =>
        cerr <- ctx_Err ctx ;;
        match cerr with
        | Some errors.DeadlineExceeded =>
          ret (http.Error "Request timeout" http.StatusRequestTimeout)
        | _ =>
          ret (http.Error "Failed to create event"
                          http.StatusInternalServerError)
        end
      | None =>
        ret (encodeResponse http.StatusCreated (encodeEvent createdEvent))
      end
  end.

(** [GetEvents] handles GET /events. *)
Definition GetEvents (ec : EventController) (r : http.Request)
  : M http.Response :=
  ctx <- context_WithTimeout (http.Context r) (10 * time.Second) ;;
  '(events, err) <- internal.GetEvents (eventRepo ec) ctx ;;
  match err with
  | Some _ =>
    cerr <- ctx_Err ctx ;;
    match cerr with
    | Some errors.DeadlineExceeded =>
      ret (http.Error "Request timeout" http.StatusRequestTimeout)
    | _ =>
      ret (http.Error "Failed to get events" http.StatusInternalServerError)
    end
  | None => ret (encodeResponse http.StatusOK (encodeEvents events))
  end.

(** [GetEventByID] handles GET /events/{id}. *)
Definition GetEventByID (ec : EventController) (r : http.Request)
  : M http.Response :=
  let ctx := http.Context r in
  let idStr := mux_Var (http.Vars r) "id" in
  match uuid.Parse idStr with
  | None => ret (http.Error "Invalid UUID format" http.StatusBadRequest)
  | Some id =>
    '(event, err) <- internal.GetEventByID (eventRepo ec) ctx id ;;
    match err with
    | Some _ => ret (http.Error "Event not found" http.StatusNotFound)
    | None => ret (encodeResponse http.StatusOK (encodeEvent event))
    end
  end.

End EventController.

(** The routes registered by [SetupRoutes]. *)
Inductive Route : Type :=
| POST_events
| GET_events
| GET_events_id.

Definition SetupRoutes (ec : EventController) (route : Route)
  : http.Request -> M http.Response :=
  match route with
  | POST_events => EventController.CreateEvent ec
  | GET_events => EventController.GetEvents ec
  | GET_events_id => EventController.GetEventByID ec
  end.

End api.

(* ================================================================= *)
(** ** The service as wired by [main], and the vocabulary of its properties *)

(** The controller over the storage-backed repository. *)
Definition storageBacked : api.EventController :=
  api.NewEventController
    (internal.EventRepository.interface (internal.NewEventRepository sql.Open)).

(** The error with which a statement sent under [ctx] in world [w] comes
    back without having been executed: the context is done already, the
    connection fails, or the context is done before the statement
    completes. *)
Definition refusal (ctx : context.Context) (w : World) : option error :=
  match context.Err ctx (clock w) with
  | Some e => Some e
  | None =>
    match postgres.failure (server w) with
    | Some msg => Some (errors.driverError msg)
    | None => context.Err ctx (clock w + postgres.latency (server w))
    end
  end.

(** The world once a call on the connection handle is recorded and has
    taken the time [d]. *)
Definition afterCall (w : World) (d : time.Duration) (srv : postgres.Server)
           (query : string) (args : list postgres.value) : World :=
  mkWorld (clock w + d) (random w) (drawn w) srv
          (issued w ++ [(query, args)])%list.

(** The record that the columns of a row scan into. *)
Definition recordOf (tz : time.Location) (r : postgres.row) : internal.EventDB :=
  internal.mkEventDB (postgres.id r) (postgres.title r) (postgres.description r)
                     (time.In (postgres.start_time r) tz)
                     (time.In (postgres.end_time r) tz)
                     (time.In (postgres.created_at r) tz)
                     (time.In (postgres.updated_at r) tz).

(** Non-decreasing [start_time], on rows and on records. *)
Definition rowLe (a b : postgres.row) : Prop :=
  time.Before (postgres.start_time b) (postgres.start_time a) = false.

Definition startsLe (a b : internal.EventDB) : Prop :=
  time.Before (internal.StartTime b) (internal.StartTime a) = false.

(** The context under which [CreateEvent] and [GetEvents] call the
    repository for request [r] arriving in world [w]. *)
Definition boundedCtx (r : http.Request) (w : World) : context.Context :=
  context.WithTimeout (http.Context r) (10 * time.Second) (clock w).

(** The status with which [CreateEvent] and [GetEvents] answer a
    repository error, given what [ctx.Err()] then reports. *)
Definition failureStatus (cerr : option error) : Z :=
  match cerr with
  | Some errors.DeadlineExceeded => http.StatusRequestTimeout
  | _ => http.StatusInternalServerError
  end.

(** The four checks of [CreateEvent] on a decoded input, in order. *)
Definition passes (i : api.createEventInput) : bool :=
  negb (String.eqb (strings.TrimSpace (api.Title i)) "")
  && negb (100 <? len (api.Title i))%nat
  && negb (time.IsZero (api.StartTime i) || time.IsZero (api.EndTime i))
  && time.Before (api.StartTime i) (api.EndTime i).

(** The record [CreateEvent] builds from input [i] in world [w]: a fresh
    [uuid.New()], the input's times in UTC, [time.Now().UTC()] twice. *)
Definition eventFor (i : api.createEventInput) (w : World) : internal.EventDB :=
  internal.mkEventDB (random w (drawn w)) (api.Title i) (api.Description i)
                     (time.toUTC (api.StartTime i)) (time.toUTC (api.EndTime i))
                     (time.toUTC (time.at_ns (clock w) time.Local))
                     (time.toUTC (time.at_ns (clock w) time.Local)).

(** The bodies that Create is to refuse: not a JSON text; an object with
    a member naming no field; a title that is empty or white space only;
    a title of more than 100 characters; a start or end time left at the
    zero value; a start time that is not before the end time. *)
Inductive Invalid (b : http.Body) : Prop :=
| invalid_malformed (e : error) :
    b = http.malformed e -> Invalid b
| invalid_unknown_field (members : list (string * json.value))
                        (key : string) (v : json.value) :
    b = http.document (json.Object members) ->
    List.In (key, v) members ->
    json.field api.fieldNames key = None ->
    Invalid b
| invalid_blank_title (i : api.createEventInput) :
    api.Decode b = inl i ->
    forallb (fun rb => unicode.IsSpace (fst rb)) (utf8.runes (api.Title i)) = true ->
    Invalid b
| invalid_long_title (i : api.createEventInput) :
    api.Decode b = inl i ->
    (100 < utf8.RuneCountInString (api.Title i))%nat ->
    Invalid b
| invalid_zero_time (i : api.createEventInput) :
    api.Decode b = inl i ->
    time.IsZero (api.StartTime i) = true \/ time.IsZero (api.EndTime i) = true ->
    Invalid b
| invalid_order (i : api.createEventInput) :
    api.Decode b = inl i ->
    time.Before (api.StartTime i) (api.EndTime i) = false ->
    Invalid b.

(** The JSON document of a record: its seven members under their
    names, [description] as [null] when absent, the identifier and the
    four times as text. *)
Definition recordJSON (e : internal.EventDB) : json.output :=
  json.object
    [ ("id", json.uuidText (internal.ID e));
      ("title", json.str (internal.Title e));
      ("description", match internal.Description e with
                      | Some d => json.str d
                      | None => json.null
                      end);
      ("start_time", json.timeText (internal.StartTime e));
      ("end_time", json.timeText (internal.EndTime e));
      ("created_at", json.timeText (internal.CreatedAt e));
      ("updated_at", json.timeText (internal.UpdatedAt e)) ].

(** A time that RFC 3339 text can show: its year, in its location, has
    four digits, and the offset of its location is below 24 hours. A
    record is written as JSON when its four times are. *)
Definition writable (t : time.Time) : bool :=
  (0 <=? time.Year t) && (time.Year t <? 10000)
  && (Z.abs (time.offsetOf (time.loc t)) <? 86400).

Definition encodable (e : internal.EventDB) : bool :=
  writable (internal.StartTime e) && writable (internal.EndTime e)
  && writable (internal.CreatedAt e) && writable (internal.UpdatedAt e).

(** A response with the status [code] and the header
    [Content-Type: application/json] that has no body. *)
Definition emptyJSON (code : Z) : http.Response :=
  http.mkResponse code "application/json" http.nothing.

(** An instant in nanoseconds since the zero time, and the times whose
    nanoseconds lie within the second, as every [time.Time] of the
    program has them. *)
Definition instant (t : time.Time) : Z :=
  time.sec t * 1000000000 + time.nsec t.

Definition normal (t : time.Time) : Prop :=
  0 <= time.nsec t < 1000000000.

(** The texts of a record are such as the server takes. *)
Definition textsAccepted (event : internal.EventDB) : bool :=
  postgres.acceptsText (internal.Title event)
  && match internal.Description event with
     | Some d => postgres.acceptsText d
     | None => true
     end.

(** Every byte of [s] is a decimal digit. *)
Definition allDigits (s : string) : Prop :=
  forallb time.isDigit (list_ascii_of_string s) = true.

(** The parameters [CreateEvent] binds to [$1 .. $4] for a record. *)
Definition paramsOf (event : internal.EventDB) : list postgres.value :=
  [ postgres.Text (internal.Title event);
    internal.nullable (internal.Description event);
    postgres.Timestamptz (internal.StartTime event);
    postgres.Timestamptz (internal.EndTime event) ].

(** The row the server stores for a record inserted in world [w]: the
    next draw of [uuid_generate_v4()] as [id], the four client fields
    (the two times to the microsecond), and [NOW()] for both [created_at]
    and [updated_at]. *)
Definition rowFor (event : internal.EventDB) (w : World) : postgres.row :=
  postgres.mkRow
    (postgres.generator (server w) (postgres.generated (server w)))
    (internal.Title event) (internal.Description event)
    (postgres.timestamptz (internal.StartTime event))
    (postgres.timestamptz (internal.EndTime event))
    (time.at_ns (clock w) time.UTC) (time.at_ns (clock w) time.UTC).

Definition ids (rows : list postgres.row) : list uuid.UUID :=
  map postgres.id rows.

(** The service on a request routed to one of its handlers. *)
Definition serve (route : api.Route) (r : http.Request) : M http.Response :=
  api.SetupRoutes storageBacked route r.

(** The identifier a response issues: the [id] of the record of a 201. *)
Definition createdID (resp : http.Response) : list uuid.UUID :=
  if http.StatusCode resp =? http.StatusCreated then
    match http.Payload resp with
    | http.encoded (json.object ((k, json.uuidText u) :: _)) =>
      if String.eqb k "id" then [u] else []
    | _ => []
    end
  else [].

(** [reaches w0 w issuedIds]: starting in [w0], the service has answered
    some requests and is now in world [w], having issued the identifiers
    [issuedIds] (latest first). Between requests the environment may change
    anything (time passes, the connection fails or recovers, the random
    sources move on) except the rows of the table, which only the service
    writes. *)
Inductive reaches (w0 : World) : World -> list uuid.UUID -> Prop :=
| reaches_start : reaches w0 w0 []
| reaches_request (w : World) (issuedIds : list uuid.UUID)
                  (route : api.Route) (r : http.Request) :
    reaches w0 w issuedIds ->
    reaches w0 (snd (serve route r w))
            (createdID (fst (serve route r w)) ++ issuedIds)
| reaches_environment (w w' : World) (issuedIds : list uuid.UUID) :
    reaches w0 w issuedIds ->
    postgres.events (server w') = postgres.events (server w) ->
    reaches w0 w' issuedIds.

(** The test open to a caller that does not read message text: does
    the error wrap another one ([errors.Unwrap(err) != nil])? *)
Definition wrapsNothing (e : error) : bool :=
  match errors.Unwrap e with
  | None => true
  | Some _ => false
  end.

(* ================================================================= *)
(** ** Sample data

    Rows, servers, worlds and requests on which the service is run in the
    examples that accompany the theorems. *)

(** Two rows in the manner of the migration's sample data, stored with
    the later event first. *)
Definition workshop : postgres.row :=
  postgres.mkRow 2002 "Docker Workshop"
    (Some "Practical workshop on Docker and containers")
    (time.mkTime 63891626400 0 time.UTC) (time.mkTime 63891640800 0 time.UTC)
    (time.mkTime 63891000000 0 time.UTC) (time.mkTime 63891000000 0 time.UTC).

Definition conference : postgres.row :=
  postgres.mkRow 2001 "Go Conference" None
    (time.mkTime 63891540000 0 time.UTC) (time.mkTime 63891550800 0 time.UTC)
    (time.mkTime 63891000000 0 time.UTC) (time.mkTime 63891000000 0 time.UTC).

Definition serverWith (rows : list postgres.row) (failure : option string)
  : postgres.Server :=
  postgres.mkServer rows (fun n => 5000 + Z.of_nat n) 0 time.UTC
                    (2 * 1000000) failure.

Definition worldWith (srv : postgres.Server) : World :=
  mkWorld (63891100000 * time.Second) (fun n => 9000 + Z.of_nat n) 0 srv [].

Definition emptyWorld : World := worldWith (serverWith [] None).

Definition sampleWorld : World :=
  worldWith (serverWith [workshop; conference] None).

(** A server that takes eleven seconds per statement, and one whose
    connection is down. *)
Definition slowWorld : World :=
  worldWith (postgres.mkServer [workshop; conference]
                               (fun n => 5000 + Z.of_nat n) 0 time.UTC
                               (11 * time.Second) None).

Definition brokenWorld : World :=
  worldWith (serverWith [workshop; conference]
                        (Some "dial tcp: connection refused")).

(** The test double of the case "empty result": [GetEvents] answers
    with [[]EventDB{}], a slice that is empty and not [nil]. *)
Definition emptyResultMock : internal.MockEventRepository :=
  internal.mkMock None (Some (fun _ => ret (sliceOf [], None))) None.

(** A request without body or route variables, from a client that
    stays connected. *)
Definition bareRequest : http.Request :=
  http.mkRequest (context.Request None)
                 (http.malformed (errors.errorString "EOF")) [].

(** Requests for the samples. *)
Definition lookup (id : string) : http.Request :=
  http.mkRequest (context.Request None)
                 (http.malformed (errors.errorString "EOF")) [("id", id)].

Definition post (members : list (string * json.value)) : http.Request :=
  http.mkRequest (context.Request None)
                 (http.document (json.Object members)) [].

Fixpoint repeatString (s : string) (n : nat) : string :=
  match n with
  | O => ""
  | S k => s ++ repeatString s k
  end.

(** U+00E9, two bytes in UTF-8. *)
Definition eacute : string :=
  String (ascii_of_nat 195) (String (ascii_of_nat 169) "").

(** A record with a caller-chosen identifier and time stamps, and the
    same event with others. *)
Definition meetup (id : uuid.UUID) (stamp : time.Time) : internal.EventDB :=
  internal.mkEventDB id "PostgreSQL Meetup"
    (Some "Database developers meetup and networking")
    (time.mkTime 63891712800 0 time.UTC) (time.mkTime 63891720000 0 time.UTC)
    stamp stamp.

(** The request of the specification's example, and one whose times
    coincide. *)
Definition goConference : http.Request :=
  post [("title", json.Str "Go Conference");
        ("start_time", json.Str "2025-08-22T10:00:00Z");
        ("end_time", json.Str "2025-08-22T12:00:00Z")].

Definition instantEvent : http.Request :=
  post [("title", json.Str "Stand-up");
        ("start_time", json.Str "2025-08-22T10:00:00Z");
        ("end_time", json.Str "2025-08-22T10:00:00Z")].




(** An evening talk given with its offset to UTC. *)
Definition eveningTalk : http.Request :=
  post [("title", json.Str "Evening Talk");
        ("description", json.Str "Given in local time");
        ("start_time", json.Str "2025-08-22T19:00:00+02:00");
        ("end_time", json.Str "2025-08-22T20:30:00+02:00")].

(* ================================================================= *)
(** ** Vocabulary of the further properties *)

(** [err] is [fmt.Errorf(prefix + "%w", cause)]: it unwraps to [cause],
    its text is the prefix followed by the text of [cause], and
    [errors.Is] sees through it. *)
Definition wraps (prefix : string) (cause err : error) : Prop :=
  errors.Unwrap err = Some cause
  /\ errors.Error err = (prefix ++ errors.Error cause)%string
  /\ forall target : error, errors.Is err target = errors.Is cause target.

(** A row as [scanEvent] accepts it. *)
Definition scans (cols : list postgres.value) (e : internal.EventDB) : Prop :=
  internal.scanEvent cols = inl e.

(** The controller over a test double with no function configured. *)
Definition unconfigured : api.EventController :=
  api.NewEventController
    (internal.MockEventRepository.interface internal.NewMockEventRepository).

(** The world left by the sample request for the conference on the empty
    table. *)
Definition afterConference : World :=
  snd (serve api.POST_events goConference emptyWorld).

(** Some member of the object sets field [f]: its key selects [f] and
    its value is not [null]. *)
Definition sets (f : string) (members : list (string * json.value)) : Prop :=
  exists (key : string) (v : json.value),
    List.In (key, v) members
    /\ json.field api.fieldNames key = Some f
    /\ v <> json.Null.

(** One step through a reading of a time text that has succeeded: the
    next element was read, or the next test passed. *)
Ltac parse_step H :=
  match type of H with
  | time.bind_opt ?o _ = Some _ =>
    destruct o as [[? ?]|]; cbn [time.bind_opt] in H; [|discriminate H]
  | time.bind_opt ?o _ = Some _ =>
    destruct o as [?|]; cbn [time.bind_opt] in H; [|discriminate H]
  | (if ?c then None else _) = Some _ => destruct c; [discriminate H|]
  end.

(* ================================================================= *)
(** * Properties *)

Unset Implicit Arguments.

(** ** Strings *)

Lemma runesFrom_step (c : ascii) (s : string) (skip : nat) :
  utf8.runesFrom skip (String c s) =
  match skip with
  | S k => utf8.runesFrom k s
  | O => (fst (utf8.DecodeRuneInString (String c s)),
          substring 0 (snd (utf8.DecodeRuneInString (String c s))) (String c s))
         :: utf8.runesFrom (snd (utf8.DecodeRuneInString (String c s)) - 1) s
  end.
Proof.
  destruct skip; [|reflexivity].
  change (utf8.runesFrom 0 (String c s))
    with (let (r, size) := utf8.DecodeRuneInString (String c s) in
          (r, substring 0 size (String c s)) :: utf8.runesFrom (size - 1) s).
  now destruct (utf8.DecodeRuneInString (String c s)).
Qed.

Lemma runesFrom_length (s : string) :
  forall skip, (List.length (utf8.runesFrom skip s) <= len s)%nat.
Proof.
  induction s as [|c s IH]; intros skip.
  - simpl. lia.
  - rewrite runesFrom_step. change (len (String c s)) with (S (len s)).
    destruct skip as [|k].
    + cbn [List.length].
      specialize (IH (snd (utf8.DecodeRuneInString (String c s)) - 1)%nat). lia.
    + specialize (IH k). lia.
Qed.

(** A string has at most as many characters as bytes. *)
Lemma RuneCount_le_len (s : string) :
  (utf8.RuneCountInString s <= len s)%nat.
Proof. apply runesFrom_length. Qed.

Lemma dropSpaces_all (l : list (rune * string)) :
  forallb (fun rb => unicode.IsSpace (fst rb)) l = true ->
  strings.dropSpaces l = [].
Proof.
  induction l as [|[r b] l IH]; simpl; intros H.
  - reflexivity.
  - apply andb_true_iff in H as [Hr Hl]. rewrite Hr. auto.
Qed.

(** A string made of white space only trims to the empty string. *)
Lemma TrimSpace_blank (s : string) :
  forallb (fun rb => unicode.IsSpace (fst rb)) (utf8.runes s) = true ->
  strings.TrimSpace s = "".
Proof.
  intros H. unfold strings.TrimSpace. now rewrite (dropSpaces_all _ H).
Qed.

(** ** Instants *)

Lemma Before_irrefl (t : time.Time) : time.Before t t = false.
Proof.
  unfold time.Before.
  rewrite Z.ltb_irrefl, Z.eqb_refl, Z.ltb_irrefl. reflexivity.
Qed.

Lemma Before_spec (t u : time.Time) :
  time.Before t u = true <->
  time.sec t < time.sec u \/ (time.sec t = time.sec u /\ time.nsec t < time.nsec u).
Proof.
  unfold time.Before.
  rewrite orb_true_iff, andb_true_iff, !Z.ltb_lt, Z.eqb_eq. tauto.
Qed.

Lemma Before_false_total (t u : time.Time) :
  time.Before t u = false -> time.Before u t = false -> time.Equal t u = true.
Proof.
  intros H1 H2. unfold time.Equal.
  destruct (time.Before t u) eqn:E1; [discriminate|].
  destruct (time.Before u t) eqn:E2; [discriminate|].
  assert (N1 : ~ (time.sec t < time.sec u \/
                  (time.sec t = time.sec u /\ time.nsec t < time.nsec u))).
  { intros A. apply Before_spec in A. congruence. }
  assert (N2 : ~ (time.sec u < time.sec t \/
                  (time.sec u = time.sec t /\ time.nsec u < time.nsec t))).
  { intros A. apply Before_spec in A. congruence. }
  apply andb_true_iff. split; apply Z.eqb_eq; lia.
Qed.

Lemma Before_asym (t u : time.Time) :
  time.Before t u = true -> time.Before u t = false.
Proof.
  intros H. apply Before_spec in H.
  destruct (time.Before u t) eqn:E; [|reflexivity].
  apply Before_spec in E. lia.
Qed.

Lemma notBefore_trans (a b c : time.Time) :
  time.Before b a = false -> time.Before c b = false -> time.Before c a = false.
Proof.
  intros H1 H2.
  destruct (time.Before c a) eqn:E; [|reflexivity].
  apply Before_spec in E.
  assert (N1 : ~ (time.sec b < time.sec a \/
                  (time.sec b = time.sec a /\ time.nsec b < time.nsec a))).
  { intros A. apply Before_spec in A. congruence. }
  assert (N2 : ~ (time.sec c < time.sec b \/
                  (time.sec c = time.sec b /\ time.nsec c < time.nsec b))).
  { intros A. apply Before_spec in A. congruence. }
  lia.
Qed.

Lemma Before_In (t u : time.Time) (l l' : time.Location) :
  time.Before (time.In t l) (time.In u l') = time.Before t u.
Proof. reflexivity. Qed.

(** ** [ORDER BY start_time ASC] *)

Lemma insertRow_perm (r : postgres.row) (l : list postgres.row) :
  Permutation (r :: l) (postgres.insertRow r l).
Proof.
  induction l as [|x l IH]; simpl.
  - apply Permutation_refl.
  - destruct (time.Before (postgres.start_time r) (postgres.start_time x)).
    + apply Permutation_refl.
    + eapply perm_trans; [apply perm_swap|]. now apply perm_skip.
Qed.

Lemma insertRow_hd (r : postgres.row) (l : list postgres.row) (a : postgres.row) :
  HdRel rowLe a l -> rowLe a r -> HdRel rowLe a (postgres.insertRow r l).
Proof.
  intros Hl Har. destruct l as [|x l]; simpl.
  - now constructor.
  - destruct (time.Before (postgres.start_time r) (postgres.start_time x)).
    + now constructor.
    + constructor. now inversion Hl.
Qed.

Lemma insertRow_sorted (r : postgres.row) (l : list postgres.row) :
  Sorted rowLe l -> Sorted rowLe (postgres.insertRow r l).
Proof.
  induction l as [|x l IH]; simpl; intros Hs.
  - repeat constructor.
  - destruct (time.Before (postgres.start_time r) (postgres.start_time x)) eqn:E.
    + constructor; [assumption|]. constructor.
      unfold rowLe. now apply Before_asym.
    + inversion Hs as [|? ? Hs' Hhd]; subst.
      constructor; [now apply IH|].
      apply insertRow_hd; [assumption|exact E].
Qed.

Lemma orderFrom_perm (rows acc : list postgres.row) :
  Permutation (rows ++ acc)
              (fold_left (fun a r => postgres.insertRow r a) rows acc).
Proof.
  revert acc. induction rows as [|r rows IH]; intros acc; simpl.
  - apply Permutation_refl.
  - eapply perm_trans; [|apply IH].
    eapply perm_trans; [apply Permutation_middle|].
    apply Permutation_app_head. apply insertRow_perm.
Qed.

Lemma orderFrom_sorted (rows acc : list postgres.row) :
  Sorted rowLe acc ->
  Sorted rowLe (fold_left (fun a r => postgres.insertRow r a) rows acc).
Proof.
  revert acc. induction rows as [|r rows IH]; intros acc Hs; simpl.
  - assumption.
  - apply IH. now apply insertRow_sorted.
Qed.

Lemma orderByStartTime_perm (rows : list postgres.row) :
  Permutation rows (postgres.orderByStartTime rows).
Proof.
  unfold postgres.orderByStartTime.
  eapply perm_trans; [|apply orderFrom_perm]. now rewrite app_nil_r.
Qed.

Lemma orderByStartTime_sorted (rows : list postgres.row) :
  Sorted rowLe (postgres.orderByStartTime rows).
Proof. apply orderFrom_sorted. constructor. Qed.

(** ** Statements on the connection *)

Lemma QueryContext_refused (db : sql.DB) (ctx : context.Context)
      (query : string) (args : list postgres.value) (w : World) (e : error) :
  refusal ctx w = Some e ->
  fst (sql.QueryContext db ctx query args w) = (sql.mkRows [] None, Some e)
  /\ server (snd (sql.QueryContext db ctx query args w)) = server w
  /\ issued (snd (sql.QueryContext db ctx query args w))
     = (issued w ++ [(query, args)])%list
  /\ random (snd (sql.QueryContext db ctx query args w)) = random w
  /\ drawn (snd (sql.QueryContext db ctx query args w)) = drawn w.
Proof.
  unfold refusal, sql.QueryContext. intros H.
  destruct (context.Err ctx (clock w)) as [e0|].
  - inversion H; subst. repeat split.
  - destruct (postgres.failure (server w)) as [e1|].
    + inversion H; subst. repeat split.
    + rewrite H. repeat split.
Qed.

Lemma QueryContext_executed (db : sql.DB) (ctx : context.Context)
      (query : string) (args : list postgres.value) (w : World) :
  refusal ctx w = None ->
  sql.QueryContext db ctx query args w =
  (match fst (postgres.execute query args (clock w) (server w)) with
   | inl result => (sql.mkRows result None, None)
   | inr e => (sql.mkRows [] None, Some e)
   end,
   afterCall w (postgres.latency (server w))
             (snd (postgres.execute query args (clock w) (server w)))
             query args).
Proof.
  unfold refusal, sql.QueryContext, afterCall. intros H.
  destruct (context.Err ctx (clock w)) as [e0|]; [discriminate|].
  destruct (postgres.failure (server w)) as [e1|]; [discriminate|].
  rewrite H.
  destruct (postgres.execute query args (clock w) (server w)) as [[result|e] srv];
    reflexivity.
Qed.

Lemma execute_insertEvent (args : list postgres.value) (now : Z)
      (s : postgres.Server) :
  postgres.execute postgres.insertEvent args now s = postgres.insert args now s.
Proof. reflexivity. Qed.

Lemma execute_selectEvents (now : Z) (s : postgres.Server) :
  postgres.execute postgres.selectEvents [] now s =
  (inl (map (postgres.columns (postgres.TimeZone s))
            (postgres.orderByStartTime (postgres.events s))), s).
Proof. reflexivity. Qed.

Lemma execute_selectEventByID (u : uuid.UUID) (now : Z) (s : postgres.Server) :
  postgres.execute postgres.selectEventByID [postgres.Uuid u] now s =
  (inl (map (postgres.columns (postgres.TimeZone s))
            (filter (fun r => postgres.id r =? u) (postgres.events s))), s).
Proof. reflexivity. Qed.

Lemma scanEvent_columns (tz : time.Location) (r : postgres.row) :
  internal.scanEvent (postgres.columns tz r) = inl (recordOf tz r).
Proof.
  unfold internal.scanEvent, postgres.columns, recordOf.
  destruct (postgres.description r); reflexivity.
Qed.

Lemma scanAll_columns (tz : time.Location) (rows : list postgres.row) :
  forall acc,
    internal.EventRepository.scanAll (map (postgres.columns tz) rows) acc =
    inl (match rows with
         | [] => acc
         | _ => sliceOf (elements acc ++ map (recordOf tz) rows)
         end).
Proof.
  induction rows as [|r rows IH]; intros acc.
  - reflexivity.
  - cbn [map internal.EventRepository.scanAll].
    rewrite scanEvent_columns, IH. unfold append.
    destruct rows as [|r' rows]; cbn [elements map].
    + reflexivity.
    + now rewrite <- app_assoc.
Qed.

(** ** The repository *)

Lemma recordOf_sorted (tz : time.Location) (rows : list postgres.row) :
  Sorted rowLe rows -> Sorted startsLe (map (recordOf tz) rows).
Proof.
  induction 1 as [|a l Hs IH Hhd]; cbn [map]; constructor.
  - assumption.
  - destruct Hhd; cbn [map]; constructor. assumption.
Qed.

Lemma startsLe_trans (a b c : internal.EventDB) :
  startsLe a b -> startsLe b c -> startsLe a c.
Proof. unfold startsLe. intros. eapply notBefore_trans; eassumption. Qed.

Lemma GetEvents_executed (r : internal.EventRepository)
      (ctx : context.Context) (w : World) :
  refusal ctx w = None ->
  internal.EventRepository.GetEvents r ctx w =
  ((match postgres.orderByStartTime (postgres.events (server w)) with
    | [] => nilSlice
    | rows => sliceOf (map (recordOf (postgres.TimeZone (server w))) rows)
    end, None),
   afterCall w (postgres.latency (server w)) (server w)
             postgres.selectEvents []).
Proof.
  intros H. unfold internal.EventRepository.GetEvents, bind.
  rewrite QueryContext_executed by exact H. rewrite execute_selectEvents.
  cbn [fst snd sql.data sql.iterErr]. rewrite scanAll_columns.
  destruct (postgres.orderByStartTime (postgres.events (server w))); reflexivity.
Qed.

(** C6. With the statement answered, [GetEvents] succeeds and returns
    every stored row exactly once (a permutation of the table, read in
    the session time zone), each record starting no later than all those
    after it; on an empty table the result is the empty sequence, with no
    error. The table is left as it was. *)
Theorem GetEvents_returns_all_rows_by_start_time
        (r : internal.EventRepository) (ctx : context.Context) (w : World) :
  refusal ctx w = None ->
  exists events : slice internal.EventDB,
    fst (internal.EventRepository.GetEvents r ctx w) = (events, None)
    /\ Permutation (elements events)
                   (map (recordOf (postgres.TimeZone (server w)))
                        (postgres.events (server w)))
    /\ StronglySorted startsLe (elements events)
    /\ (postgres.events (server w) = [] -> elements events = [])
    /\ postgres.events (server (snd (internal.EventRepository.GetEvents r ctx w)))
       = postgres.events (server w).
Proof.
  intros H. rewrite GetEvents_executed by exact H. cbn [fst snd].
  eexists. split; [reflexivity|].
  assert (E : elements
                (match postgres.orderByStartTime (postgres.events (server w)) with
                 | [] => nilSlice
                 | rows => sliceOf (map (recordOf (postgres.TimeZone (server w))) rows)
                 end)
              = map (recordOf (postgres.TimeZone (server w)))
                    (postgres.orderByStartTime (postgres.events (server w)))).
  { destruct (postgres.orderByStartTime (postgres.events (server w))); reflexivity. }
  rewrite E. repeat split.
  - apply Permutation_sym, Permutation_map, orderByStartTime_perm.
  - apply Sorted_StronglySorted.
    + intros a b c. apply startsLe_trans.
    + apply recordOf_sorted, orderByStartTime_sorted.
  - intros Hempty. now rewrite Hempty.
Qed.

(** The sample table, stored with the later event first, is listed with
    the earlier event first. *)
Lemma GetEvents_returns_all_rows_by_start_time_witness :
  exists events : slice internal.EventDB,
    fst (internal.EventRepository.GetEvents
           (internal.NewEventRepository sql.Open) context.Background sampleWorld)
    = (events, None)
    /\ Permutation (elements events)
                   (map (recordOf time.UTC) [workshop; conference])
    /\ StronglySorted startsLe (elements events)
    /\ (postgres.events (server sampleWorld) = [] -> elements events = [])
    /\ postgres.events
         (server (snd (internal.EventRepository.GetEvents
                         (internal.NewEventRepository sql.Open)
                         context.Background sampleWorld)))
       = [workshop; conference].
Proof.
  apply (@GetEvents_returns_all_rows_by_start_time
           (internal.NewEventRepository sql.Open) context.Background sampleWorld).
  reflexivity.
Defined.

(** ** The handlers, by the outcome of the repository call *)

Lemma GetEvents_handler (ec : api.EventController) (r : http.Request)
      (w w1 : World) (events : slice internal.EventDB) (err : option error) :
  internal.GetEvents (api.eventRepo ec) (boundedCtx r w) w = ((events, err), w1) ->
  api.EventController.GetEvents ec r w =
  (match err with
   | Some _ =>
     http.Error (if failureStatus (context.Err (boundedCtx r w) (clock w1))
                    =? http.StatusRequestTimeout
                 then "Request timeout" else "Failed to get events")
                (failureStatus (context.Err (boundedCtx r w) (clock w1)))
   | None => api.encodeResponse http.StatusOK (api.encodeEvents events)
   end, w1).
Proof.
  intros H.
  unfold api.EventController.GetEvents, bind, context_WithTimeout.
  fold (boundedCtx r w). rewrite H.
  destruct err as [e|]; [|reflexivity].
  unfold ctx_Err.
  destruct (context.Err (boundedCtx r w) (clock w1)) as [[]|]; reflexivity.
Qed.

Lemma CreateEvent_rejected (ec : api.EventController) (r : http.Request)
      (w : World) :
  match api.Decode (http.body r) with
  | inr _ => True
  | inl i => passes i = false
  end ->
  exists msg,
    api.EventController.CreateEvent ec r w
    = (http.Error msg http.StatusBadRequest, w).
Proof.
  unfold api.EventController.CreateEvent, bind, context_WithTimeout, passes.
  destruct (api.Decode (http.body r)) as [i|e]; intros H.
  - destruct (String.eqb (strings.TrimSpace (api.Title i)) "");
      [eexists; reflexivity|].
    destruct (100 <? len (api.Title i))%nat; [eexists; reflexivity|].
    destruct (time.IsZero (api.StartTime i) || time.IsZero (api.EndTime i));
      [eexists; reflexivity|].
    destruct (time.Before (api.StartTime i) (api.EndTime i));
      [discriminate|eexists; reflexivity].
  - eexists; reflexivity.
Qed.

Lemma CreateEvent_handler (ec : api.EventController) (r : http.Request)
      (w w1 : World) (i : api.createEventInput)
      (created : option internal.EventDB) (err : option error) :
  api.Decode (http.body r) = inl i ->
  passes i = true ->
  internal.CreateEvent (api.eventRepo ec) (boundedCtx r w) (eventFor i w)
                       (snd (uuid_New w)) = ((created, err), w1) ->
  api.EventController.CreateEvent ec r w =
  (match err with
   | Some _ =>
     http.Error (if failureStatus (context.Err (boundedCtx r w) (clock w1))
                    =? http.StatusRequestTimeout
                 then "Request timeout" else "Failed to create event")
                (failureStatus (context.Err (boundedCtx r w) (clock w1)))
   | None => api.encodeResponse http.StatusCreated (api.encodeEvent created)
   end, w1).
Proof.
  intros Hd Hp H.
  unfold api.EventController.CreateEvent, bind, context_WithTimeout.
  fold (boundedCtx r w). rewrite Hd.
  unfold passes in Hp.
  apply andb_true_iff in Hp as [Hp H4].
  apply andb_true_iff in Hp as [Hp H3].
  apply andb_true_iff in Hp as [H1 H2].
  apply negb_true_iff in H1, H2, H3.
  rewrite H1, H2, H3, H4. cbn [negb].
  unfold uuid_New, time_Now in *. cbn [fst snd clock] in *.
  unfold eventFor in H. rewrite H.
  destruct err as [e|]; [|reflexivity].
  unfold ctx_Err.
  destruct (context.Err (boundedCtx r w) (clock w1)) as [[]|]; reflexivity.
Qed.

Lemma GetEventByID_handler (ec : api.EventController) (r : http.Request)
      (w w1 : World) (id : uuid.UUID)
      (event : option internal.EventDB) (err : option error) :
  uuid.Parse (mux_Var (http.Vars r) "id") = Some id ->
  internal.GetEventByID (api.eventRepo ec) (http.Context r) id w
  = ((event, err), w1) ->
  api.EventController.GetEventByID ec r w =
  (match err with
   | Some _ => http.Error "Event not found" http.StatusNotFound
   | None => api.encodeResponse http.StatusOK (api.encodeEvent event)
   end, w1).
Proof.
  intros Hp H. unfold api.EventController.GetEventByID, bind.
  rewrite Hp, H. destruct err; reflexivity.
Qed.

(** ** List *)

(** A repository that answers with a slice that is empty but not [nil]
    (as the test double does) makes the handler write an empty array. *)
Lemma GetEvents_handler_empty_slice (ec : api.EventController)
      (r : http.Request) (w w1 : World) :
  internal.GetEvents (api.eventRepo ec) (boundedCtx r w) w
  = ((sliceOf [], None), w1) ->
  fst (api.EventController.GetEvents ec r w)
  = api.jsonResponse http.StatusOK (json.array []).
Proof. intros H. now rewrite (@GetEvents_handler ec r w _ _ _ H). Qed.

(** Over the test double of "empty result" the handler writes [[]]. *)
Lemma GetEvents_over_emptyResultMock (r : http.Request) (w : World) :
  api.EventController.GetEvents
    (api.NewEventController (internal.MockEventRepository.interface emptyResultMock))
    r w
  = (api.jsonResponse http.StatusOK (json.array []), w).
Proof. reflexivity. Qed.

(** C1. Listing an empty table through the storage-backed repository:
    the repository returns the [nil] slice it started from (zero events,
    no error), and the handler answers 200 with the JSON text [null],
    which is not the empty array. *)
Theorem GetEvents_of_empty_table_writes_null (r : http.Request) (w : World) :
  postgres.events (server w) = [] ->
  refusal (boundedCtx r w) w = None ->
  fst (internal.GetEvents (api.eventRepo storageBacked) (boundedCtx r w) w)
  = (nilSlice, None)
  /\ fst (api.EventController.GetEvents storageBacked r w)
     = api.jsonResponse http.StatusOK json.null
  /\ json.null <> json.array [].
Proof.
  intros Hrows Hok.
  assert (E : internal.GetEvents (api.eventRepo storageBacked) (boundedCtx r w) w
              = ((nilSlice, None),
                 afterCall w (postgres.latency (server w)) (server w)
                           postgres.selectEvents [])).
  { change (internal.GetEvents (api.eventRepo storageBacked))
      with (internal.EventRepository.GetEvents
              (internal.NewEventRepository sql.Open)).
    rewrite GetEvents_executed by exact Hok. now rewrite Hrows. }
  split; [now rewrite E|].
  split; [now rewrite (@GetEvents_handler storageBacked r w _ _ _ E)|discriminate].
Qed.

Lemma GetEvents_of_empty_table_writes_null_witness :
  fst (internal.GetEvents (api.eventRepo storageBacked)
                          (boundedCtx bareRequest emptyWorld) emptyWorld)
  = (nilSlice, None)
  /\ fst (api.EventController.GetEvents storageBacked bareRequest emptyWorld)
     = api.jsonResponse http.StatusOK json.null
  /\ json.null <> json.array [].
Proof.
  apply (@GetEvents_of_empty_table_writes_null bareRequest emptyWorld);
    reflexivity.
Defined.

(** ** Repository failures: 408 or 500 *)

(** C9. When the repository call of List or of Create returns an error,
    the handler answers 408 if the request's bounded context then reports
    that its deadline is exceeded, and 500 in every other case. *)
Theorem repository_failure_is_408_or_500
        (ec : api.EventController) (r : http.Request) (w : World) (e : error) :
  (snd (fst (internal.GetEvents (api.eventRepo ec) (boundedCtx r w) w)) = Some e ->
   let cerr :=
     context.Err (boundedCtx r w)
       (clock (snd (internal.GetEvents (api.eventRepo ec) (boundedCtx r w) w))) in
   (cerr = Some errors.DeadlineExceeded ->
    http.StatusCode (fst (api.EventController.GetEvents ec r w))
    = http.StatusRequestTimeout)
   /\ (cerr <> Some errors.DeadlineExceeded ->
       http.StatusCode (fst (api.EventController.GetEvents ec r w))
       = http.StatusInternalServerError))
  /\
  (forall i : api.createEventInput,
     api.Decode (http.body r) = inl i ->
     passes i = true ->
     snd (fst (internal.CreateEvent (api.eventRepo ec) (boundedCtx r w)
                                    (eventFor i w) (snd (uuid_New w)))) = Some e ->
     let cerr :=
       context.Err (boundedCtx r w)
         (clock (snd (internal.CreateEvent (api.eventRepo ec) (boundedCtx r w)
                                           (eventFor i w) (snd (uuid_New w))))) in
     (cerr = Some errors.DeadlineExceeded ->
      http.StatusCode (fst (api.EventController.CreateEvent ec r w))
      = http.StatusRequestTimeout)
     /\ (cerr <> Some errors.DeadlineExceeded ->
         http.StatusCode (fst (api.EventController.CreateEvent ec r w))
         = http.StatusInternalServerError)).
Proof.
  split.
  - intros He cerr.
    destruct (internal.GetEvents (api.eventRepo ec) (boundedCtx r w) w)
      as [[events err] w1] eqn:E.
    cbn [fst snd] in He, cerr. subst err.
    rewrite (@GetEvents_handler ec r w _ _ _ E). cbn [fst http.StatusCode http.Error].
    fold cerr. split; intros Hc.
    + now rewrite Hc.
    + destruct cerr as [[]|]; try reflexivity. now destruct Hc.
  - intros i Hd Hp He cerr.
    destruct (internal.CreateEvent (api.eventRepo ec) (boundedCtx r w)
                                   (eventFor i w) (snd (uuid_New w)))
      as [[created err] w1] eqn:E.
    cbn [fst snd] in He, cerr. subst err.
    rewrite (@CreateEvent_handler ec r w _ _ _ _ Hd Hp E).
    cbn [fst http.StatusCode http.Error].
    fold cerr. split; intros Hc.
    + now rewrite Hc.
    + destruct cerr as [[]|]; try reflexivity. now destruct Hc.
Qed.

(** Listing from a server that needs eleven seconds is answered 408;
    listing over a dead connection is answered 500; creating on the slow
    server is answered 408. *)
Lemma repository_failure_is_408_or_500_witness :
  http.StatusCode (fst (api.EventController.GetEvents storageBacked bareRequest slowWorld))
  = http.StatusRequestTimeout
  /\ http.StatusCode (fst (api.EventController.GetEvents storageBacked bareRequest brokenWorld))
     = http.StatusInternalServerError
  /\ http.StatusCode (fst (api.EventController.CreateEvent storageBacked goConference slowWorld))
     = http.StatusRequestTimeout.
Proof.
  split; [|split].
  3:{ refine (proj1 (proj2 (repository_failure_is_408_or_500
                              storageBacked goConference slowWorld
                              (errors.wrapError
                                 "failed to create event: context deadline exceeded"
                                 errors.DeadlineExceeded))
                           (api.mkInput "Go Conference" None
                                        (time.mkTime 63891453600 0 time.UTC)
                                        (time.mkTime 63891460800 0 time.UTC))
                           _ _ _) _);
        reflexivity. }
  - refine (proj1 (proj1 (@repository_failure_is_408_or_500
                            storageBacked bareRequest slowWorld
                            (errors.wrapError
                               "failed to query events: context deadline exceeded"
                               errors.DeadlineExceeded)) _) _);
      reflexivity.
  - refine (proj2 (proj1 (@repository_failure_is_408_or_500
                            storageBacked bareRequest brokenWorld
                            (errors.wrapError
                               "failed to query events: dial tcp: connection refused"
                               (errors.driverError "dial tcp: connection refused"))) _) _).
    + reflexivity.
    + discriminate.
Defined.

(** ** What [Encode] writes *)

Lemma marshalTime_writable (t : time.Time) :
  api.marshalTime t = if writable t then Some (json.timeText t) else None.
Proof.
  unfold api.marshalTime, writable.
  assert (Q : Z.abs (Z.quot (time.offsetOf (time.loc t)) 60)
              = Z.abs (time.offsetOf (time.loc t)) / 60).
  { rewrite <- (Z.quot_abs (time.offsetOf (time.loc t)) 60) by lia.
    change (Z.abs 60) with 60. apply Z.quot_div_nonneg; lia. }
  rewrite Q.
  destruct (Z.ltb_spec (time.Year t) 0), (Z.leb_spec 10000 (time.Year t)),
           (Z.leb_spec 0 (time.Year t)), (Z.ltb_spec (time.Year t) 10000);
    try lia; cbn [orb andb]; try reflexivity.
  destruct (Z.leb_spec 24 (Z.abs (time.offsetOf (time.loc t)) / 60 / 60)),
           (Z.ltb_spec (Z.abs (time.offsetOf (time.loc t))) 86400);
    try reflexivity; exfalso; Z.to_euclidean_division_equations; lia.
Qed.

(** A record is written as the document [recordJSON] gives, or not at
    all. *)
Lemma marshalEvent_recordJSON (e : internal.EventDB) :
  api.marshalEvent e = if encodable e then Some (recordJSON e) else None.
Proof.
  unfold api.marshalEvent, encodable, recordJSON.
  rewrite !marshalTime_writable.
  destruct (writable (internal.StartTime e)); [|reflexivity].
  destruct (writable (internal.EndTime e)); [|reflexivity].
  destruct (writable (internal.CreatedAt e)); [|reflexivity].
  destruct (writable (internal.UpdatedAt e)); reflexivity.
Qed.

Lemma marshalEvents_recordJSON (l : list internal.EventDB) :
  api.marshalEvents l
  = if forallb encodable l then Some (map recordJSON l) else None.
Proof.
  induction l as [|e l IH]; [reflexivity|].
  cbn [api.marshalEvents forallb map]. rewrite marshalEvent_recordJSON, IH.
  destruct (encodable e); [|reflexivity].
  cbn [time.bind_opt andb]. now destruct (forallb encodable l).
Qed.

(** ** GetByID *)




(** ** Create: validation *)

Lemma decodeMembers_unknown_field (members : list (string * json.value))
      (key : string) (v : json.value) :
  List.In (key, v) members ->
  json.field api.fieldNames key = None ->
  forall i, exists e, api.decodeMembers members i = inr e.
Proof.
  intros Hin Hf. induction members as [|[k v'] rest IH]; intros i.
  - destruct Hin.
  - cbn [api.decodeMembers].
    destruct Hin as [Heq|Hin].
    + inversion Heq; subst. unfold api.decodeMember. rewrite Hf.
      eexists; reflexivity.
    + destruct (api.decodeMember k v' i) as [i'|e].
      * now apply IH.
      * eexists; reflexivity.
Qed.

(** Every body that is [Invalid] fails to decode or fails one of the
    handler's checks. *)
Lemma Invalid_rejected (b : http.Body) :
  Invalid b ->
  match api.Decode b with
  | inr _ => True
  | inl i => passes i = false
  end.
Proof.
  intros [e ->|members key v -> Hin Hf|i -> Hb|i -> Hl|i -> Hz|i -> Ho];
    try exact I.
  - unfold api.Decode.
    destruct (@decodeMembers_unknown_field _ _ _ Hin Hf api.zeroInput) as [e ->].
    exact I.
  - unfold passes. now rewrite (TrimSpace_blank _ Hb).
  - unfold passes.
    assert (Hlen : (100 <? len (api.Title i))%nat = true).
    { apply Nat.ltb_lt. pose proof (RuneCount_le_len (api.Title i)). lia. }
    rewrite Hlen. cbn [negb]. now rewrite andb_false_r.
  - unfold passes.
    assert (Hor : time.IsZero (api.StartTime i) || time.IsZero (api.EndTime i) = true).
    { apply orb_true_iff. exact Hz. }
    rewrite Hor. cbn [negb]. now rewrite andb_false_r.
  - unfold passes. rewrite Ho. apply andb_false_r.
Qed.



(** ** Create: the length of the title *)

(** A title of more than 100 characters is answered 400. *)
Lemma CreateEvent_rejects_over_100_characters
      (ec : api.EventController) (r : http.Request) (w : World)
      (i : api.createEventInput) :
  api.Decode (http.body r) = inl i ->
  (100 < utf8.RuneCountInString (api.Title i))%nat ->
  http.StatusCode (fst (api.EventController.CreateEvent ec r w))
  = http.StatusBadRequest.
Proof.
  intros Hd Hl.
  destruct (CreateEvent_rejected ec r w) as [msg E].
  - apply Invalid_rejected. now apply invalid_long_title with (i := i).
  - now rewrite E.
Qed.

(** C3. The handler compares the number of bytes of the title with 100.
    A title of 51 times U+00E9 has 51 characters and 102 bytes; with
    times in order, and whatever the repository and the world, it is
    answered 400 with the message of the length check, without reaching
    the repository. *)
Theorem title_of_51_characters_is_rejected :
  let title := repeatString eacute 51 in
  let r := post [("title", json.Str title);
                 ("start_time", json.Str "2025-08-22T10:00:00Z");
                 ("end_time", json.Str "2025-08-22T12:00:00Z")] in
  utf8.RuneCountInString title = 51%nat
  /\ len title = 102%nat
  /\ forall (ec : api.EventController) (w : World),
       api.EventController.CreateEvent ec r w
       = (http.Error "title must be <= 100 characters" http.StatusBadRequest, w).
Proof.
  cbv zeta. split; [vm_compute; reflexivity|].
  split; [vm_compute; reflexivity|].
  intros ec w. vm_compute. reflexivity.
Qed.

(** ** [EventRepository.CreateEvent] *)

Lemma existsb_id (u : uuid.UUID) (rows : list postgres.row) :
  existsb (fun r => postgres.id r =? u) rows = false -> ~ List.In u (ids rows).
Proof.
  induction rows as [|x rows IH]; cbn [existsb ids map List.In]; intros H.
  - tauto.
  - apply orb_false_iff in H as [Hx Hr]. apply Z.eqb_neq in Hx.
    intros [A|A]; [congruence|]. now apply IH.
Qed.

Lemma insert_event (event : internal.EventDB) (w : World) :
  postgres.insert (paramsOf event) (clock w) (server w) =
  if negb (textsAccepted event)
  then (inr (errors.driverError
               "pq: invalid byte sequence for encoding UTF8"),
        server w)
  else if (255 <? utf8.RuneCountInString (internal.Title event))%nat
  then (inr (errors.driverError
               "pq: value too long for type character varying(255)"),
        server w)
  else if existsb (fun r => postgres.id r =? postgres.id (rowFor event w))
                  (postgres.events (server w))
       then (inr (errors.driverError
                    "pq: duplicate key value violates unique constraint events_pkey"),
             postgres.with_events (server w) (postgres.events (server w))
                                  (S (postgres.generated (server w))))
       else (inl [postgres.columns (postgres.TimeZone (server w)) (rowFor event w)],
             postgres.with_events (server w)
                                  (postgres.events (server w) ++ [rowFor event w])
                                  (S (postgres.generated (server w)))).
Proof.
  unfold postgres.insert, paramsOf, internal.nullable, rowFor, textsAccepted.
  destruct (internal.Description event); reflexivity.
Qed.

Lemma CreateEvent_refused (r : internal.EventRepository)
      (ctx : context.Context) (event : internal.EventDB) (w : World) (e : error) :
  refusal ctx w = Some e ->
  fst (internal.EventRepository.CreateEvent r ctx event w)
  = (None, Some (fmt.Errorf "failed to create event: %w" (Some e)))
  /\ server (snd (internal.EventRepository.CreateEvent r ctx event w)) = server w
  /\ issued (snd (internal.EventRepository.CreateEvent r ctx event w))
     = (issued w ++ [(postgres.insertEvent, paramsOf event)])%list.
Proof.
  intros H.
  unfold internal.EventRepository.CreateEvent, sql.QueryRowContext, bind.
  fold (paramsOf event).
  destruct (@QueryContext_refused (internal.db r) ctx postgres.insertEvent
                                  (paramsOf event) w e H)
    as (Hf & Hs & Hi & _).
  destruct (sql.QueryContext (internal.db r) ctx postgres.insertEvent
                             (paramsOf event) w) as [[rs err] w1].
  cbn [fst snd] in *. inversion Hf; subst. cbn. repeat split; assumption.
Qed.

(** What [CreateEvent] does once the statement is answered: the error of
    the server wrapped, or the stored row read back. *)
Lemma CreateEvent_executed (r : internal.EventRepository)
      (ctx : context.Context) (event : internal.EventDB) (w : World) :
  refusal ctx w = None ->
  internal.EventRepository.CreateEvent r ctx event w =
  if negb (textsAccepted event)
  then ((None,
         Some (fmt.Errorf "failed to create event: %w"
                 (Some (errors.driverError
                          "pq: invalid byte sequence for encoding UTF8")))),
        afterCall w (postgres.latency (server w)) (server w)
                  postgres.insertEvent (paramsOf event))
  else if (255 <? utf8.RuneCountInString (internal.Title event))%nat
  then ((None,
         Some (fmt.Errorf "failed to create event: %w"
                 (Some (errors.driverError
                          "pq: value too long for type character varying(255)")))),
        afterCall w (postgres.latency (server w)) (server w)
                  postgres.insertEvent (paramsOf event))
  else if existsb (fun x => postgres.id x =? postgres.id (rowFor event w))
                  (postgres.events (server w))
       then ((None,
              Some (fmt.Errorf "failed to create event: %w"
                      (Some (errors.driverError
                               "pq: duplicate key value violates unique constraint events_pkey")))),
             afterCall w (postgres.latency (server w))
                       (postgres.with_events (server w) (postgres.events (server w))
                                             (S (postgres.generated (server w))))
                       postgres.insertEvent (paramsOf event))
       else ((Some (recordOf (postgres.TimeZone (server w)) (rowFor event w)), None),
             afterCall w (postgres.latency (server w))
                       (postgres.with_events (server w)
                          (postgres.events (server w) ++ [rowFor event w])
                          (S (postgres.generated (server w))))
                       postgres.insertEvent (paramsOf event)).
Proof.
  intros H.
  unfold internal.EventRepository.CreateEvent, sql.QueryRowContext, bind.
  fold (paramsOf event).
  rewrite QueryContext_executed by exact H.
  rewrite execute_insertEvent, insert_event.
  destruct (negb (textsAccepted event)); [reflexivity|].
  destruct (255 <? utf8.RuneCountInString (internal.Title event))%nat;
    [reflexivity|].
  destruct (existsb (fun x => postgres.id x =? postgres.id (rowFor event w))
                    (postgres.events (server w))); [reflexivity|].
  cbn [fst snd sql.data]. unfold internal.scanRow, ret.
  cbn [sql.err sql.rows]. now rewrite scanEvent_columns.
Qed.

(** The table after [CreateEvent]: as before, or with the one row
    [rowFor event w] added, whose [id] no row had. *)
Lemma CreateEvent_table (r : internal.EventRepository)
      (ctx : context.Context) (event : internal.EventDB) (w : World) :
  (snd (fst (internal.EventRepository.CreateEvent r ctx event w)) <> None
   /\ postgres.events (server (snd (internal.EventRepository.CreateEvent r ctx event w)))
      = postgres.events (server w))
  \/
  (fst (internal.EventRepository.CreateEvent r ctx event w)
   = (Some (recordOf (postgres.TimeZone (server w)) (rowFor event w)), None)
   /\ postgres.events (server (snd (internal.EventRepository.CreateEvent r ctx event w)))
      = (postgres.events (server w) ++ [rowFor event w])%list
   /\ ~ List.In (postgres.id (rowFor event w)) (ids (postgres.events (server w)))).
Proof.
  destruct (refusal ctx w) as [e|] eqn:Hr.
  - destruct (CreateEvent_refused r ctx event w e Hr) as (Hf & Hs & _).
    left. rewrite Hf, Hs. split; [discriminate|reflexivity].
  - rewrite CreateEvent_executed by exact Hr.
    destruct (negb (textsAccepted event)).
    { left. split; [discriminate|reflexivity]. }
    destruct (255 <? utf8.RuneCountInString (internal.Title event))%nat.
    { left. split; [discriminate|reflexivity]. }
    destruct (existsb (fun x => postgres.id x =? postgres.id (rowFor event w))
                      (postgres.events (server w))) eqn:Hdup.
    { left. split; [discriminate|reflexivity]. }
    right. repeat split. now apply existsb_id.
Qed.

(** C10. [CreateEvent] reads only [Title], [Description], [StartTime]
    and [EndTime] of its argument: two records that agree on these four
    fields, whatever their [ID], [CreatedAt] and [UpdatedAt], lead to the
    same call on the connection (the INSERT statement with the four
    fields as parameters, which is all that is sent), the same result and
    the same world. A record returned on success carries the identifier
    drawn by the server and the server's [NOW()] as both time stamps. *)
Theorem CreateEvent_discards_id_and_stamps
        (r : internal.EventRepository) (ctx : context.Context)
        (e1 e2 : internal.EventDB) (w : World) :
  internal.Title e1 = internal.Title e2 ->
  internal.Description e1 = internal.Description e2 ->
  internal.StartTime e1 = internal.StartTime e2 ->
  internal.EndTime e1 = internal.EndTime e2 ->
  internal.EventRepository.CreateEvent r ctx e1 w
  = internal.EventRepository.CreateEvent r ctx e2 w
  /\ issued (snd (internal.EventRepository.CreateEvent r ctx e1 w))
     = (issued w
        ++ [(postgres.insertEvent,
             [postgres.Text (internal.Title e2);
              internal.nullable (internal.Description e2);
              postgres.Timestamptz (internal.StartTime e2);
              postgres.Timestamptz (internal.EndTime e2)])])%list
  /\ (forall created : internal.EventDB,
        fst (internal.EventRepository.CreateEvent r ctx e1 w) = (Some created, None) ->
        internal.ID created
        = postgres.generator (server w) (postgres.generated (server w))
        /\ internal.CreatedAt created
           = time.at_ns (clock w) (postgres.TimeZone (server w))
        /\ internal.UpdatedAt created
           = time.at_ns (clock w) (postgres.TimeZone (server w))).
Proof.
  intros Ht Hd Hs He.
  assert (Hp : paramsOf e1 = paramsOf e2).
  { unfold paramsOf. now rewrite Ht, Hd, Hs, He. }
  split; [|split].
  - unfold internal.EventRepository.CreateEvent.
    now rewrite Ht, Hd, Hs, He.
  - fold (paramsOf e2). rewrite <- Hp.
    destruct (refusal ctx w) as [e|] eqn:Hr.
    + now destruct (CreateEvent_refused r ctx e1 w e Hr) as (_ & _ & Hi).
    + rewrite CreateEvent_executed by exact Hr.
      destruct (negb (textsAccepted e1)); [reflexivity|].
      destruct (255 <? utf8.RuneCountInString (internal.Title e1))%nat;
        [reflexivity|].
      destruct (existsb _ _); reflexivity.
  - intros created Hc.
    destruct (CreateEvent_table r ctx e1 w) as [[Herr _]|[Hok _]].
    + rewrite Hc in Herr. now destruct Herr.
    + rewrite Hc in Hok. inversion Hok; subst. repeat split.
Qed.

(** The meetup handed over with identifier 1 and the zero time, and with
    identifier 2 and another time: one and the same outcome. *)
Lemma CreateEvent_discards_id_and_stamps_witness :
  let r := internal.NewEventRepository sql.Open in
  let e1 := meetup 1 time.zero in
  let e2 := meetup 2 (time.mkTime 63891000000 7 time.Local) in
  internal.EventRepository.CreateEvent r context.Background e1 sampleWorld
  = internal.EventRepository.CreateEvent r context.Background e2 sampleWorld
  /\ issued (snd (internal.EventRepository.CreateEvent r context.Background e1 sampleWorld))
     = [(postgres.insertEvent,
         [postgres.Text "PostgreSQL Meetup";
          postgres.Text "Database developers meetup and networking";
          postgres.Timestamptz (time.mkTime 63891712800 0 time.UTC);
          postgres.Timestamptz (time.mkTime 63891720000 0 time.UTC)])]
  /\ (forall created : internal.EventDB,
        fst (internal.EventRepository.CreateEvent r context.Background e1 sampleWorld)
        = (Some created, None) ->
        internal.ID created = 5000
        /\ internal.CreatedAt created = time.mkTime 63891100000 0 time.UTC
        /\ internal.UpdatedAt created = time.mkTime 63891100000 0 time.UTC).
Proof.
  exact (CreateEvent_discards_id_and_stamps
           (internal.NewEventRepository sql.Open) context.Background
           (meetup 1 time.zero)
           (meetup 2 (time.mkTime 63891000000 7 time.Local))
           sampleWorld eq_refl eq_refl eq_refl eq_refl).
Defined.

(** ** Times read from JSON have their nanoseconds within the second *)

Lemma allDigits_takeDigits (s : string) : allDigits (time.takeDigits s).
Proof.
  induction s as [|c s IH]; [reflexivity|].
  cbn [time.takeDigits]. destruct (time.isDigit c) eqn:E; [|reflexivity].
  unfold allDigits. cbn [list_ascii_of_string forallb]. now rewrite E.
Qed.

Lemma allDigits_app (a b : string) :
  allDigits a -> allDigits b -> allDigits (a ++ b).
Proof.
  unfold allDigits. induction a as [|c a IH]; intros Ha Hb; [exact Hb|].
  cbn [String.append list_ascii_of_string forallb] in *.
  apply andb_true_iff in Ha as [Hc Ha]. rewrite Hc. now apply IH.
Qed.

Lemma allDigits_prefix (n : nat) (s : string) :
  allDigits s -> allDigits (substring 0 n s) /\ (len (substring 0 n s) <= n)%nat.
Proof.
  unfold allDigits, len. revert s. induction n as [|n IH]; intros s Hs.
  - destruct s; split; cbn; auto.
  - destruct s as [|c s]; [split; cbn; [reflexivity|lia]|].
    cbn [substring list_ascii_of_string forallb String.length] in *.
    apply andb_true_iff in Hs as [Hc Hs]. rewrite Hc.
    destruct (IH s Hs) as [A B]. split; [exact A|lia].
Qed.

Lemma digits_value (l : list ascii) (acc : Z) :
  forallb time.isDigit l = true ->
  0 <= acc ->
  0 <= fold_left (fun a c => a * 10 + (byte_of c - 48)) l acc
    < (acc + 1) * 10 ^ Z.of_nat (List.length l).
Proof.
  revert acc. induction l as [|c l IH]; intros acc Hl Hacc.
  - cbn. lia.
  - cbn [forallb fold_left List.length] in *.
    apply andb_true_iff in Hl as [Hc Hl].
    unfold time.isDigit, between in Hc. apply andb_true_iff in Hc as [H1 H2].
    apply Z.leb_le in H1, H2.
    assert (Hacc' : 0 <= acc * 10 + (byte_of c - 48)) by lia.
    specialize (IH _ Hl Hacc').
    rewrite Nat2Z.inj_succ, Z.pow_succ_r by lia.
    split; [lia|].
    eapply Z.lt_le_trans; [apply IH|].
    assert (0 < 10 ^ Z.of_nat (List.length l)) by (apply Z.pow_pos_nonneg; lia).
    nia.
Qed.

Lemma length_list_ascii (s : string) :
  List.length (list_ascii_of_string s) = String.length s.
Proof. induction s; cbn; congruence. Qed.

Lemma parseNanoseconds_normal (frac : string) :
  allDigits frac ->
  0 <= (if (len frac =? 0)%nat then 0 else time.parseNanoseconds frac)
    < 1000000000.
Proof.
  intros Hf. destruct (len frac =? 0)%nat; [lia|].
  unfold time.parseNanoseconds.
  destruct (@allDigits_prefix 9 (frac ++ "000000000")) as [A B].
  { apply allDigits_app; [exact Hf|reflexivity]. }
  pose proof (@digits_value _ 0 A (Z.le_refl 0)) as V.
  rewrite length_list_ascii in V. fold (len (substring 0 9 (frac ++ "000000000"))) in V.
  assert (10 ^ Z.of_nat (len (substring 0 9 (frac ++ "000000000"))) <= 10 ^ 9).
  { apply Z.pow_le_mono_r; lia. }
  change (10 ^ 9) with 1000000000 in *. lia.
Qed.

Lemma allDigits_fraction (c : bool) (s : string) :
  allDigits (if c then time.takeDigits s else "").
Proof. destruct c; [apply allDigits_takeDigits|reflexivity]. Qed.

Lemma parseRFC3339_normal (s : string) (t : time.Time) :
  time.parseRFC3339 s = Some t -> normal t.
Proof.
  unfold time.parseRFC3339. intros H. repeat parse_step H.
  cbv zeta in H.
  match type of H with
  | (if ?c then _ else _) = _ => destruct c
  end.
  - inversion H; subst. unfold normal, time.Date. cbn [time.nsec].
    apply parseNanoseconds_normal, allDigits_fraction.
  - repeat parse_step H. inversion H; subst.
    unfold normal, time.Date. cbn [time.nsec].
    apply parseNanoseconds_normal, allDigits_fraction.
Qed.

Lemma Parse_normal (s : string) (t : time.Time) :
  time.Parse s = Some t -> normal t.
Proof.
  unfold time.Parse. intros H. repeat parse_step H.
  cbv zeta in H. repeat parse_step H.
  match type of H with
  | (if ?c then _ else _) = _ => destruct c
  end.
  - inversion H; subst. unfold normal, time.Date. cbn [time.nsec].
    apply parseNanoseconds_normal, allDigits_fraction.
  - repeat parse_step H. inversion H; subst.
    unfold normal, time.Date. cbn [time.nsec].
    apply parseNanoseconds_normal, allDigits_fraction.
Qed.

Lemma UnmarshalJSON_normal (s : string) (t : time.Time) :
  time.UnmarshalJSON s = Some t -> normal t.
Proof.
  unfold time.UnmarshalJSON.
  destruct (time.parseRFC3339 s) as [u|] eqn:E.
  - intros H. inversion H; subst. exact (parseRFC3339_normal _ _ E).
  - apply Parse_normal.
Qed.

Lemma decodeMember_normal (key : string) (v : json.value)
      (i i' : api.createEventInput) :
  api.decodeMember key v i = inl i' ->
  normal (api.StartTime i) /\ normal (api.EndTime i) ->
  normal (api.StartTime i') /\ normal (api.EndTime i').
Proof.
  unfold api.decodeMember, api.decodeTime. intros H [Hs He].
  destruct (json.field api.fieldNames key) as [f|]; [|discriminate].
  destruct (String.eqb f "title");
    [destruct v; inversion H; subst; now split|].
  destruct (String.eqb f "description");
    [destruct v; inversion H; subst; now split|].
  destruct (String.eqb f "start_time").
  - destruct v; try discriminate.
    + inversion H; subst. now split.
    + destruct (time.UnmarshalJSON s) as [t|] eqn:E; [|discriminate].
      inversion H; subst. split; [exact (UnmarshalJSON_normal _ _ E)|exact He].
  - destruct v; try discriminate.
    + inversion H; subst. now split.
    + destruct (time.UnmarshalJSON s) as [t|] eqn:E; [|discriminate].
      inversion H; subst. split; [exact Hs|exact (UnmarshalJSON_normal _ _ E)].
Qed.

(** The times of a decoded input have their nanoseconds within the
    second. *)
Lemma Decode_normal (b : http.Body) (i : api.createEventInput) :
  api.Decode b = inl i ->
  normal (api.StartTime i) /\ normal (api.EndTime i).
Proof.
  assert (Z0 : normal time.zero) by (unfold normal; cbn; lia).
  assert (G : forall members i0 i1,
             api.decodeMembers members i0 = inl i1 ->
             normal (api.StartTime i0) /\ normal (api.EndTime i0) ->
             normal (api.StartTime i1) /\ normal (api.EndTime i1)).
  { induction members as [|[k v] rest IH]; intros i0 i1 H N.
    - inversion H; subst. exact N.
    - cbn [api.decodeMembers] in H.
      destruct (api.decodeMember k v i0) as [i'|e] eqn:E; [|discriminate].
      exact (IH _ _ H (decodeMember_normal _ _ _ _ E N)). }
  unfold api.Decode. destruct b as [e|v]; [discriminate|].
  destruct v; try discriminate; intros H.
  - inversion H; subst. now split.
  - exact (G _ _ _ H (conj Z0 Z0)).
Qed.

(** ** Timestamps to the microsecond *)

Lemma timestamptz_instant (t : time.Time) :
  instant (postgres.timestamptz t) = 1000 * ((instant t + 500) / 1000).
Proof.
  unfold instant, postgres.timestamptz. cbn [time.sec time.nsec].
  Z.to_euclidean_division_equations. lia.
Qed.

Lemma timestamptz_normal (t : time.Time) : normal (postgres.timestamptz t).
Proof.
  unfold normal, postgres.timestamptz. cbn [time.nsec].
  Z.to_euclidean_division_equations. lia.
Qed.

Lemma Before_instant (t u : time.Time) :
  normal t -> normal u ->
  time.Before t u = (instant t <? instant u).
Proof.
  unfold normal, time.Before. intros Ht Hu.
  destruct (Z.ltb_spec (time.sec t) (time.sec u)),
           (Z.eqb_spec (time.sec t) (time.sec u)),
           (Z.ltb_spec (time.nsec t) (time.nsec u)),
           (Z.ltb_spec (instant t) (instant u));
    unfold instant in *; cbn [orb andb]; try reflexivity; lia.
Qed.

(** Rounding keeps the order of two times, and keeps them apart when
    they are more than a microsecond apart. *)
Lemma timestamptz_order (t u : time.Time) :
  normal t -> normal u ->
  time.Before t u = true ->
  time.Before (postgres.timestamptz u) (postgres.timestamptz t) = false
  /\ (instant t + 1000 < instant u ->
      time.Before (postgres.timestamptz t) (postgres.timestamptz u) = true).
Proof.
  intros Ht Hu H. rewrite (Before_instant _ _ Ht Hu) in H. apply Z.ltb_lt in H.
  rewrite !Before_instant by apply timestamptz_normal.
  rewrite !timestamptz_instant. split.
  - apply Z.ltb_ge. Z.to_euclidean_division_equations. lia.
  - intros Hm. apply Z.ltb_lt. Z.to_euclidean_division_equations. lia.
Qed.

Lemma timestamptz_toUTC (t : time.Time) :
  postgres.timestamptz (time.toUTC t) = postgres.timestamptz t.
Proof. reflexivity. Qed.

(** ** What a request does to the table *)

Lemma GetEvents_repo_server (r : internal.EventRepository)
      (ctx : context.Context) (w : World) :
  server (snd (internal.EventRepository.GetEvents r ctx w)) = server w.
Proof.
  destruct (refusal ctx w) as [e|] eqn:Hr.
  - unfold internal.EventRepository.GetEvents, bind.
    destruct (QueryContext_refused (internal.db r) ctx postgres.selectEvents
                                   [] w e Hr) as (Hf & Hs & _).
    destruct (sql.QueryContext (internal.db r) ctx postgres.selectEvents [] w)
      as [[rs err] w1].
    cbn [fst snd] in *. inversion Hf; subst. exact Hs.
  - now rewrite GetEvents_executed by exact Hr.
Qed.

Lemma GetEventByID_repo_server (r : internal.EventRepository)
      (ctx : context.Context) (id : uuid.UUID) (w : World) :
  server (snd (internal.EventRepository.GetEventByID r ctx id w)) = server w.
Proof.
  unfold internal.EventRepository.GetEventByID, sql.QueryRowContext, bind.
  destruct (refusal ctx w) as [e|] eqn:Hr.
  - destruct (QueryContext_refused (internal.db r) ctx postgres.selectEventByID
                                   [postgres.Uuid id] w e Hr) as (Hf & Hs & _).
    destruct (sql.QueryContext (internal.db r) ctx postgres.selectEventByID
                               [postgres.Uuid id] w) as [[rs err] w1].
    cbn [fst snd] in *. inversion Hf; subst. unfold ret.
    destruct (internal.scanRow _) as [ev|e0]; [exact Hs|].
    destruct (errors.isSentinel errors.ErrNoRows e0); exact Hs.
  - rewrite QueryContext_executed by exact Hr.
    rewrite execute_selectEventByID. cbn [fst snd]. unfold ret.
    destruct (internal.scanRow _) as [ev|e0]; [reflexivity|].
    destruct (errors.isSentinel errors.ErrNoRows e0); reflexivity.
Qed.

Lemma createdID_Error (msg : string) (cerr : option error) :
  createdID (http.Error msg (failureStatus cerr)) = [].
Proof. destruct cerr as [[]|]; reflexivity. Qed.

Lemma createdID_OK (encoding : option json.output) :
  createdID (api.encodeResponse http.StatusOK encoding) = [].
Proof. destruct encoding; reflexivity. Qed.

(** A request to List or GetByID issues no identifier and leaves the
    table as it is. *)
Lemma read_step (r : http.Request) (w : World) :
  (createdID (fst (api.EventController.GetEvents storageBacked r w)) = []
   /\ postgres.events (server (snd (api.EventController.GetEvents storageBacked r w)))
      = postgres.events (server w))
  /\
  (createdID (fst (api.EventController.GetEventByID storageBacked r w)) = []
   /\ postgres.events (server (snd (api.EventController.GetEventByID storageBacked r w)))
      = postgres.events (server w)).
Proof.
  split.
  - destruct (internal.GetEvents (api.eventRepo storageBacked) (boundedCtx r w) w)
      as [[events err] w1] eqn:E.
    rewrite (GetEvents_handler storageBacked r w w1 events err E).
    cbn [fst snd].
    assert (Hs : server w1 = server w).
    { change w1 with (snd ((events, err), w1)). rewrite <- E.
      apply GetEvents_repo_server. }
    rewrite Hs. split; [|reflexivity].
    destruct err; [apply createdID_Error|apply createdID_OK].
  - unfold api.EventController.GetEventByID.
    destruct (uuid.Parse (mux_Var (http.Vars r) "id")) as [id|]; [|now split].
    unfold bind.
    destruct (internal.GetEventByID (api.eventRepo storageBacked)
                                    (http.Context r) id w)
      as [[event err] w1] eqn:E.
    assert (Hs : server w1 = server w).
    { change w1 with (snd ((event, err), w1)). rewrite <- E.
      apply GetEventByID_repo_server. }
    destruct err; cbn [fst snd ret]; rewrite Hs;
      (split; [try reflexivity; apply createdID_OK|reflexivity]).
Qed.

Lemma passes_Before (i : api.createEventInput) :
  passes i = true -> time.Before (api.StartTime i) (api.EndTime i) = true.
Proof. unfold passes. intros H. now apply andb_true_iff in H as [_ H]. Qed.

(** A request to Create either issues no identifier and leaves the table
    as it is, or is a valid input answered 201 with the one row it added,
    whose [id] no row had and whose [start_time] is not after its
    [end_time]; the body of the 201 is the record of that row, or is
    missing when the record cannot be written. *)
Lemma create_step (r : http.Request) (w : World) :
  (createdID (fst (api.EventController.CreateEvent storageBacked r w)) = []
   /\ postgres.events (server (snd (api.EventController.CreateEvent storageBacked r w)))
      = postgres.events (server w))
  \/
  (exists i : api.createEventInput,
     let row := rowFor (eventFor i w) (snd (uuid_New w)) in
     let created := recordOf (postgres.TimeZone (server w)) row in
     api.Decode (http.body r) = inl i
     /\ passes i = true
     /\ fst (api.EventController.CreateEvent storageBacked r w)
        = (if encodable created
           then api.jsonResponse http.StatusCreated (recordJSON created)
           else emptyJSON http.StatusCreated)
     /\ postgres.events (server (snd (api.EventController.CreateEvent storageBacked r w)))
        = (postgres.events (server w) ++ [row])%list
     /\ ~ List.In (postgres.id row) (ids (postgres.events (server w)))
     /\ time.Before (postgres.end_time row) (postgres.start_time row) = false
     /\ (instant (api.StartTime i) + 1000 < instant (api.EndTime i) ->
         time.Before (postgres.start_time row) (postgres.end_time row) = true)).
Proof.
  destruct (api.Decode (http.body r)) as [i|e] eqn:Hd.
  2:{ left.
      destruct (CreateEvent_rejected storageBacked r w) as [msg E];
        [now rewrite Hd|].
      rewrite E. now split. }
  destruct (passes i) eqn:Hp.
  2:{ left.
      destruct (CreateEvent_rejected storageBacked r w) as [msg E];
        [now rewrite Hd|].
      rewrite E. now split. }
  destruct (internal.CreateEvent (api.eventRepo storageBacked) (boundedCtx r w)
                                 (eventFor i w) (snd (uuid_New w)))
    as [[created err] w1] eqn:E.
  rewrite (CreateEvent_handler storageBacked r w w1 i created err Hd Hp E).
  cbn [fst snd].
  destruct (CreateEvent_table (internal.NewEventRepository sql.Open)
                              (boundedCtx r w) (eventFor i w) (snd (uuid_New w)))
    as [[Herr Hsame]|(Hok & Hadd & Hfresh)];
    change (internal.EventRepository.CreateEvent
              (internal.NewEventRepository sql.Open))
      with (internal.CreateEvent (api.eventRepo storageBacked)) in *;
    rewrite E in *; cbn [fst snd] in *.
  - left. destruct err as [e|]; [|now destruct Herr].
    split; [apply createdID_Error|exact Hsame].
  - right. exists i. cbv zeta. inversion Hok; subst.
    destruct (Decode_normal _ _ Hd) as [Ns Ne].
    destruct (timestamptz_order (api.StartTime i) (api.EndTime i) Ns Ne
                                (passes_Before i Hp)) as [Hle Hlt].
    repeat split; try assumption.
    cbn [api.encodeEvent api.encodeResponse]. rewrite marshalEvent_recordJSON.
    now destruct (encodable _).
Qed.

(** ** Histories of the service *)

Lemma serve_step (route : api.Route) (r : http.Request) (w : World) :
  (createdID (fst (serve route r w)) = []
   /\ postgres.events (server (snd (serve route r w))) = postgres.events (server w))
  \/
  (exists row : postgres.row,
     (createdID (fst (serve route r w)) = [postgres.id row]
      \/ createdID (fst (serve route r w)) = [])
     /\ postgres.events (server (snd (serve route r w)))
        = (postgres.events (server w) ++ [row])%list
     /\ ~ List.In (postgres.id row) (ids (postgres.events (server w)))
     /\ time.Before (postgres.end_time row) (postgres.start_time row) = false).
Proof.
  destruct route; unfold serve, api.SetupRoutes.
  - destruct (create_step r w)
      as [H|(i & Hd & Hp & Hresp & Hrows & Hfresh & Hle & _)].
    + now left.
    + right. eexists. rewrite Hresp, Hrows.
      repeat split; [|exact Hfresh|exact Hle].
      destruct (encodable _); [left|right]; reflexivity.
  - left. apply (proj1 (read_step r w)).
  - left. apply (proj2 (read_step r w)).
Qed.


(** Every identifier the service has issued is the [id] of a stored row. *)
Lemma reaches_issued_stored (w0 w : World) (issuedIds : list uuid.UUID) :
  reaches w0 w issuedIds ->
  forall u, List.In u issuedIds -> List.In u (ids (postgres.events (server w))).
Proof.
  induction 1 as [|w issuedIds route r Hreach IH|w w' issuedIds Hreach IH Henv];
    intros u Hin.
  - destruct Hin.
  - destruct (serve_step route r w)
      as [[Hnone Hsame]|(x & [Hone|Hnone] & Hadd & _)].
    + rewrite Hnone in Hin. rewrite Hsame. now apply IH.
    + rewrite Hone in Hin. rewrite Hadd. unfold ids. rewrite map_app.
      apply in_or_app. destruct Hin as [<-|Hin].
      * right. now left.
      * left. now apply IH.
    + rewrite Hnone in Hin. rewrite Hadd. unfold ids. rewrite map_app.
      apply in_or_app. left. now apply IH.
  - rewrite Henv. now apply IH.
Qed.

(** ** Create: start before end *)




(** ** Create: success *)





(** ** GetEventByID: not found *)

Lemma filter_absent (u : uuid.UUID) (rows : list postgres.row) :
  ~ List.In u (ids rows) ->
  filter (fun r => postgres.id r =? u) rows = [].
Proof.
  induction rows as [|x rows IH]; cbn [filter ids map List.In]; intros H.
  - reflexivity.
  - destruct (postgres.id x =? u) eqn:E.
    + apply Z.eqb_eq in E. tauto.
    + apply IH. tauto.
Qed.

Lemma GetEventByID_refused (r : internal.EventRepository)
      (ctx : context.Context) (id : uuid.UUID) (w : World) (e0 : error) :
  refusal ctx w = Some e0 ->
  fst (internal.EventRepository.GetEventByID r ctx id w)
  = (None,
     Some (if errors.isSentinel errors.ErrNoRows e0
           then fmt.Errorf "event not found" None
           else fmt.Errorf "failed to get event by ID: %w" (Some e0))).
Proof.
  intros Hr.
  unfold internal.EventRepository.GetEventByID, sql.QueryRowContext, bind.
  destruct (QueryContext_refused (internal.db r) ctx postgres.selectEventByID
                                 [postgres.Uuid id] w e0 Hr) as (Hf & _).
  destruct (sql.QueryContext (internal.db r) ctx postgres.selectEventByID
                             [postgres.Uuid id] w) as [[rs err] w1].
  cbn [fst snd] in *. inversion Hf; subst.
  unfold ret, internal.scanRow. cbn [sql.err].
  destruct (errors.isSentinel errors.ErrNoRows e0); reflexivity.
Qed.

(** The errors a statement is refused with are those of the context and
    of the connection, never the sentinel that [database/sql] reserves for
    a result without rows. *)
Lemma doneAt_error (c : context.Context) (t : Z) (e : error) :
  context.doneAt c = Some (t, e) ->
  e = errors.Canceled \/ e = errors.DeadlineExceeded.
Proof.
  revert t e. induction c as [|[d|]|parent IH d]; cbn; intros t e H.
  - discriminate.
  - inversion H. now left.
  - discriminate.
  - destruct (context.doneAt parent) as [[t' e']|].
    + destruct (t' <=? d); inversion H; subst.
      * eapply IH; reflexivity.
      * now right.
    + inversion H. now right.
Qed.

Lemma Err_error (c : context.Context) (now : Z) (e : error) :
  context.Err c now = Some e ->
  errors.isSentinel errors.ErrNoRows e = false.
Proof.
  unfold context.Err. destruct (context.doneAt c) as [[t e']|] eqn:D;
    [|discriminate].
  destruct (t <=? now); [|discriminate]. intros H. inversion H; subst.
  destruct (doneAt_error c t e D) as [->| ->]; reflexivity.
Qed.

Lemma refusal_error (ctx : context.Context) (w : World) (e : error) :
  refusal ctx w = Some e ->
  errors.isSentinel errors.ErrNoRows e = false.
Proof.
  unfold refusal.
  destruct (context.Err ctx (clock w)) as [e0|] eqn:E0.
  - intros H. inversion H; subst. exact (Err_error ctx _ e E0).
  - destruct (postgres.failure (server w)) as [msg|].
    + intros H. now inversion H.
    + apply Err_error.
Qed.

Lemma shape_wrapsNothing (e e' : error) :
  errors.shape e = errors.shape e' -> wrapsNothing e = wrapsNothing e'.
Proof. destruct e, e'; cbn; intros H; try reflexivity; discriminate. Qed.

(** C2. When the statement is answered and no row has the identifier,
    [GetEventByID] fails with an error that wraps nothing. When instead
    the statement is refused, by the context or by the connection, it
    fails with an error that wraps the cause. The two kinds differ in
    whether [errors.Unwrap] gives [nil], a test that is blind to message
    text (it gives the same answer on errors that differ in messages
    only), so a caller can tell not-found from the other failures. *)
Theorem not_found_is_distinguished
        (r : internal.EventRepository) (ctx : context.Context)
        (id : uuid.UUID) (w : World) :
  refusal ctx w = None ->
  ~ List.In id (ids (postgres.events (server w))) ->
  exists notFound : error,
    fst (internal.EventRepository.GetEventByID r ctx id w) = (None, Some notFound)
    /\ wrapsNothing notFound = true
    /\ (forall (ctx' : context.Context) (id' : uuid.UUID) (w' : World) (e0 : error),
          refusal ctx' w' = Some e0 ->
          exists failed : error,
            fst (internal.EventRepository.GetEventByID r ctx' id' w')
            = (None, Some failed)
            /\ errors.Unwrap failed = Some e0
            /\ wrapsNothing failed = false
            /\ errors.shape failed <> errors.shape notFound)
    /\ (forall e e' : error,
          errors.shape e = errors.shape e' -> wrapsNothing e = wrapsNothing e').
Proof.
  intros Hr Habsent.
  exists (fmt.Errorf "event not found" None). split; [|split; [reflexivity|split]].
  - unfold internal.EventRepository.GetEventByID, sql.QueryRowContext, bind.
    rewrite QueryContext_executed by exact Hr.
    rewrite execute_selectEventByID, (filter_absent id _ Habsent).
    reflexivity.
  - intros ctx' id' w' e0 Hr'.
    rewrite (GetEventByID_refused r ctx' id' w' e0 Hr').
    rewrite (refusal_error ctx' w' e0 Hr').
    eexists. split; [reflexivity|]. split; [reflexivity|].
    split; [reflexivity|discriminate].
  - exact shape_wrapsNothing.
Qed.

(** Looking up an identifier of no row in the sample table. *)
Lemma not_found_is_distinguished_witness :
  exists notFound : error,
    fst (internal.EventRepository.GetEventByID
           (internal.NewEventRepository sql.Open) context.Background 2989 sampleWorld)
    = (None, Some notFound)
    /\ wrapsNothing notFound = true
    /\ (forall (ctx' : context.Context) (id' : uuid.UUID) (w' : World) (e0 : error),
          refusal ctx' w' = Some e0 ->
          exists failed : error,
            fst (internal.EventRepository.GetEventByID
                   (internal.NewEventRepository sql.Open) ctx' id' w')
            = (None, Some failed)
            /\ errors.Unwrap failed = Some e0
            /\ wrapsNothing failed = false
            /\ errors.shape failed <> errors.shape notFound)
    /\ (forall e e' : error,
          errors.shape e = errors.shape e' -> wrapsNothing e = wrapsNothing e').
Proof.
  apply (not_found_is_distinguished
           (internal.NewEventRepository sql.Open) context.Background 2989 sampleWorld).
  - reflexivity.
  - cbn. intros [H|[H|[]]]; discriminate.
Defined.

(* ================================================================= *)
(** * Further properties of the repository *)

Lemma string_app_nil_r (s : string) : (s ++ "")%string = s.
Proof. induction s as [|c s IH]; cbn; [reflexivity|now rewrite IH]. Qed.

Lemma GetEvents_refused (r : internal.EventRepository)
      (ctx : context.Context) (w : World) (e0 : error) :
  refusal ctx w = Some e0 ->
  fst (internal.EventRepository.GetEvents r ctx w)
  = (nilSlice, Some (fmt.Errorf "failed to query events: %w" (Some e0))).
Proof.
  intros Hr. unfold internal.EventRepository.GetEvents, bind.
  destruct (QueryContext_refused (internal.db r) ctx postgres.selectEvents
                                 [] w e0 Hr) as (Hf & _).
  destruct (sql.QueryContext (internal.db r) ctx postgres.selectEvents [] w)
    as [[rs err] w1].
  cbn [fst snd] in *. now inversion Hf.
Qed.

Lemma GetEventByID_executed (r : internal.EventRepository)
      (ctx : context.Context) (id : uuid.UUID) (w : World) :
  refusal ctx w = None ->
  internal.EventRepository.GetEventByID r ctx id w =
  (match filter (fun x => postgres.id x =? id) (postgres.events (server w)) with
   | [] => (None, Some (fmt.Errorf "event not found" None))
   | row :: _ => (Some (recordOf (postgres.TimeZone (server w)) row), None)
   end,
   afterCall w (postgres.latency (server w)) (server w)
             postgres.selectEventByID [postgres.Uuid id]).
Proof.
  intros Hr.
  unfold internal.EventRepository.GetEventByID, sql.QueryRowContext, bind.
  rewrite QueryContext_executed by exact Hr.
  rewrite execute_selectEventByID. cbn [fst snd sql.data].
  unfold ret, internal.scanRow. cbn [sql.err sql.rows].
  destruct (filter (fun x => postgres.id x =? id) (postgres.events (server w)))
    as [|row rest]; cbn [map].
  - reflexivity.
  - now rewrite scanEvent_columns.
Qed.

(** A successful [CreateEvent] read back: the record is that of the row
    [rowFor event w], which is the one row added, under an identifier no
    row had. *)
Lemma CreateEvent_success (r : internal.EventRepository)
      (ctx : context.Context) (event created : internal.EventDB) (w : World) :
  fst (internal.EventRepository.CreateEvent r ctx event w) = (Some created, None) ->
  created = recordOf (postgres.TimeZone (server w)) (rowFor event w)
  /\ server (snd (internal.EventRepository.CreateEvent r ctx event w))
     = postgres.with_events (server w)
         (postgres.events (server w) ++ [rowFor event w])
         (S (postgres.generated (server w)))
  /\ ~ List.In (postgres.id (rowFor event w)) (ids (postgres.events (server w))).
Proof.
  destruct (refusal ctx w) as [e|] eqn:Hr.
  - destruct (CreateEvent_refused r ctx event w e Hr) as (Hf & _).
    rewrite Hf. discriminate.
  - rewrite CreateEvent_executed by exact Hr.
    destruct (negb (textsAccepted event)); [discriminate|].
    destruct (255 <? utf8.RuneCountInString (internal.Title event))%nat;
      [discriminate|].
    destruct (existsb (fun x => postgres.id x =? postgres.id (rowFor event w))
                      (postgres.events (server w))) eqn:Hdup; [discriminate|].
    cbn [fst snd]. intros H. inversion H. repeat split.
    now apply existsb_id.
Qed.

Lemma filter_fresh (row : postgres.row) (rows : list postgres.row) :
  ~ List.In (postgres.id row) (ids rows) ->
  filter (fun x => postgres.id x =? postgres.id row) (rows ++ [row]) = [row].
Proof.
  intros H. rewrite filter_app, (filter_absent _ _ H). cbn.
  now rewrite Z.eqb_refl.
Qed.

Lemma wraps_Errorf (prefix : string) (cause : error) :
  wraps prefix cause
        (errors.wrapError (prefix ++ (errors.Error cause ++ "")) cause).
Proof.
  unfold wraps. cbn [errors.Unwrap errors.Error errors.Is].
  rewrite string_app_nil_r. repeat split.
  intros target. now destruct target.
Qed.

(** X1. A statement that the context or the connection refuses makes
    each repository method return no record and an error that wraps the
    cause under the method's own prefix, so that [errors.Is] still finds
    a context error behind it; the table is left as it was. *)
Theorem repository_failures_wrap_the_cause
        (r : internal.EventRepository) (ctx : context.Context)
        (w : World) (cause : error) :
  refusal ctx w = Some cause ->
  (forall event : internal.EventDB,
     exists err : error,
       fst (internal.EventRepository.CreateEvent r ctx event w) = (None, Some err)
       /\ wraps "failed to create event: " cause err
       /\ postgres.events
            (server (snd (internal.EventRepository.CreateEvent r ctx event w)))
          = postgres.events (server w))
  /\ (exists err : error,
        fst (internal.EventRepository.GetEvents r ctx w) = (nilSlice, Some err)
        /\ wraps "failed to query events: " cause err)
  /\ (forall id : uuid.UUID,
        exists err : error,
          fst (internal.EventRepository.GetEventByID r ctx id w) = (None, Some err)
          /\ wraps "failed to get event by ID: " cause err).
Proof.
  intros Hr. split; [|split].
  - intros event.
    destruct (CreateEvent_refused r ctx event w cause Hr) as (Hf & Hs & _).
    eexists. split; [exact Hf|]. split; [apply wraps_Errorf|now rewrite Hs].
  - eexists. split; [exact (GetEvents_refused r ctx w cause Hr)|].
    apply wraps_Errorf.
  - intros id. rewrite (GetEventByID_refused r ctx id w cause Hr).
    rewrite (refusal_error ctx w cause Hr).
    eexists. split; [reflexivity|apply wraps_Errorf].
Qed.

(** Over the dead connection of [brokenWorld]. *)
Lemma repository_failures_wrap_the_cause_witness :
  let r := internal.NewEventRepository sql.Open in
  let cause := errors.driverError "dial tcp: connection refused" in
  (forall event : internal.EventDB,
     exists err : error,
       fst (internal.EventRepository.CreateEvent r context.Background event brokenWorld)
       = (None, Some err)
       /\ wraps "failed to create event: " cause err
       /\ postgres.events
            (server (snd (internal.EventRepository.CreateEvent
                            r context.Background event brokenWorld)))
          = [workshop; conference])
  /\ (exists err : error,
        fst (internal.EventRepository.GetEvents r context.Background brokenWorld)
        = (nilSlice, Some err)
        /\ wraps "failed to query events: " cause err)
  /\ (forall id : uuid.UUID,
        exists err : error,
          fst (internal.EventRepository.GetEventByID r context.Background id brokenWorld)
          = (None, Some err)
          /\ wraps "failed to get event by ID: " cause err).
Proof.
  exact (repository_failures_wrap_the_cause
           (internal.NewEventRepository sql.Open) context.Background brokenWorld
           (errors.driverError "dial tcp: connection refused") eq_refl).
Defined.

Lemma filter_present (u : uuid.UUID) (rows : list postgres.row) :
  List.In u (ids rows) ->
  exists row rest,
    filter (fun x => postgres.id x =? u) rows = row :: rest
    /\ List.In row rows /\ postgres.id row = u.
Proof.
  intros Hin.
  destruct (filter (fun x => postgres.id x =? u) rows) as [|row rest] eqn:F.
  - exfalso. unfold ids in Hin. apply in_map_iff in Hin as (x & Hx & Hin).
    assert (Hf : List.In x (filter (fun y => postgres.id y =? u) rows)).
    { apply filter_In. split; [exact Hin|]. now apply Z.eqb_eq. }
    rewrite F in Hf. destruct Hf.
  - exists row, rest. split; [reflexivity|].
    assert (Hf : List.In row (filter (fun y => postgres.id y =? u) rows)).
    { rewrite F. now left. }
    apply filter_In in Hf as [Hrow Heq]. split; [exact Hrow|].
    now apply Z.eqb_eq.
Qed.

(** X2. With the statement answered, [GetEventByID] returns a record
    exactly for the identifiers of stored rows: for a stored identifier,
    the record of a stored row, carrying that identifier, and no error;
    for any other, no record and an error behind which [errors.Is] does
    not find [sql.ErrNoRows]. Either way it issues the one SELECT with the
    identifier as parameter and leaves the table as it was. *)
Theorem GetEventByID_finds_exactly_the_stored
        (r : internal.EventRepository) (ctx : context.Context)
        (id : uuid.UUID) (w : World) :
  refusal ctx w = None ->
  (List.In id (ids (postgres.events (server w))) ->
   exists row : postgres.row,
     List.In row (postgres.events (server w))
     /\ fst (internal.EventRepository.GetEventByID r ctx id w)
        = (Some (recordOf (postgres.TimeZone (server w)) row), None)
     /\ internal.ID (recordOf (postgres.TimeZone (server w)) row) = id)
  /\ (~ List.In id (ids (postgres.events (server w))) ->
      exists err : error,
        fst (internal.EventRepository.GetEventByID r ctx id w) = (None, Some err)
        /\ errors.Is err errors.ErrNoRows = false)
  /\ postgres.events (server (snd (internal.EventRepository.GetEventByID r ctx id w)))
     = postgres.events (server w)
  /\ issued (snd (internal.EventRepository.GetEventByID r ctx id w))
     = (issued w ++ [(postgres.selectEventByID, [postgres.Uuid id])])%list.
Proof.
  intros Hr. rewrite GetEventByID_executed by exact Hr. cbn [fst snd].
  split; [|split; [|split; reflexivity]].
  - intros Hin.
    destruct (filter_present id _ Hin) as (row & rest & -> & Hrow & Hid).
    exists row. repeat split; assumption.
  - intros Habsent. rewrite (filter_absent id _ Habsent).
    eexists. split; reflexivity.
Qed.

Lemma GetEventByID_finds_exactly_the_stored_witness :
  let r := internal.NewEventRepository sql.Open in
  (List.In 2001 (ids (postgres.events (server sampleWorld))) ->
   exists row : postgres.row,
     List.In row (postgres.events (server sampleWorld))
     /\ fst (internal.EventRepository.GetEventByID r context.Background 2001 sampleWorld)
        = (Some (recordOf (postgres.TimeZone (server sampleWorld)) row), None)
     /\ internal.ID (recordOf (postgres.TimeZone (server sampleWorld)) row) = 2001)
  /\ (~ List.In 2001 (ids (postgres.events (server sampleWorld))) ->
      exists err : error,
        fst (internal.EventRepository.GetEventByID r context.Background 2001 sampleWorld)
        = (None, Some err)
        /\ errors.Is err errors.ErrNoRows = false)
  /\ postgres.events
       (server (snd (internal.EventRepository.GetEventByID
                       r context.Background 2001 sampleWorld)))
     = postgres.events (server sampleWorld)
  /\ issued (snd (internal.EventRepository.GetEventByID
                    r context.Background 2001 sampleWorld))
     = (issued sampleWorld ++ [(postgres.selectEventByID, [postgres.Uuid 2001])])%list.
Proof.
  exact (GetEventByID_finds_exactly_the_stored
           (internal.NewEventRepository sql.Open) context.Background 2001
           sampleWorld eq_refl).
Defined.

(** X3. Insert then look up: the record returned by a successful
    [CreateEvent] is what [GetEventByID] returns for its identifier in
    every later world whose server is as the insert left it, once the
    statement is answered. *)
Theorem created_event_is_found_by_its_id
        (r : internal.EventRepository) (ctx ctx' : context.Context)
        (event created : internal.EventDB) (w w2 : World) :
  fst (internal.EventRepository.CreateEvent r ctx event w) = (Some created, None) ->
  server w2 = server (snd (internal.EventRepository.CreateEvent r ctx event w)) ->
  refusal ctx' w2 = None ->
  fst (internal.EventRepository.GetEventByID r ctx' (internal.ID created) w2)
  = (Some created, None).
Proof.
  intros Hc Hs Hr.
  destruct (CreateEvent_success r ctx event created w Hc) as (-> & Hsrv & Hfresh).
  rewrite Hsrv in Hs.
  rewrite GetEventByID_executed by exact Hr. rewrite Hs.
  cbn [fst postgres.events postgres.with_events postgres.TimeZone
       recordOf internal.ID].
  now rewrite (filter_fresh _ _ Hfresh).
Qed.

(** The meetup inserted into the sample table and looked up a minute
    later, over a connection that has become slow. *)
Lemma created_event_is_found_by_its_id_witness :
  let r := internal.NewEventRepository sql.Open in
  let after := snd (internal.EventRepository.CreateEvent
                      r context.Background (meetup 1 time.zero) sampleWorld) in
  let created := recordOf time.UTC (rowFor (meetup 1 time.zero) sampleWorld) in
  let later := mkWorld (clock after + 60 * time.Second) (random after)
                       (drawn after) (server after) (issued after) in
  fst (internal.EventRepository.GetEventByID
         r context.Background (internal.ID created) later)
  = (Some created, None).
Proof.
  exact (created_event_is_found_by_its_id
           (internal.NewEventRepository sql.Open)
           context.Background context.Background
           (meetup 1 time.zero)
           (recordOf time.UTC (rowFor (meetup 1 time.zero) sampleWorld))
           sampleWorld _ eq_refl eq_refl eq_refl).
Defined.

Lemma GetEvents_elements (r : internal.EventRepository)
      (ctx : context.Context) (w : World) :
  refusal ctx w = None ->
  snd (fst (internal.EventRepository.GetEvents r ctx w)) = None
  /\ elements (fst (fst (internal.EventRepository.GetEvents r ctx w)))
     = map (recordOf (postgres.TimeZone (server w)))
           (postgres.orderByStartTime (postgres.events (server w))).
Proof.
  intros Hr. rewrite GetEvents_executed by exact Hr. cbn [fst snd].
  split; [reflexivity|].
  destruct (postgres.orderByStartTime (postgres.events (server w))); reflexivity.
Qed.

(** X4. Insert then list: after a successful [CreateEvent], the list that
    [GetEvents] returns is, up to order, the list it returned before with
    the created record added; it is one longer. *)
Theorem created_event_is_listed
        (r : internal.EventRepository) (ctx ctx1 ctx2 : context.Context)
        (event created : internal.EventDB) (w w2 : World) :
  fst (internal.EventRepository.CreateEvent r ctx event w) = (Some created, None) ->
  server w2 = server (snd (internal.EventRepository.CreateEvent r ctx event w)) ->
  refusal ctx1 w = None ->
  refusal ctx2 w2 = None ->
  snd (fst (internal.EventRepository.GetEvents r ctx2 w2)) = None
  /\ Permutation
       (elements (fst (fst (internal.EventRepository.GetEvents r ctx2 w2))))
       (created :: elements (fst (fst (internal.EventRepository.GetEvents r ctx1 w))))
  /\ List.length (elements (fst (fst (internal.EventRepository.GetEvents r ctx2 w2))))
     = S (List.length
            (elements (fst (fst (internal.EventRepository.GetEvents r ctx1 w))))).
Proof.
  intros Hc Hs Hr1 Hr2.
  destruct (CreateEvent_success r ctx event created w Hc) as (-> & Hsrv & _).
  rewrite Hsrv in Hs.
  destruct (GetEvents_elements r ctx1 w Hr1) as [_ E1].
  destruct (GetEvents_elements r ctx2 w2 Hr2) as [N2 E2].
  rewrite Hs in E2. cbn [postgres.events postgres.with_events postgres.TimeZone] in E2.
  assert (P : Permutation
                (elements (fst (fst (internal.EventRepository.GetEvents r ctx2 w2))))
                (recordOf (postgres.TimeZone (server w)) (rowFor event w)
                 :: elements (fst (fst (internal.EventRepository.GetEvents r ctx1 w))))).
  { rewrite E1, E2.
    change (recordOf (postgres.TimeZone (server w)) (rowFor event w)
            :: map (recordOf (postgres.TimeZone (server w)))
                   (postgres.orderByStartTime (postgres.events (server w))))
      with (map (recordOf (postgres.TimeZone (server w)))
                (rowFor event w
                 :: postgres.orderByStartTime (postgres.events (server w)))).
    apply Permutation_map.
    eapply perm_trans; [apply Permutation_sym, orderByStartTime_perm|].
    eapply perm_trans; [apply Permutation_app_comm|]. cbn [app].
    apply perm_skip, orderByStartTime_perm. }
  split; [exact N2|]. split; [exact P|].
  now rewrite (Permutation_length P).
Qed.

Lemma created_event_is_listed_witness :
  let r := internal.NewEventRepository sql.Open in
  let after := snd (internal.EventRepository.CreateEvent
                      r context.Background (meetup 1 time.zero) sampleWorld) in
  let created := recordOf time.UTC (rowFor (meetup 1 time.zero) sampleWorld) in
  snd (fst (internal.EventRepository.GetEvents r context.Background after)) = None
  /\ Permutation
       (elements (fst (fst (internal.EventRepository.GetEvents
                              r context.Background after))))
       (created
        :: elements (fst (fst (internal.EventRepository.GetEvents
                                 r context.Background sampleWorld))))
  /\ List.length (elements (fst (fst (internal.EventRepository.GetEvents
                                        r context.Background after))))
     = S (List.length
            (elements (fst (fst (internal.EventRepository.GetEvents
                                   r context.Background sampleWorld))))).
Proof.
  exact (created_event_is_listed
           (internal.NewEventRepository sql.Open)
           context.Background context.Background context.Background
           (meetup 1 time.zero)
           (recordOf time.UTC (rowFor (meetup 1 time.zero) sampleWorld))
           sampleWorld _ eq_refl eq_refl eq_refl eq_refl).
Defined.

(** X5. The loop of [GetEvents] over the rows of a result is all or
    nothing. When every row scans, it returns the records in the order of
    the rows, appended to what it started from, and a slice that is [nil]
    only if it started [nil] and there was no row. When a row fails to
    scan, the rows before it having scanned, the loop returns that row's
    error and none of the records. *)
Theorem scan_loop_is_all_or_nothing
        (rows : list (list postgres.value)) (records : list internal.EventDB)
        (acc : slice internal.EventDB) :
  Forall2 scans rows records ->
  internal.EventRepository.scanAll rows acc
  = inl (match rows with
         | [] => acc
         | _ => sliceOf (elements acc ++ records)
         end)
  /\ (forall (cols : list postgres.value) (rest : list (list postgres.value))
             (e : error),
        internal.scanEvent cols = inr e ->
        internal.EventRepository.scanAll (rows ++ cols :: rest) acc = inr e).
Proof.
  intros H. revert acc.
  induction H as [|cols0 rec rows records Hscan Hall IH]; intros acc.
  - split; [reflexivity|].
    intros cols rest e He. cbn [app internal.EventRepository.scanAll].
    now rewrite He.
  - destruct (IH (append acc rec)) as [IH1 IH2].
    unfold scans in Hscan. split.
    + cbn [internal.EventRepository.scanAll]. rewrite Hscan, IH1.
      unfold append. destruct rows; inversion Hall; subst; cbn [elements].
      * reflexivity.
      * now rewrite <- app_assoc.
    + intros cols rest e He.
      cbn [app internal.EventRepository.scanAll]. rewrite Hscan.
      now apply IH2.
Qed.

(** The two sample rows as the server sends them. *)
Lemma scan_loop_is_all_or_nothing_witness :
  let rows := map (postgres.columns time.UTC) [conference; workshop] in
  let records := map (recordOf time.UTC) [conference; workshop] in
  internal.EventRepository.scanAll rows nilSlice = inl (sliceOf records)
  /\ (forall (cols : list postgres.value) (rest : list (list postgres.value))
             (e : error),
        internal.scanEvent cols = inr e ->
        internal.EventRepository.scanAll (rows ++ cols :: rest) nilSlice = inr e).
Proof.
  apply (scan_loop_is_all_or_nothing
           (map (postgres.columns time.UTC) [conference; workshop])
           (map (recordOf time.UTC) [conference; workshop]) nilSlice).
  repeat constructor.
Defined.

(* ================================================================= *)
(** * Further properties of the controller *)

(** The bounded context of a request whose own context has no deadline
    never reports an exceeded deadline at the instant it is made. *)
Lemma boundedCtx_fresh (r : http.Request) (w : World) (d : option Z) :
  http.Context r = context.Request d ->
  failureStatus (context.Err (boundedCtx r w) (clock w))
  = http.StatusInternalServerError.
Proof.
  intros Hc. unfold boundedCtx, context.WithTimeout, context.Err. rewrite Hc.
  cbn [context.doneAt]. unfold time.Second.
  destruct d as [t|].
  - destruct (Z.leb_spec t (clock w + 10 * 1000000000)).
    + destruct (t <=? clock w); reflexivity.
    + destruct (Z.leb_spec (clock w + 10 * 1000000000) (clock w)); [lia|reflexivity].
  - destruct (Z.leb_spec (clock w + 10 * 1000000000) (clock w)); [lia|reflexivity].
Qed.

(** X6. A test double with no function configured fails every method
    with the error "mock not configured", returns no record and touches
    nothing. Behind the controller, for a request whose context has no
    deadline of its own, this makes List answer 500, GetByID with a
    well-formed identifier answer 404 and Create with a valid input answer
    500, the world staying as it was but for the identifier Create
    drew. *)
Theorem unconfigured_mock_fails_every_call
        (r : http.Request) (w : World) (d : option Z) :
  http.Context r = context.Request d ->
  (forall (ctx : context.Context) (event : internal.EventDB) (id : uuid.UUID),
     internal.MockEventRepository.CreateEvent internal.NewMockEventRepository
                                              ctx event w
     = ((None, Some (errors.errorString "mock not configured")), w)
     /\ internal.MockEventRepository.GetEvents internal.NewMockEventRepository ctx w
        = ((nilSlice, Some (errors.errorString "mock not configured")), w)
     /\ internal.MockEventRepository.GetEventByID internal.NewMockEventRepository
                                                  ctx id w
        = ((None, Some (errors.errorString "mock not configured")), w))
  /\ api.EventController.GetEvents unconfigured r w
     = (http.Error "Failed to get events" http.StatusInternalServerError, w)
  /\ (forall id : uuid.UUID,
        uuid.Parse (mux_Var (http.Vars r) "id") = Some id ->
        api.EventController.GetEventByID unconfigured r w
        = (http.Error "Event not found" http.StatusNotFound, w))
  /\ (forall i : api.createEventInput,
        api.Decode (http.body r) = inl i ->
        passes i = true ->
        api.EventController.CreateEvent unconfigured r w
        = (http.Error "Failed to create event" http.StatusInternalServerError,
           snd (uuid_New w))).
Proof.
  intros Hc. split; [|split; [|split]].
  - intros ctx event id. repeat split.
  - rewrite (GetEvents_handler unconfigured r w w nilSlice
               (Some (errors.errorString "mock not configured")) eq_refl).
    cbn [clock]. now rewrite (boundedCtx_fresh r w d Hc).
  - intros id Hp.
    exact (GetEventByID_handler unconfigured r w w id None
             (Some (errors.errorString "mock not configured")) Hp eq_refl).
  - intros i Hd Hp.
    rewrite (CreateEvent_handler unconfigured r w (snd (uuid_New w)) i None
               (Some (errors.errorString "mock not configured")) Hd Hp eq_refl).
    cbn [clock snd uuid_New]. now rewrite (boundedCtx_fresh r w d Hc).
Qed.

Lemma unconfigured_mock_fails_every_call_witness :
  api.EventController.GetEvents unconfigured goConference sampleWorld
  = (http.Error "Failed to get events" http.StatusInternalServerError, sampleWorld)
  /\ fst (api.EventController.CreateEvent unconfigured goConference sampleWorld)
     = http.Error "Failed to create event" http.StatusInternalServerError.
Proof.
  split.
  - exact (proj1 (proj2 (unconfigured_mock_fails_every_call
                           goConference sampleWorld None eq_refl))).
  - exact (f_equal fst
             (proj2 (proj2 (proj2 (unconfigured_mock_fails_every_call
                                     goConference sampleWorld None eq_refl)))
                    (api.mkInput "Go Conference" None
                                 (time.mkTime 63891453600 0 time.UTC)
                                 (time.mkTime 63891460800 0 time.UTC))
                    eq_refl eq_refl)).
Defined.

Lemma failure_response (msg408 msg500 : string) (cerr : option error) :
  http.Error (if failureStatus cerr =? http.StatusRequestTimeout
              then msg408 else msg500) (failureStatus cerr)
  = http.Error msg408 http.StatusRequestTimeout
  \/ http.Error (if failureStatus cerr =? http.StatusRequestTimeout
                 then msg408 else msg500) (failureStatus cerr)
     = http.Error msg500 http.StatusInternalServerError.
Proof. destruct cerr as [[]|]; cbn; auto. Qed.

(** X7. Whatever the repository behind the controller does and whatever
    error it returns, the responses of the three handlers are of these
    forms only. List: 200 with [null], with the array of the documents of
    the listed records, or without body, or one of two fixed texts with
    408 and 500. GetByID: 200 with [null], with the document of a record,
    or without body, or one of two fixed texts with 400 and 404. Create:
    201 with [null], with the document of a record, or without body, one
    of two fixed texts with 408 and 500, or a 400 whose text is one of
    four fixed validation messages or begins with "invalid JSON: ". No
    text of a repository error reaches a body. *)
Theorem handler_responses_are_of_fixed_forms
        (ec : api.EventController) (r : http.Request) (w : World) :
  (fst (api.EventController.GetEvents ec r w)
   = http.mkResponse 200 "application/json" (http.encoded json.null)
   \/ (exists l : list internal.EventDB,
         fst (api.EventController.GetEvents ec r w)
         = http.mkResponse 200 "application/json"
                           (http.encoded (json.array (map recordJSON l))))
   \/ fst (api.EventController.GetEvents ec r w)
      = http.mkResponse 200 "application/json" http.nothing
   \/ fst (api.EventController.GetEvents ec r w)
      = http.Error "Request timeout" http.StatusRequestTimeout
   \/ fst (api.EventController.GetEvents ec r w)
      = http.Error "Failed to get events" http.StatusInternalServerError)
  /\
  (fst (api.EventController.GetEventByID ec r w)
   = http.mkResponse 200 "application/json" (http.encoded json.null)
   \/ (exists event : internal.EventDB,
         fst (api.EventController.GetEventByID ec r w)
         = http.mkResponse 200 "application/json"
                           (http.encoded (recordJSON event)))
   \/ fst (api.EventController.GetEventByID ec r w)
      = http.mkResponse 200 "application/json" http.nothing
   \/ fst (api.EventController.GetEventByID ec r w)
      = http.Error "Invalid UUID format" http.StatusBadRequest
   \/ fst (api.EventController.GetEventByID ec r w)
      = http.Error "Event not found" http.StatusNotFound)
  /\
  (fst (api.EventController.CreateEvent ec r w)
   = http.mkResponse 201 "application/json" (http.encoded json.null)
   \/ (exists created : internal.EventDB,
         fst (api.EventController.CreateEvent ec r w)
         = http.mkResponse 201 "application/json"
                           (http.encoded (recordJSON created)))
   \/ fst (api.EventController.CreateEvent ec r w)
      = http.mkResponse 201 "application/json" http.nothing
   \/ fst (api.EventController.CreateEvent ec r w)
      = http.Error "Request timeout" http.StatusRequestTimeout
   \/ fst (api.EventController.CreateEvent ec r w)
      = http.Error "Failed to create event" http.StatusInternalServerError
   \/ (exists msg : string,
         fst (api.EventController.CreateEvent ec r w)
         = http.Error msg http.StatusBadRequest
         /\ (msg = "title is required"
             \/ msg = "title must be <= 100 characters"
             \/ msg = "start_time and end_time are required (RFC3339)"
             \/ msg = "start_time must be before end_time"
             \/ exists detail : string,
                  msg = ("invalid JSON: " ++ detail)%string))).
Proof.
  assert (One : forall (code : Z) (p : option internal.EventDB),
            api.encodeResponse code (api.encodeEvent p)
            = http.mkResponse code "application/json" (http.encoded json.null)
            \/ (exists e : internal.EventDB,
                  api.encodeResponse code (api.encodeEvent p)
                  = http.mkResponse code "application/json"
                                    (http.encoded (recordJSON e)))
            \/ api.encodeResponse code (api.encodeEvent p)
               = http.mkResponse code "application/json" http.nothing).
  { intros code [e|]; [|now left]. right.
    cbn [api.encodeEvent]. rewrite marshalEvent_recordJSON.
    destruct (encodable e); [left; now exists e|now right]. }
  split; [|split].
  - destruct (internal.GetEvents (api.eventRepo ec) (boundedCtx r w) w)
      as [[events err] w1] eqn:E.
    rewrite (GetEvents_handler ec r w w1 events err E). cbn [fst].
    destruct err as [e|].
    + right. right. right. apply failure_response.
    + destruct events as [|l]; [now left|right].
      cbn [api.encodeEvents]. rewrite marshalEvents_recordJSON.
      destruct (forallb encodable l); [left; now exists l|now right; left].
  - unfold api.EventController.GetEventByID.
    destruct (uuid.Parse (mux_Var (http.Vars r) "id")) as [id|];
      [|do 3 right; left; reflexivity].
    unfold bind.
    destruct (internal.GetEventByID (api.eventRepo ec) (http.Context r) id w)
      as [[event err] w1].
    destruct err as [e|]; cbn [fst ret].
    + do 4 right. reflexivity.
    + destruct (One 200 event) as [H|[H|H]]; auto.
  - unfold api.EventController.CreateEvent, bind, context_WithTimeout.
    fold (boundedCtx r w).
    destruct (api.Decode (http.body r)) as [i|e] eqn:Hd.
    2:{ do 5 right. eexists. split; [reflexivity|].
        do 4 right. eexists. reflexivity. }
    destruct (String.eqb (strings.TrimSpace (api.Title i)) "").
    { do 5 right. eexists. split; [reflexivity|]. now left. }
    destruct (100 <? len (api.Title i))%nat.
    { do 5 right. eexists. split; [reflexivity|]. right. now left. }
    destruct (time.IsZero (api.StartTime i) || time.IsZero (api.EndTime i)).
    { do 5 right. eexists. split; [reflexivity|].
      right. right. now left. }
    destruct (time.Before (api.StartTime i) (api.EndTime i)); cbn [negb].
    2:{ do 5 right. eexists. split; [reflexivity|].
        right. right. right. now left. }
    unfold uuid_New, time_Now. cbn [fst snd clock].
    destruct (internal.CreateEvent (api.eventRepo ec) (boundedCtx r w) _ _)
      as [[created err] w1].
    destruct err as [e|].
    + unfold ctx_Err.
      destruct (context.Err (boundedCtx r w) (clock w1)) as [[]|]; cbn [fst ret];
        auto 6.
    + cbn [fst ret]. destruct (One 201 created) as [H|[H|H]]; auto.
Qed.

(* ================================================================= *)
(** * Further properties of histories *)

Lemma reaches_appends (w0 w : World) (issuedIds : list uuid.UUID) :
  reaches w0 w issuedIds ->
  exists added : list postgres.row,
    postgres.events (server w) = (postgres.events (server w0) ++ added)%list
    /\ (forall u : uuid.UUID, List.In u issuedIds -> List.In u (ids added))
    /\ (List.length issuedIds <= List.length added)%nat.
Proof.
  induction 1 as [|w issuedIds route r Hreach IH|w w' issuedIds Hreach IH Henv].
  - exists []. rewrite app_nil_r. repeat split; auto.
  - destruct IH as (added & Hrows & Hids & Hlen).
    destruct (serve_step route r w)
      as [[Hnone Hsame]|(x & [Hone|Hnone] & Hadd & _)].
    + exists added. now rewrite Hnone, Hsame.
    + exists (added ++ [x])%list. rewrite Hone, Hadd, Hrows.
      split; [now rewrite app_assoc|]. split.
      * intros u [<-|Hin]; unfold ids; rewrite map_app; apply in_or_app.
        -- right. now left.
        -- left. now apply Hids.
      * rewrite !length_app. cbn [List.length]. lia.
    + exists (added ++ [x])%list. rewrite Hnone, Hadd, Hrows.
      split; [now rewrite app_assoc|]. split.
      * intros u Hin. unfold ids. rewrite map_app. apply in_or_app.
        left. now apply Hids.
      * rewrite !length_app. cbn [List.length]. lia.
  - destruct IH as (added & Hrows & Hids). exists added. now rewrite Henv.
Qed.

(** X8. Over every history of the service (requests to its three routes,
    in any order, with the environment changing in between) the table
    only grows at its end: the rows it started with are still there,
    unchanged and in place, followed by the rows added since, among which
    is one row for each identifier issued in a 201. No route updates or
    deletes a row. *)
Theorem table_only_grows
        (w0 w : World) (issuedIds : list uuid.UUID) :
  reaches w0 w issuedIds ->
  exists added : list postgres.row,
    postgres.events (server w) = (postgres.events (server w0) ++ added)%list
    /\ (forall u : uuid.UUID, List.In u issuedIds -> List.In u (ids added))
    /\ (List.length (postgres.events (server w0)) + List.length issuedIds
        <= List.length (postgres.events (server w)))%nat.
Proof.
  intros Hreach.
  destruct (reaches_appends w0 w issuedIds Hreach) as (added & Hrows & Hids & Hlen).
  exists added. split; [exact Hrows|]. split; [exact Hids|].
  rewrite Hrows, length_app. lia.
Qed.

(** The sample table after a Create, a List, a refused Create and a
    second Create. *)
Lemma table_only_grows_witness :
  let w1 := snd (serve api.POST_events goConference sampleWorld) in
  let w2 := snd (serve api.GET_events bareRequest w1) in
  let w3 := snd (serve api.POST_events instantEvent w2) in
  let w4 := snd (serve api.POST_events eveningTalk w3) in
  exists added : list postgres.row,
    postgres.events (server w4) = ([workshop; conference] ++ added)%list
    /\ (forall u : uuid.UUID, List.In u [5001; 5000] -> List.In u (ids added))
    /\ (2 + 2 <= List.length (postgres.events (server w4)))%nat.
Proof.
  cbv zeta.
  pose (w1 := snd (serve api.POST_events goConference sampleWorld)).
  pose (w2 := snd (serve api.GET_events bareRequest w1)).
  pose (w3 := snd (serve api.POST_events instantEvent w2)).
  pose (w4 := snd (serve api.POST_events eveningTalk w3)).
  assert (R1 : reaches sampleWorld w1 [5000])
    by exact (@reaches_request sampleWorld sampleWorld [] api.POST_events
                               goConference (reaches_start sampleWorld)).
  assert (R2 : reaches sampleWorld w2 [5000])
    by exact (@reaches_request sampleWorld w1 [5000] api.GET_events bareRequest R1).
  assert (R3 : reaches sampleWorld w3 [5000])
    by exact (@reaches_request sampleWorld w2 [5000] api.POST_events instantEvent R2).
  assert (R4 : reaches sampleWorld w4 [5001; 5000])
    by exact (@reaches_request sampleWorld w3 [5000] api.POST_events eveningTalk R3).
  exact (table_only_grows sampleWorld w4 [5001; 5000] R4).
Defined.

Lemma NoDup_snoc (u : uuid.UUID) (l : list uuid.UUID) :
  NoDup l -> ~ List.In u l -> NoDup (l ++ [u]).
Proof.
  intros Hl Hu.
  apply (Permutation_NoDup (l := u :: l)).
  - apply Permutation_cons_append.
  - now constructor.
Qed.

(** X9. Identifiers stay unique: if no two rows share an [id] at the
    start, no two rows share one in any world the service reaches, and the
    identifiers it has issued are pairwise distinct. *)
Theorem identifiers_stay_unique
        (w0 w : World) (issuedIds : list uuid.UUID) :
  reaches w0 w issuedIds ->
  NoDup (ids (postgres.events (server w0))) ->
  NoDup (ids (postgres.events (server w))) /\ NoDup issuedIds.
Proof.
  intros Hreach H0.
  induction Hreach as [|w issuedIds route r Hreach IH|w w' issuedIds Hreach IH Henv].
  - split; [exact H0|constructor].
  - destruct IH as [IHrows IHids].
    destruct (serve_step route r w)
      as [[Hnone Hsame]|(x & [Hone|Hnone] & Hadd & Hfresh & _)].
    + rewrite Hnone, Hsame. now split.
    + rewrite Hone, Hadd. split.
      * unfold ids in *. rewrite map_app. cbn [map].
        now apply NoDup_snoc.
      * cbn [app]. constructor; [|exact IHids].
        intros Hin. apply Hfresh.
        exact (reaches_issued_stored w0 w issuedIds Hreach _ Hin).
    + rewrite Hnone, Hadd. split; [|exact IHids].
      unfold ids in *. rewrite map_app. cbn [map].
      now apply NoDup_snoc.
  - rewrite Henv. exact IH.
Qed.

Lemma identifiers_stay_unique_witness :
  let w1 := snd (serve api.POST_events goConference sampleWorld) in
  let w2 := snd (serve api.POST_events eveningTalk w1) in
  NoDup (ids (postgres.events (server w2))) /\ NoDup [5001; 5000].
Proof.
  cbv zeta.
  pose (w1 := snd (serve api.POST_events goConference sampleWorld)).
  pose (w2 := snd (serve api.POST_events eveningTalk w1)).
  assert (R1 : reaches sampleWorld w1 [5000])
    by exact (@reaches_request sampleWorld sampleWorld [] api.POST_events
                               goConference (reaches_start sampleWorld)).
  assert (R2 : reaches sampleWorld w2 [5001; 5000])
    by exact (@reaches_request sampleWorld w1 [5000] api.POST_events eveningTalk R1).
  apply (identifiers_stay_unique sampleWorld w2 [5001; 5000] R2).
  cbn. repeat constructor; cbn; intros H;
    repeat (destruct H as [H|H]; [discriminate|]); exact H.
Defined.

(* ================================================================= *)
(** * Further properties of the service end to end *)

(** X10. List, end to end: over a table with rows and with the statement
    answered, the service answers 200; when the times of every stored row
    can be written as RFC 3339 text, the body is a JSON array that holds
    one object of seven members per stored row (the rows' records in the
    session time zone, as a permutation of the table), each starting no
    later than all those after it; when some row cannot be written, the
    200 has no body. The service issues the one SELECT and leaves the
    table as it was. *)
Theorem list_answers_all_rows_in_order (r : http.Request) (w : World) :
  postgres.events (server w) <> [] ->
  refusal (boundedCtx r w) w = None ->
  exists records : list internal.EventDB,
    fst (api.EventController.GetEvents storageBacked r w)
    = (if forallb encodable records
       then http.mkResponse 200 "application/json"
                            (http.encoded (json.array (map recordJSON records)))
       else http.mkResponse 200 "application/json" http.nothing)
    /\ Permutation records
                   (map (recordOf (postgres.TimeZone (server w)))
                        (postgres.events (server w)))
    /\ StronglySorted startsLe records
    /\ issued (snd (api.EventController.GetEvents storageBacked r w))
       = (issued w ++ [(postgres.selectEvents, [])])%list
    /\ postgres.events (server (snd (api.EventController.GetEvents storageBacked r w)))
       = postgres.events (server w).
Proof.
  intros Hne Hr.
  pose proof (GetEvents_executed (internal.NewEventRepository sql.Open)
                                 (boundedCtx r w) w Hr) as E.
  change (internal.EventRepository.GetEvents
            (internal.NewEventRepository sql.Open))
    with (internal.GetEvents (api.eventRepo storageBacked)) in E.
  rewrite (GetEvents_handler storageBacked r w _ _ _ E). cbn [fst snd].
  pose proof (orderByStartTime_perm (postgres.events (server w))) as P.
  pose proof (orderByStartTime_sorted (postgres.events (server w))) as S.
  destruct (postgres.orderByStartTime (postgres.events (server w)))
    as [|x sorted] eqn:O.
  - apply Permutation_sym, Permutation_nil in P. contradiction.
  - exists (map (recordOf (postgres.TimeZone (server w))) (x :: sorted)).
    split.
    { cbn [api.encodeEvents]. rewrite marshalEvents_recordJSON.
      now destruct (forallb encodable _). }
    repeat split.
    + apply Permutation_sym, Permutation_map, P.
    + apply Sorted_StronglySorted.
      * intros a b c. apply startsLe_trans.
      * now apply recordOf_sorted.
Qed.

Lemma list_answers_all_rows_in_order_witness :
  exists records : list internal.EventDB,
    fst (api.EventController.GetEvents storageBacked bareRequest sampleWorld)
    = (if forallb encodable records
       then http.mkResponse 200 "application/json"
                            (http.encoded (json.array (map recordJSON records)))
       else http.mkResponse 200 "application/json" http.nothing)
    /\ Permutation records (map (recordOf time.UTC) [workshop; conference])
    /\ StronglySorted startsLe records
    /\ issued (snd (api.EventController.GetEvents storageBacked bareRequest sampleWorld))
       = [(postgres.selectEvents, [])]
    /\ postgres.events
         (server (snd (api.EventController.GetEvents storageBacked bareRequest sampleWorld)))
       = [workshop; conference].
Proof.
  apply (list_answers_all_rows_in_order bareRequest sampleWorld).
  - discriminate.
  - reflexivity.
Defined.

(** X11. GetByID, end to end: for a well-formed identifier and with the
    statement answered, the service answers 200 for a stored row that has
    this identifier when there is one (with the document of its record as
    the body when the times of the record can be written as RFC 3339
    text, and without body otherwise), and 404 when there is none; the
    table stays as it was. *)
Theorem lookup_answers_200_or_404
        (r : http.Request) (w : World) (id : uuid.UUID) :
  uuid.Parse (mux_Var (http.Vars r) "id") = Some id ->
  refusal (http.Context r) w = None ->
  (List.In id (ids (postgres.events (server w))) ->
   exists row : postgres.row,
     List.In row (postgres.events (server w))
     /\ postgres.id row = id
     /\ fst (api.EventController.GetEventByID storageBacked r w)
        = (if encodable (recordOf (postgres.TimeZone (server w)) row)
           then http.mkResponse 200 "application/json"
                  (http.encoded
                     (recordJSON (recordOf (postgres.TimeZone (server w)) row)))
           else http.mkResponse 200 "application/json" http.nothing))
  /\ (~ List.In id (ids (postgres.events (server w))) ->
      fst (api.EventController.GetEventByID storageBacked r w)
      = http.Error "Event not found" http.StatusNotFound)
  /\ postgres.events (server (snd (api.EventController.GetEventByID storageBacked r w)))
     = postgres.events (server w).
Proof.
  intros Hp Hr.
  pose proof (GetEventByID_executed (internal.NewEventRepository sql.Open)
                                    (http.Context r) id w Hr) as E.
  change (internal.EventRepository.GetEventByID
            (internal.NewEventRepository sql.Open))
    with (internal.GetEventByID (api.eventRepo storageBacked)) in E.
  split; [|split].
  - intros Hin.
    destruct (filter_present id _ Hin) as (row & rest & F & Hrow & Hid).
    rewrite F in E.
    rewrite (GetEventByID_handler storageBacked r w _ id _ _ Hp E).
    exists row. split; [assumption|]. split; [assumption|].
    cbn [fst api.encodeEvent]. rewrite marshalEvent_recordJSON.
    now destruct (encodable _).
  - intros Habsent. rewrite (filter_absent id _ Habsent) in E.
    now rewrite (GetEventByID_handler storageBacked r w _ id _ _ Hp E).
  - destruct (filter (fun x => postgres.id x =? id) (postgres.events (server w)));
      now rewrite (GetEventByID_handler storageBacked r w _ id _ _ Hp E).
Qed.

Lemma lookup_answers_200_or_404_witness :
  let r := lookup "00000000-0000-0000-0000-0000000007d2" in
  (List.In 2002 (ids (postgres.events (server sampleWorld))) ->
   exists row : postgres.row,
     List.In row (postgres.events (server sampleWorld))
     /\ postgres.id row = 2002
     /\ fst (api.EventController.GetEventByID storageBacked r sampleWorld)
        = (if encodable (recordOf (postgres.TimeZone (server sampleWorld)) row)
           then http.mkResponse 200 "application/json"
                  (http.encoded
                     (recordJSON (recordOf (postgres.TimeZone (server sampleWorld)) row)))
           else http.mkResponse 200 "application/json" http.nothing))
  /\ (~ List.In 2002 (ids (postgres.events (server sampleWorld))) ->
      fst (api.EventController.GetEventByID storageBacked r sampleWorld)
      = http.Error "Event not found" http.StatusNotFound)
  /\ postgres.events
       (server (snd (api.EventController.GetEventByID storageBacked r sampleWorld)))
     = postgres.events (server sampleWorld).
Proof.
  exact (lookup_answers_200_or_404
           (lookup "00000000-0000-0000-0000-0000000007d2") sampleWorld 2002
           eq_refl eq_refl).
Defined.

Lemma failureStatus_not_created (cerr : option error) :
  failureStatus cerr <> http.StatusCreated.
Proof. destruct cerr as [[]|]; discriminate. Qed.

(** A Create answered 201: the input was valid, and the response is
    what [Encode] made of the record of the one row added, under an
    identifier no row had. *)
Lemma create_201 (r : http.Request) (w : World) :
  http.StatusCode (fst (api.EventController.CreateEvent storageBacked r w))
  = http.StatusCreated ->
  exists i : api.createEventInput,
    api.Decode (http.body r) = inl i
    /\ passes i = true
    /\ fst (api.EventController.CreateEvent storageBacked r w)
       = api.encodeResponse http.StatusCreated
           (api.marshalEvent
              (recordOf (postgres.TimeZone (server w))
                        (rowFor (eventFor i w) (snd (uuid_New w)))))
    /\ server (snd (api.EventController.CreateEvent storageBacked r w))
       = postgres.with_events (server w)
           (postgres.events (server w)
            ++ [rowFor (eventFor i w) (snd (uuid_New w))])
           (S (postgres.generated (server w)))
    /\ ~ List.In (postgres.id (rowFor (eventFor i w) (snd (uuid_New w))))
                 (ids (postgres.events (server w))).
Proof.
  intros H201.
  destruct (api.Decode (http.body r)) as [i|e] eqn:Hd.
  2:{ destruct (CreateEvent_rejected storageBacked r w) as [msg E];
        [now rewrite Hd|].
      rewrite E in H201. discriminate. }
  destruct (passes i) eqn:Hp.
  2:{ destruct (CreateEvent_rejected storageBacked r w) as [msg E];
        [now rewrite Hd|].
      rewrite E in H201. discriminate. }
  destruct (internal.CreateEvent (api.eventRepo storageBacked) (boundedCtx r w)
                                 (eventFor i w) (snd (uuid_New w)))
    as [[created err] w1] eqn:E.
  rewrite (CreateEvent_handler storageBacked r w w1 i created err Hd Hp E) in *.
  cbn [fst snd] in *.
  destruct err as [e|].
  { exfalso. cbn [http.StatusCode http.Error] in H201.
    exact (failureStatus_not_created _ H201). }
  clear H201.
  destruct created as [created|].
  2:{ exfalso.
      destruct (CreateEvent_table (internal.NewEventRepository sql.Open)
                                  (boundedCtx r w) (eventFor i w) (snd (uuid_New w)))
        as [[Herr _]|(Hok & _)];
        change (internal.EventRepository.CreateEvent
                  (internal.NewEventRepository sql.Open))
          with (internal.CreateEvent (api.eventRepo storageBacked)) in *;
        rewrite E in *; cbn [fst snd] in *.
      - now apply Herr.
      - discriminate. }
  assert (Hc : fst (internal.EventRepository.CreateEvent
                      (internal.NewEventRepository sql.Open) (boundedCtx r w)
                      (eventFor i w) (snd (uuid_New w))) = (Some created, None)).
  { change (internal.EventRepository.CreateEvent
              (internal.NewEventRepository sql.Open))
      with (internal.CreateEvent (api.eventRepo storageBacked)).
    now rewrite E. }
  destruct (CreateEvent_success _ _ _ _ _ Hc) as (-> & Hsrv & Hfresh).
  change (internal.EventRepository.CreateEvent
            (internal.NewEventRepository sql.Open))
    with (internal.CreateEvent (api.eventRepo storageBacked)) in Hsrv.
  rewrite E in Hsrv. cbn [fst snd] in Hsrv.
  exists i. repeat split; assumption.
Qed.

(** X12. Create then GetByID: when a Create is answered 201, a later
    GetByID for the identifier in that response, in any world whose
    server is as the Create left it and with the statement answered, is
    answered 200 with the very body the Create returned. *)
Theorem created_event_is_served_by_its_id
        (rc rg : http.Request) (w w2 : World) (id : uuid.UUID) :
  http.StatusCode (fst (api.EventController.CreateEvent storageBacked rc w))
  = http.StatusCreated ->
  createdID (fst (api.EventController.CreateEvent storageBacked rc w)) = [id] ->
  server w2 = server (snd (api.EventController.CreateEvent storageBacked rc w)) ->
  uuid.Parse (mux_Var (http.Vars rg) "id") = Some id ->
  refusal (http.Context rg) w2 = None ->
  http.StatusCode (fst (api.EventController.GetEventByID storageBacked rg w2))
  = http.StatusOK
  /\ http.Payload (fst (api.EventController.GetEventByID storageBacked rg w2))
     = http.Payload (fst (api.EventController.CreateEvent storageBacked rc w)).
Proof.
  intros H201 Hid Hs Hp Hr.
  destruct (create_201 rc w H201) as (i & _ & _ & Hresp & Hsrv & Hfresh).
  rewrite Hresp in Hid |- *. rewrite Hsrv in Hs.
  assert (Hid' : postgres.id (rowFor (eventFor i w) (snd (uuid_New w))) = id).
  { rewrite marshalEvent_recordJSON in Hid.
    destruct (encodable _); [|discriminate Hid].
    change (createdID
              (api.encodeResponse http.StatusCreated
                 (Some (recordJSON
                          (recordOf (postgres.TimeZone (server w))
                                    (rowFor (eventFor i w) (snd (uuid_New w))))))))
      with [postgres.id (rowFor (eventFor i w) (snd (uuid_New w)))] in Hid.
    now inversion Hid. }
  subst id.
  pose proof (GetEventByID_executed
                (internal.NewEventRepository sql.Open) (http.Context rg)
                (postgres.id (rowFor (eventFor i w) (snd (uuid_New w)))) w2 Hr) as E.
  change (internal.EventRepository.GetEventByID
            (internal.NewEventRepository sql.Open))
    with (internal.GetEventByID (api.eventRepo storageBacked)) in E.
  rewrite Hs in E.
  cbn [postgres.events postgres.with_events postgres.TimeZone] in E.
  rewrite (filter_fresh _ _ Hfresh) in E.
  rewrite (GetEventByID_handler storageBacked rg w2 _ _ _ _ Hp E).
  cbn [fst api.encodeEvent].
  destruct (api.marshalEvent _); split; reflexivity.
Qed.

(** The conference created on the empty table and fetched by the
    identifier the server drew for it. *)
Lemma created_event_is_served_by_its_id_witness :
  let rg := lookup "00000000-0000-0000-0000-000000001388" in
  http.StatusCode (fst (api.EventController.GetEventByID storageBacked rg afterConference))
  = http.StatusOK
  /\ http.Payload (fst (api.EventController.GetEventByID storageBacked rg afterConference))
     = http.Payload (fst (api.EventController.CreateEvent
                            storageBacked goConference emptyWorld)).
Proof.
  exact (created_event_is_served_by_its_id
           goConference (lookup "00000000-0000-0000-0000-000000001388")
           emptyWorld afterConference 5000
           eq_refl eq_refl eq_refl eq_refl eq_refl).
Defined.

Lemma Equal_fields (t u : time.Time) :
  time.Equal t u = true -> time.sec t = time.sec u /\ time.nsec t = time.nsec u.
Proof.
  unfold time.Equal. intros H. apply andb_true_iff in H as [H1 H2].
  now apply Z.eqb_eq in H1, H2.
Qed.

(** X13. The zone in which a client writes its times does not matter to
    Create: two requests with the same context, title and description
    whose start and end times are the same instants (in whatever
    locations) get the same response and leave the same world, whatever
    the repository. *)
Theorem create_ignores_the_zone_of_the_input
        (ec : api.EventController) (r1 r2 : http.Request)
        (i1 i2 : api.createEventInput) (w : World) :
  http.Context r1 = http.Context r2 ->
  api.Decode (http.body r1) = inl i1 ->
  api.Decode (http.body r2) = inl i2 ->
  api.Title i1 = api.Title i2 ->
  api.Description i1 = api.Description i2 ->
  time.Equal (api.StartTime i1) (api.StartTime i2) = true ->
  time.Equal (api.EndTime i1) (api.EndTime i2) = true ->
  api.EventController.CreateEvent ec r1 w = api.EventController.CreateEvent ec r2 w.
Proof.
  intros Hc H1 H2 Ht Hd Hs He.
  apply Equal_fields in Hs as [Hs1 Hs2]. apply Equal_fields in He as [He1 He2].
  unfold api.EventController.CreateEvent, bind, context_WithTimeout.
  rewrite Hc, H1, H2.
  destruct i1 as [t1 d1 [ss1 sn1 sl1] [es1 en1 el1]].
  destruct i2 as [t2 d2 [ss2 sn2 sl2] [es2 en2 el2]].
  cbn [api.Title api.Description api.StartTime api.EndTime
       time.sec time.nsec] in *.
  subst. reflexivity.
Qed.

(** The evening talk written with its offset and written in UTC. *)
Lemma create_ignores_the_zone_of_the_input_witness :
  let inUTC := post [("title", json.Str "Evening Talk");
                     ("description", json.Str "Given in local time");
                     ("start_time", json.Str "2025-08-22T17:00:00Z");
                     ("end_time", json.Str "2025-08-22T18:30:00Z")] in
  api.EventController.CreateEvent storageBacked eveningTalk sampleWorld
  = api.EventController.CreateEvent storageBacked inUTC sampleWorld.
Proof.
  exact (create_ignores_the_zone_of_the_input
           storageBacked eveningTalk
           (post [("title", json.Str "Evening Talk");
                  ("description", json.Str "Given in local time");
                  ("start_time", json.Str "2025-08-22T17:00:00Z");
                  ("end_time", json.Str "2025-08-22T18:30:00Z")])
           (api.mkInput "Evening Talk" (Some "Given in local time")
                        (time.mkTime 63891478800 0 (time.FixedZone "" 7200))
                        (time.mkTime 63891484200 0 (time.FixedZone "" 7200)))
           (api.mkInput "Evening Talk" (Some "Given in local time")
                        (time.mkTime 63891478800 0 time.UTC)
                        (time.mkTime 63891484200 0 time.UTC))
           sampleWorld eq_refl eq_refl eq_refl eq_refl eq_refl eq_refl eq_refl).
Defined.

Lemma QueryContext_aborted (db : sql.DB) (ctx : context.Context)
      (query : string) (args : list postgres.value) (w : World) (e : error) :
  context.Err ctx (clock w) = None ->
  postgres.failure (server w) = None ->
  context.Err ctx (clock w + postgres.latency (server w)) = Some e ->
  sql.QueryContext db ctx query args w
  = ((sql.mkRows [] None, Some e),
     afterCall w (postgres.latency (server w)) (server w) query args).
Proof.
  intros H0 Hf H1. unfold sql.QueryContext, afterCall. now rewrite H0, Hf, H1.
Qed.

(** The bounded context of a request from a client that stays connected
    is done exactly from ten seconds after the request on, with the
    deadline exceeded. *)
Lemma boundedCtx_Err (r : http.Request) (w : World) (now : Z) :
  http.Context r = context.Request None ->
  context.Err (boundedCtx r w) now
  = if clock w + 10 * time.Second <=? now
    then Some errors.DeadlineExceeded else None.
Proof.
  intros Hc. unfold boundedCtx, context.WithTimeout, context.Err.
  now rewrite Hc.
Qed.

(** X14. The ten seconds of List: for a client that stays connected and
    a connection that works, List is answered 408 with the table
    untouched when the statement takes ten seconds or more, and 200 when
    it takes less. *)
Theorem list_times_out_at_ten_seconds (r : http.Request) (w : World) :
  http.Context r = context.Request None ->
  postgres.failure (server w) = None ->
  http.StatusCode (fst (api.EventController.GetEvents storageBacked r w))
  = (if 10 * time.Second <=? postgres.latency (server w)
     then http.StatusRequestTimeout else http.StatusOK)
  /\ postgres.events (server (snd (api.EventController.GetEvents storageBacked r w)))
     = postgres.events (server w).
Proof.
  intros Hc Hf.
  split; [|exact (proj2 (proj1 (read_step r w)))].
  assert (H0 : context.Err (boundedCtx r w) (clock w) = None).
  { rewrite (boundedCtx_Err r w _ Hc). unfold time.Second.
    destruct (Z.leb_spec (clock w + 10 * 1000000000) (clock w)); [lia|reflexivity]. }
  destruct (Z.leb_spec (10 * time.Second) (postgres.latency (server w))) as [Hslow|Hfast].
  - assert (H1 : context.Err (boundedCtx r w)
                             (clock w + postgres.latency (server w))
                 = Some errors.DeadlineExceeded).
    { rewrite (boundedCtx_Err r w _ Hc).
      destruct (Z.leb_spec (clock w + 10 * time.Second)
                           (clock w + postgres.latency (server w)));
        [reflexivity|lia]. }
    assert (E : internal.GetEvents (api.eventRepo storageBacked) (boundedCtx r w) w
                = ((nilSlice,
                    Some (fmt.Errorf "failed to query events: %w"
                                     (Some errors.DeadlineExceeded))),
                   afterCall w (postgres.latency (server w)) (server w)
                             postgres.selectEvents [])).
    { change (internal.GetEvents (api.eventRepo storageBacked) (boundedCtx r w) w)
        with (internal.EventRepository.GetEvents
                (internal.NewEventRepository sql.Open) (boundedCtx r w) w).
      unfold internal.EventRepository.GetEvents, bind.
      now rewrite (QueryContext_aborted _ _ _ _ _ _ H0 Hf H1). }
    rewrite (GetEvents_handler storageBacked r w _ _ _ E).
    cbn [fst afterCall clock]. now rewrite H1.
  - assert (Hr : refusal (boundedCtx r w) w = None).
    { unfold refusal. rewrite H0, Hf, (boundedCtx_Err r w _ Hc).
      destruct (Z.leb_spec (clock w + 10 * time.Second)
                           (clock w + postgres.latency (server w)));
        [lia|reflexivity]. }
    pose proof (GetEvents_executed (internal.NewEventRepository sql.Open)
                                   (boundedCtx r w) w Hr) as E.
    change (internal.EventRepository.GetEvents
              (internal.NewEventRepository sql.Open))
      with (internal.GetEvents (api.eventRepo storageBacked)) in E.
    rewrite (GetEvents_handler storageBacked r w _ _ _ E). cbn [fst].
    now destruct (api.encodeEvents _).
Qed.

(** The sample server that needs eleven seconds, and the one that needs
    two milliseconds. *)
Lemma list_times_out_at_ten_seconds_witness :
  http.StatusCode (fst (api.EventController.GetEvents storageBacked bareRequest slowWorld))
  = http.StatusRequestTimeout
  /\ http.StatusCode (fst (api.EventController.GetEvents storageBacked bareRequest sampleWorld))
     = http.StatusOK.
Proof.
  split.
  - exact (proj1 (list_times_out_at_ten_seconds bareRequest slowWorld
                                                eq_refl eq_refl)).
  - exact (proj1 (list_times_out_at_ten_seconds bareRequest sampleWorld
                                                eq_refl eq_refl)).
Defined.

Lemma existsb_fresh (u : uuid.UUID) (rows : list postgres.row) :
  ~ List.In u (ids rows) -> existsb (fun r => postgres.id r =? u) rows = false.
Proof.
  induction rows as [|x rows IH]; cbn [existsb ids map List.In]; intros H.
  - reflexivity.
  - apply orb_false_iff. split.
    + apply Z.eqb_neq. tauto.
    + apply IH. tauto.
Qed.

Lemma passes_fits_column (i : api.createEventInput) :
  passes i = true ->
  (255 <? utf8.RuneCountInString (api.Title i))%nat = false.
Proof.
  unfold passes. intros H.
  apply andb_true_iff in H as [H _]. apply andb_true_iff in H as [H _].
  apply andb_true_iff in H as [_ H]. apply negb_true_iff, Nat.ltb_ge in H.
  apply Nat.ltb_ge. pose proof (RuneCount_le_len (api.Title i)). lia.
Qed.

(** X15. When Create succeeds: for an input that passes the handler's
    checks, whose title and description are texts the server takes (valid
    UTF-8 without NUL byte), with the statement answered and the
    identifier the server draws not yet in the table, Create is answered
    201 and adds one row at the end of the table: under the identifier
    drawn, with the title and description of the input, its start and
    end in UTC to the microsecond within half a microsecond of the
    input's, and the time of the statement as both stamps. The body is
    the document of the record of that row when its times can be written
    as RFC 3339 text, and is missing otherwise. The one statement issued
    is the INSERT with the title, the description and the two times in
    UTC as its parameters. The length the handler allows always fits the
    [VARCHAR(255)] column. *)
Theorem valid_create_succeeds
        (r : http.Request) (w : World) (i : api.createEventInput) :
  api.Decode (http.body r) = inl i ->
  passes i = true ->
  postgres.acceptsText (api.Title i) = true ->
  (forall d : string,
     api.Description i = Some d -> postgres.acceptsText d = true) ->
  refusal (boundedCtx r w) w = None ->
  ~ List.In (postgres.generator (server w) (postgres.generated (server w)))
            (ids (postgres.events (server w))) ->
  exists row : postgres.row,
    fst (api.EventController.CreateEvent storageBacked r w)
    = (if encodable (recordOf (postgres.TimeZone (server w)) row)
       then http.mkResponse 201 "application/json"
              (http.encoded
                 (recordJSON (recordOf (postgres.TimeZone (server w)) row)))
       else http.mkResponse 201 "application/json" http.nothing)
    /\ postgres.events (server (snd (api.EventController.CreateEvent storageBacked r w)))
       = (postgres.events (server w) ++ [row])%list
    /\ postgres.id row
       = postgres.generator (server w) (postgres.generated (server w))
    /\ postgres.title row = api.Title i
    /\ postgres.description row = api.Description i
    /\ time.loc (postgres.start_time row) = time.UTC
    /\ time.loc (postgres.end_time row) = time.UTC
    /\ instant (postgres.start_time row) mod 1000 = 0
    /\ instant (postgres.end_time row) mod 1000 = 0
    /\ Z.abs (instant (postgres.start_time row) - instant (api.StartTime i)) <= 500
    /\ Z.abs (instant (postgres.end_time row) - instant (api.EndTime i)) <= 500
    /\ postgres.created_at row = time.at_ns (clock w) time.UTC
    /\ postgres.updated_at row = time.at_ns (clock w) time.UTC
    /\ issued (snd (api.EventController.CreateEvent storageBacked r w))
       = (issued w
          ++ [(postgres.insertEvent,
               [ postgres.Text (api.Title i);
                 match api.Description i with
                 | Some d => postgres.Text d
                 | None => postgres.Null
                 end;
                 postgres.Timestamptz
                   (time.mkTime (time.sec (api.StartTime i))
                                (time.nsec (api.StartTime i)) time.UTC);
                 postgres.Timestamptz
                   (time.mkTime (time.sec (api.EndTime i))
                                (time.nsec (api.EndTime i)) time.UTC) ])])%list.
Proof.
  intros Hd Hp Ht Hdesc Hr Hfresh.
  pose (row := rowFor (eventFor i w) (snd (uuid_New w))).
  assert (Htexts : textsAccepted (eventFor i w) = true).
  { unfold textsAccepted, eventFor.
    cbn [internal.Title internal.Description]. rewrite Ht.
    destruct (api.Description i) as [d|]; [|reflexivity].
    now rewrite (Hdesc d eq_refl). }
  assert (E : internal.CreateEvent (api.eventRepo storageBacked) (boundedCtx r w)
                                   (eventFor i w) (snd (uuid_New w))
              = ((Some (recordOf (postgres.TimeZone (server w)) row), None),
                 afterCall (snd (uuid_New w)) (postgres.latency (server w))
                   (postgres.with_events (server w)
                      (postgres.events (server w) ++ [row])
                      (S (postgres.generated (server w))))
                   postgres.insertEvent (paramsOf (eventFor i w)))).
  { change (internal.CreateEvent (api.eventRepo storageBacked))
      with (internal.EventRepository.CreateEvent
              (internal.NewEventRepository sql.Open)).
    rewrite CreateEvent_executed by exact Hr.
    rewrite Htexts. cbn [negb].
    change (internal.Title (eventFor i w)) with (api.Title i).
    rewrite (passes_fits_column i Hp).
    change (server (snd (uuid_New w))) with (server w).
    change (postgres.id (rowFor (eventFor i w) (snd (uuid_New w))))
      with (postgres.generator (server w) (postgres.generated (server w))).
    now rewrite (existsb_fresh _ _ Hfresh). }
  exists row.
  rewrite (CreateEvent_handler storageBacked r w _ i _ _ Hd Hp E).
  split.
  { cbn [fst api.encodeEvent]. rewrite marshalEvent_recordJSON.
    now destruct (encodable _). }
  pose proof (timestamptz_instant (api.StartTime i)) as Is.
  pose proof (timestamptz_instant (api.EndTime i)) as Ie.
  unfold row, rowFor, eventFor.
  cbn [postgres.start_time postgres.end_time internal.StartTime
       internal.EndTime].
  rewrite !timestamptz_toUTC.
  split; [reflexivity|]. split; [reflexivity|]. split; [reflexivity|].
  split; [reflexivity|]. split; [reflexivity|]. split; [reflexivity|].
  split; [rewrite Is; Z.to_euclidean_division_equations; lia|].
  split; [rewrite Ie; Z.to_euclidean_division_equations; lia|].
  split; [rewrite Is; Z.to_euclidean_division_equations; lia|].
  split; [rewrite Ie; Z.to_euclidean_division_equations; lia|].
  repeat split.
Qed.

Lemma valid_create_succeeds_witness :
  let i := api.mkInput "Go Conference" None
                       (time.mkTime 63891453600 0 time.UTC)
                       (time.mkTime 63891460800 0 time.UTC) in
  exists row : postgres.row,
    fst (api.EventController.CreateEvent storageBacked goConference sampleWorld)
    = (if encodable (recordOf time.UTC row)
       then http.mkResponse 201 "application/json"
              (http.encoded (recordJSON (recordOf time.UTC row)))
       else http.mkResponse 201 "application/json" http.nothing)
    /\ postgres.events
         (server (snd (api.EventController.CreateEvent storageBacked goConference sampleWorld)))
       = ([workshop; conference] ++ [row])%list
    /\ postgres.id row = 5000
    /\ postgres.title row = "Go Conference"
    /\ postgres.description row = None
    /\ time.loc (postgres.start_time row) = time.UTC
    /\ time.loc (postgres.end_time row) = time.UTC
    /\ instant (postgres.start_time row) mod 1000 = 0
    /\ instant (postgres.end_time row) mod 1000 = 0
    /\ Z.abs (instant (postgres.start_time row) - instant (api.StartTime i)) <= 500
    /\ Z.abs (instant (postgres.end_time row) - instant (api.EndTime i)) <= 500
    /\ postgres.created_at row = time.mkTime 63891100000 0 time.UTC
    /\ postgres.updated_at row = time.mkTime 63891100000 0 time.UTC
    /\ issued (snd (api.EventController.CreateEvent storageBacked goConference sampleWorld))
       = [(postgres.insertEvent,
           [postgres.Text "Go Conference"; postgres.Null;
            postgres.Timestamptz (time.mkTime 63891453600 0 time.UTC);
            postgres.Timestamptz (time.mkTime 63891460800 0 time.UTC)])].
Proof.
  apply (valid_create_succeeds
           goConference sampleWorld
           (api.mkInput "Go Conference" None
                        (time.mkTime 63891453600 0 time.UTC)
                        (time.mkTime 63891460800 0 time.UTC))).
  - reflexivity.
  - reflexivity.
  - reflexivity.
  - intros d H. discriminate H.
  - reflexivity.
  - cbn. intros [H|[H|[]]]; discriminate.
Defined.

Lemma field_is_a_name (key f : string) :
  json.field api.fieldNames key = Some f -> List.In f api.fieldNames.
Proof.
  unfold json.field.
  destruct (find (String.eqb key) api.fieldNames) as [g|] eqn:F.
  - intros H. inversion H; subst. now apply find_some in F.
  - intros H. now apply find_some in H.
Qed.

(** A member leaves alone every field it does not set. *)
Lemma decodeMember_keeps (key : string) (v : json.value)
      (i i' : api.createEventInput) :
  api.decodeMember key v i = inl i' ->
  (forall f, json.field api.fieldNames key = Some f -> v <> json.Null ->
             f <> "title" -> api.Title i' = api.Title i)
  /\ (forall f, json.field api.fieldNames key = Some f -> v <> json.Null ->
                f <> "start_time" -> api.StartTime i' = api.StartTime i)
  /\ (forall f, json.field api.fieldNames key = Some f -> v <> json.Null ->
                f <> "end_time" -> api.EndTime i' = api.EndTime i)
  /\ (v = json.Null ->
      api.Title i' = api.Title i /\ api.StartTime i' = api.StartTime i
      /\ api.EndTime i' = api.EndTime i).
Proof.
  unfold api.decodeMember.
  destruct (json.field api.fieldNames key) as [g|] eqn:F; [|discriminate].
  pose proof (field_is_a_name key g F) as Hg.
  cbn [api.fieldNames List.In] in Hg.
  destruct Hg as [<-|[<-|[<-|[<-|[]]]]]; cbn [String.eqb Ascii.eqb Bool.eqb];
    unfold api.decodeTime; intros H.
  - repeat split; intros; destruct v; inversion H; subst;
      try reflexivity; try congruence.
  - repeat split; intros; destruct v; inversion H; subst;
      try reflexivity; try congruence.
  - repeat split; intros; destruct v; try discriminate;
      try (destruct (time.UnmarshalJSON s)); inversion H; subst;
      try reflexivity; try congruence.
  - repeat split; intros; destruct v; try discriminate;
      try (destruct (time.UnmarshalJSON s)); inversion H; subst;
      try reflexivity; try congruence.
Qed.

Lemma not_sets_tail (f key : string) (v : json.value)
      (rest : list (string * json.value)) :
  ~ sets f ((key, v) :: rest) -> ~ sets f rest.
Proof.
  intros H (k & x & Hin & Hf & Hx). apply H.
  exists k, x. split; [now right|now split].
Qed.

Lemma not_sets_head (f key : string) (v : json.value)
      (rest : list (string * json.value)) (g : string) :
  ~ sets f ((key, v) :: rest) ->
  json.field api.fieldNames key = Some g -> v <> json.Null -> g <> f.
Proof.
  intros H Hg Hv ->. apply H. exists key, v. split; [now left|now split].
Qed.

Lemma decodeMember_selects (key : string) (v : json.value)
      (i i' : api.createEventInput) :
  api.decodeMember key v i = inl i' ->
  exists g, json.field api.fieldNames key = Some g.
Proof.
  unfold api.decodeMember.
  destruct (json.field api.fieldNames key) as [g|]; [|discriminate].
  intros _. now exists g.
Qed.

Lemma Null_dec (v : json.value) : v = json.Null \/ v <> json.Null.
Proof. destruct v; [now left|right; discriminate..]. Qed.

(** The fields no member sets keep the value the decoder started from. *)
Lemma decodeMembers_keeps (members : list (string * json.value)) :
  forall i i' : api.createEventInput,
    api.decodeMembers members i = inl i' ->
    (~ sets "title" members -> api.Title i' = api.Title i)
    /\ (~ sets "start_time" members -> api.StartTime i' = api.StartTime i)
    /\ (~ sets "end_time" members -> api.EndTime i' = api.EndTime i).
Proof.
  induction members as [|[key v] rest IH]; intros i i' H.
  - cbn in H. inversion H. repeat split.
  - cbn [api.decodeMembers] in H.
    destruct (api.decodeMember key v i) as [i1|e] eqn:E; [|discriminate].
    destruct (IH i1 i' H) as (IHt & IHs & IHe).
    destruct (decodeMember_keeps key v i i1 E) as (Kt & Ks & Ke & Kn).
    destruct (decodeMember_selects key v i i1 E) as [g Hg].
    destruct (Null_dec v) as [Hv|Hv].
    + destruct (Kn Hv) as (Nt & Ns & Ne).
      repeat split; intros Hno.
      * rewrite (IHt (not_sets_tail _ _ _ _ Hno)). exact Nt.
      * rewrite (IHs (not_sets_tail _ _ _ _ Hno)). exact Ns.
      * rewrite (IHe (not_sets_tail _ _ _ _ Hno)). exact Ne.
    + repeat split; intros Hno.
      * rewrite (IHt (not_sets_tail _ _ _ _ Hno)).
        exact (Kt g Hg Hv (not_sets_head _ _ _ _ g Hno Hg Hv)).
      * rewrite (IHs (not_sets_tail _ _ _ _ Hno)).
        exact (Ks g Hg Hv (not_sets_head _ _ _ _ g Hno Hg Hv)).
      * rewrite (IHe (not_sets_tail _ _ _ _ Hno)).
        exact (Ke g Hg Hv (not_sets_head _ _ _ _ g Hno Hg Hv)).
Qed.

(** X16. Missing members: when the body is an object that decodes and no
    member sets the title (none names it under any spelling the decoder
    accepts, or its value is [null]), Create is answered 400 "title is
    required"; when the title passes its two checks and no member sets
    the start time, or none sets the end time, Create is answered 400
    "start_time and end_time are required (RFC3339)". Either way the
    world stays as it was, whatever the repository. *)
Theorem missing_members_are_required
        (ec : api.EventController) (r : http.Request) (w : World)
        (members : list (string * json.value)) (i : api.createEventInput) :
  http.body r = http.document (json.Object members) ->
  api.Decode (http.body r) = inl i ->
  (~ sets "title" members ->
   api.EventController.CreateEvent ec r w
   = (http.Error "title is required" http.StatusBadRequest, w))
  /\ (~ sets "start_time" members \/ ~ sets "end_time" members ->
      String.eqb (strings.TrimSpace (api.Title i)) "" = false ->
      (len (api.Title i) <= 100)%nat ->
      api.EventController.CreateEvent ec r w
      = (http.Error "start_time and end_time are required (RFC3339)"
                    http.StatusBadRequest, w)).
Proof.
  intros Hb Hd.
  assert (Hm : api.decodeMembers members api.zeroInput = inl i).
  { rewrite Hb in Hd. exact Hd. }
  destruct (decodeMembers_keeps members api.zeroInput i Hm) as (Kt & Ks & Ke).
  unfold api.EventController.CreateEvent, bind, context_WithTimeout.
  rewrite Hd. split.
  - intros Hno. rewrite (Kt Hno). reflexivity.
  - intros Hno Htitle Hlen. rewrite Htitle.
    assert (Hl : (100 <? len (api.Title i))%nat = false)
      by (apply Nat.ltb_ge; exact Hlen).
    rewrite Hl.
    assert (Hz : time.IsZero (api.StartTime i) || time.IsZero (api.EndTime i) = true).
    { destruct Hno as [Hno|Hno].
      - rewrite (Ks Hno). reflexivity.
      - rewrite (Ke Hno). apply orb_true_r. }
    now rewrite Hz.
Qed.

(** A body with a description only, and a body with a title and a start
    time but a [null] end time. *)
Lemma missing_members_are_required_witness :
  api.EventController.CreateEvent
    storageBacked (post [("description", json.Str "No title")]) sampleWorld
  = (http.Error "title is required" http.StatusBadRequest, sampleWorld)
  /\ api.EventController.CreateEvent
       storageBacked
       (post [("Title", json.Str "Go Conference");
              ("start_time", json.Str "2025-08-22T10:00:00Z");
              ("end_time", json.Null)])
       sampleWorld
     = (http.Error "start_time and end_time are required (RFC3339)"
                   http.StatusBadRequest, sampleWorld).
Proof.
  split.
  - apply (proj1 (missing_members_are_required
                    storageBacked (post [("description", json.Str "No title")])
                    sampleWorld [("description", json.Str "No title")]
                    (api.mkInput "" (Some "No title") time.zero time.zero)
                    eq_refl eq_refl)).
    intros (k & v & [H|[]] & Hf & _). inversion H; subst. discriminate.
  - apply (proj2 (missing_members_are_required
                    storageBacked
                    (post [("Title", json.Str "Go Conference");
                           ("start_time", json.Str "2025-08-22T10:00:00Z");
                           ("end_time", json.Null)])
                    sampleWorld
                    [("Title", json.Str "Go Conference");
                     ("start_time", json.Str "2025-08-22T10:00:00Z");
                     ("end_time", json.Null)]
                    (api.mkInput "Go Conference" None
                                 (time.mkTime 63891453600 0 time.UTC) time.zero)
                    eq_refl eq_refl)).
    + right. intros (k & v & [H|[H|[H|[]]]] & Hf & Hv);
        inversion H; subst; try discriminate. now apply Hv.
    + reflexivity.
    + cbn. lia.
Defined.
